(** * wave.py: the DART record parser, the station table and the main flow

    A shallow embedding of [fetch_dart_data] and [main] of [wave.py].

    Conventions of the embedding.
    - A Python [str] is a [string]; a character is its code point, so the
      texts covered are those whose code points are below 256.
    - A raised exception is the [Raise] branch of [result]; [bind] is the
      sequencing of statements that may raise.
    - The calls into [requests], [re], [pandas] and the builtins are
      definitions of this file that follow the documented behaviour of the
      callee, each next to the source line that calls it. *)

From Stdlib Require Import Bool Ascii String List ZArith QArith Lia.
From Stdlib Require Import Sorted.
Import ListNotations.

Local Open Scope string_scope.
Local Open Scope Z_scope.

(** ** Exceptions and results

    The exceptions that the run can meet; each of them is an [Exception],
    which the [except] clause of [main] catches. *)

Inductive exn : Type :=
| RequestException                (* requests.get: timeout, connection failure *)
| HTTPError (status : Z)          (* resp.raise_for_status() *)
| IndexError                      (* parts[i] out of range *)
| ValueError (msg : string).      (* float(), pd.to_datetime(), "No data found" *)

Inductive result (A : Type) : Type :=
| Ok (a : A)
| Raise (e : exn).

Arguments Ok {A} a.
Arguments Raise {A} e.

Definition bind {A B : Type} (r : result A) (k : A -> result B) : result B :=
  match r with
  | Ok a => k a
  | Raise e => Raise e
  end.

Notation "'do' x <- r ; k" := (bind r (fun x => k))
  (at level 10, x name, r at level 100, k at level 200).

Definition is_ok {A : Type} (r : result A) : bool :=
  match r with Ok _ => true | Raise _ => false end.

(** ** Characters and the [str] methods the parser calls *)

Module Str.

Definition code (c : ascii) : N := N_of_ascii c.

Definition in_range (lo hi : N) (c : ascii) : bool :=
  ((lo <=? code c) && (code c <=? hi))%N.

(** [str.isspace] on code points below 256: TAB..CR, FS..US, space, NEL
    and the no-break space. *)
Definition isspace (c : ascii) : bool :=
  in_range 9 13 c || in_range 28 31 c || (code c =? 32)%N
  || (code c =? 133)%N || (code c =? 160)%N.

(** The line boundaries of [str.splitlines] below 256: LF, VT, FF, CR,
    FS, GS, RS and NEL. *)
Definition islinebreak (c : ascii) : bool :=
  in_range 10 13 c || in_range 28 30 c || (code c =? 133)%N.

(** [\d] of [re] on code points below 256: the ten ASCII digits. *)
Definition isdigit (c : ascii) : bool := in_range 48 57 c.

Definition is_lf (c : ascii) : bool := (code c =? 10)%N.
Definition is_cr (c : ascii) : bool := (code c =? 13)%N.

Fixpoint of_rev (acc : list ascii) (tail : string) : string :=
  match acc with
  | [] => tail
  | c :: acc' => of_rev acc' (String c tail)
  end.

(** [s.splitlines()]: [acc] holds the current line backwards; [skip_lf]
    is set right after a CR, whose LF belongs to the same boundary. *)
Fixpoint splitlines_go (skip_lf : bool) (acc : list ascii) (s : string)
  : list string :=
  match s with
  | EmptyString =>
      match acc with
      | [] => []
      | _ :: _ => [of_rev acc EmptyString]
      end
  | String c s' =>
      if skip_lf && is_lf c then splitlines_go false acc s'
      else if islinebreak c
           then of_rev acc EmptyString :: splitlines_go (is_cr c) [] s'
           else splitlines_go false (c :: acc) s'
  end.

Definition splitlines (s : string) : list string := splitlines_go false [] s.

Fixpoint lstrip (s : string) : string :=
  match s with
  | EmptyString => EmptyString
  | String c s' => if isspace c then lstrip s' else s
  end.

Fixpoint rstrip (s : string) : string :=
  match s with
  | EmptyString => EmptyString
  | String c s' =>
      match rstrip s' with
      | EmptyString => if isspace c then EmptyString else String c EmptyString
      | r => String c r
      end
  end.

(** [s.strip()] *)
Definition strip (s : string) : string := rstrip (lstrip s).

(** [s.startswith('#')] *)
Definition startswith_hash (s : string) : bool :=
  match s with
  | String c _ => (code c =? 35)%N
  | EmptyString => false
  end.

(** [s.split()]: the maximal runs of non-whitespace characters. *)
Fixpoint split_go (acc : list ascii) (s : string) : list string :=
  match s with
  | EmptyString =>
      match acc with
      | [] => []
      | _ :: _ => [of_rev acc EmptyString]
      end
  | String c s' =>
      if isspace c
      then match acc with
           | [] => split_go [] s'
           | _ :: _ => of_rev acc EmptyString :: split_go [] s'
           end
      else split_go (c :: acc) s'
  end.

Definition split (s : string) : list string := split_go [] s.

Fixpoint all_digits (s : string) : bool :=
  match s with
  | EmptyString => true
  | String c s' => isdigit c && all_digits s'
  end.

(** [re.fullmatch(r'\d{14}', s)] *)
Definition fullmatch_d14 (s : string) : bool :=
  (String.length s =? 14)%nat && all_digits s.

(** [re.fullmatch(r'\d+', s)] *)
Definition fullmatch_digits (s : string) : bool :=
  negb (String.length s =? 0)%nat && all_digits s.

(** [' '.join(l)] *)
Definition join_space (l : list string) : string := String.concat " " l.

End Str.

(** ** [float(token)]

    A height is the exact decimal value of its literal: the rounding of
    [float] to binary64 is not part of the embedding. *)

Inductive pyfloat : Type :=
| FNan
| FInf (neg : bool)
| FVal (q : Q).

Module PyFloat.

Definition is_char (n : N) (c : ascii) : bool := (Str.code c =? n)%N.

(** The underscore rule of numeric literals: an underscore stands between
    two digits.  [prev] is the previous character, if any. *)
Fixpoint drop_underscores (prev : option ascii) (s : string) : option string :=
  match s with
  | EmptyString =>
      match prev with
      | Some p => if is_char 95 p then None else Some EmptyString
      | None => Some EmptyString
      end
  | String c s' =>
      let prev_digit := match prev with Some p => Str.isdigit p | None => false end in
      let prev_under := match prev with Some p => is_char 95 p | None => false end in
      if is_char 95 c
      then if prev_digit then drop_underscores (Some c) s' else None
      else if prev_under && negb (Str.isdigit c) then None
           else option_map (String c) (drop_underscores (Some c) s')
  end.

(** An optional sign: [true] for minus. *)
Definition sign (s : string) : bool * string :=
  match s with
  | String c s' =>
      if is_char 45 c then (true, s')
      else if is_char 43 c then (false, s')
      else (false, s)
  | EmptyString => (false, s)
  end.

(** The longest prefix of digits and what follows it. *)
Fixpoint span_digits (s : string) : string * string :=
  match s with
  | String c s' =>
      if Str.isdigit c
      then let (d, r) := span_digits s' in (String c d, r)
      else (EmptyString, s)
  | EmptyString => (EmptyString, EmptyString)
  end.

Definition digit_value (c : ascii) : Z := Z.of_N (Str.code c) - 48.

Fixpoint int_go (acc : Z) (s : string) : Z :=
  match s with
  | EmptyString => acc
  | String c s' => int_go (10 * acc + digit_value c) s'
  end.

(** [int(s)] for a string of ASCII digits. *)
Definition int_of_digits (s : string) : Z := int_go 0 s.

Definition lower (c : ascii) : ascii :=
  if Str.in_range 65 90 c then ascii_of_N (Str.code c + 32) else c.

Fixpoint lowercase (s : string) : string :=
  match s with
  | EmptyString => EmptyString
  | String c s' => String (lower c) (lowercase s')
  end.

(** [m * 10^e], in lowest terms. *)
Definition decimal (neg : bool) (m e : Z) : Q :=
  let q := if 0 <=? e then Qmake (m * 10 ^ e) 1
           else Qmake m (Z.to_pos (10 ^ (- e))) in
  Qred (if neg then Qopp q else q).

Definition bad (s : string) : exn :=
  ValueError ("could not convert string to float: '" ++ s ++ "'").

Definition parse_number (neg : bool) (u : string) : option pyfloat :=
  let (ip, r1) := span_digits u in
  let (fp, r2) :=
    match r1 with
    | String c r => if is_char 46 c then span_digits r else (EmptyString, r1)
    | EmptyString => (EmptyString, r1)
    end in
  let frac := Z.of_nat (String.length fp) in
  let mant := int_of_digits (ip ++ fp) in
  if ((String.length ip =? 0) && (String.length fp =? 0))%nat then None
  else
    match r2 with
    | EmptyString => Some (FVal (decimal neg mant (- frac)))
    | String c r3 =>
        if is_char 101 (lower c)
        then let (eneg, r4) := sign r3 in
             let (ed, r5) := span_digits r4 in
             match ed, r5 with
             | String _ _, EmptyString =>
                 let e := int_of_digits ed in
                 Some (FVal (decimal neg mant ((if eneg then - e else e) - frac)))
             | _, _ => None
             end
        else None
    end.

(** [float(s)] for a token [s], which holds no whitespace. *)
Definition float (s : string) : result pyfloat :=
  match drop_underscores None s with
  | None => Raise (bad s)
  | Some t =>
      let (neg, u) := sign t in
      let l := lowercase u in
      if String.eqb l "inf" || String.eqb l "infinity" then Ok (FInf neg)
      else if String.eqb l "nan" then Ok FNan
      else match parse_number neg u with
           | Some f => Ok f
           | None => Raise (bad s)
           end
  end.

End PyFloat.

(** ** [pd.to_datetime(s, format=..., utc=True)]

    With an explicit format pandas matches the text against the regular
    expression that [strptime] builds from the format, requires the match to
    cover the whole text, builds the calendar date and converts it to a
    nanosecond count since the epoch.  A [Timestamp] is here the number of
    whole seconds since 1970-01-01T00:00:00Z: neither format has a fraction
    and [utc=True] stamps the zone on the same instant. *)

Definition Timestamp : Type := Z.

Module Strptime.

(** A directive of the format: the candidate matches at the head of the
    text, in the order the backtracking matcher tries them, each with the
    integer read and the text left. *)
Definition directive : Type := string -> list (Z * string).

Definition is_char (n : N) (c : ascii) : bool := (Str.code c =? n)%N.

Definition one (p : ascii -> bool) : directive :=
  fun s =>
    match s with
    | String a r => if p a then [(PyFloat.digit_value a, r)] else []
    | EmptyString => []
    end.

Definition two (p1 p2 : ascii -> bool) : directive :=
  fun s =>
    match s with
    | String a (String b r) =>
        if p1 a && p2 b
        then [(10 * PyFloat.digit_value a + PyFloat.digit_value b, r)]
        else []
    | _ => []
    end.

Definition alt (f g : directive) : directive := fun s => (f s ++ g s)%list.

(** [%Y]: \d\d\d\d *)
Definition dir_Y : directive :=
  fun s =>
    match s with
    | String a (String b (String c (String d r))) =>
        if Str.isdigit a && Str.isdigit b && Str.isdigit c && Str.isdigit d
        then [(PyFloat.int_of_digits
                 (String a (String b (String c (String d EmptyString)))), r)]
        else []
    | _ => []
    end.

(** [%m]: 1[0-2]|0[1-9]|[1-9] *)
Definition dir_m : directive :=
  alt (two (is_char 49) (Str.in_range 48 50))
    (alt (two (is_char 48) (Str.in_range 49 57))
       (one (Str.in_range 49 57))).

(** [%d]: 3[0-1]|[1-2]\d|0[1-9]|[1-9]| [1-9] *)
Definition dir_d : directive :=
  alt (two (is_char 51) (Str.in_range 48 49))
    (alt (two (Str.in_range 49 50) Str.isdigit)
       (alt (two (is_char 48) (Str.in_range 49 57))
          (alt (one (Str.in_range 49 57))
             (fun s =>
                match s with
                | String a r => if is_char 32 a then one (Str.in_range 49 57) r else []
                | EmptyString => []
                end)))).

(** [%H]: 2[0-3]|[0-1]\d|\d *)
Definition dir_H : directive :=
  alt (two (is_char 50) (Str.in_range 48 51))
    (alt (two (Str.in_range 48 49) Str.isdigit) (one Str.isdigit)).

(** [%M]: [0-5]\d|\d *)
Definition dir_M : directive :=
  alt (two (Str.in_range 48 53) Str.isdigit) (one Str.isdigit).

(** [%S]: 6[0-1]|[0-5]\d|\d *)
Definition dir_S : directive :=
  alt (two (is_char 54) (Str.in_range 48 49))
    (alt (two (Str.in_range 48 53) Str.isdigit) (one Str.isdigit)).

(** A run of whitespace in the format is [\s+]: the texts left after one
    or more whitespace characters, the longest run first. *)
Fixpoint ws_plus (s : string) : list string :=
  match s with
  | String c r => if Str.isspace c then (ws_plus r ++ [r])%list else []
  | EmptyString => []
  end.

Record fields : Type := mk_fields
  { f_year : Z; f_month : Z; f_day : Z; f_hour : Z; f_minute : Z; f_second : Z }.

Definition andthen {R : Type} (f : directive) (k : Z -> string -> list R)
  (s : string) : list R :=
  flat_map (fun vr => k (fst vr) (snd vr)) (f s).

Definition space {R : Type} (k : string -> list R) (s : string) : list R :=
  flat_map k (ws_plus s).

(** The matches of '%Y%m%d%H%M%S' at the head of the text. *)
Definition matches_compact : string -> list (fields * string) :=
  andthen dir_Y (fun y =>
  andthen dir_m (fun mo =>
  andthen dir_d (fun d =>
  andthen dir_H (fun h =>
  andthen dir_M (fun mi =>
  andthen dir_S (fun sec r => [(mk_fields y mo d h mi sec, r)])))))).

(** The matches of '%Y %m %d %H %M %S' at the head of the text. *)
Definition matches_spaced : string -> list (fields * string) :=
  andthen dir_Y (fun y => space (
  andthen dir_m (fun mo => space (
  andthen dir_d (fun d => space (
  andthen dir_H (fun h => space (
  andthen dir_M (fun mi => space (
  andthen dir_S (fun sec r => [(mk_fields y mo d h mi sec, r)]))))))))))).

Definition is_leap (y : Z) : bool :=
  ((y mod 4 =? 0) && negb (y mod 100 =? 0)) || (y mod 400 =? 0).

Definition days_in_month (y m : Z) : Z :=
  if m =? 2 then (if is_leap y then 29 else 28)
  else if (m =? 4) || (m =? 6) || (m =? 9) || (m =? 11) then 30
  else 31.

Definition days_before_month (y m : Z) : Z :=
  fold_left (fun acc k => acc + days_in_month y (Z.of_nat k))
    (List.seq 1 (Z.to_nat (m - 1))) 0.

(** Days from 1970-01-01 to the given date of the proleptic Gregorian
    calendar. *)
Definition days_from_epoch (y m d : Z) : Z :=
  365 * (y - 1) + (y - 1) / 4 - (y - 1) / 100 + (y - 1) / 400
  + days_before_month y m + (d - 1) - 719162.

Definition epoch_seconds (f : fields) : Timestamp :=
  ((days_from_epoch (f_year f) (f_month f) (f_day f) * 24 + f_hour f) * 60
   + f_minute f) * 60 + f_second f.

(** The instant reads as this many seconds since the epoch. *)
Definition utc (y mo d h mi s : Z) : Timestamp :=
  epoch_seconds (mk_fields y mo d h mi s).

(** [datetime.date(year, month, day)] accepts the date. *)
Definition date_ok (f : fields) : bool :=
  (1 <=? f_year f) && (f_year f <=? 9999)
  && (1 <=? f_month f) && (f_month f <=? 12)
  && (1 <=? f_day f) && (f_day f <=? days_in_month (f_year f) (f_month f)).

(** The nanosecond count fits a signed 64-bit integer other than the
    smallest one, which is NaT. *)
Definition in_bounds (t : Timestamp) : bool :=
  (- 2 ^ 63 <? t * 10 ^ 9) && (t * 10 ^ 9 <? 2 ^ 63).

(** The first match decides; it has to cover the text.  The date has to
    exist; the time of day is counted on from its midnight, so that a second
    of 60 or 61, which [%S] admits, falls into the next minute.  The message
    of the error is abridged. *)
Definition convert (candidates : list (fields * string)) : result Timestamp :=
  match candidates with
  | [] => Raise (ValueError "time data doesn't match format")
  | (f, rest) :: _ =>
      match rest with
      | String _ _ => Raise (ValueError "unconverted data remains")
      | EmptyString =>
          if negb (date_ok f)
          then Raise (ValueError "day is out of range for month")
          else if negb (in_bounds (epoch_seconds f))
               then Raise (ValueError "Out of bounds nanosecond timestamp")
               else Ok (epoch_seconds f)
      end
  end.

End Strptime.

(** [pd.to_datetime(s, format='%Y%m%d%H%M%S', utc=True)] *)
Definition to_datetime_compact (s : string) : result Timestamp :=
  Strptime.convert (Strptime.matches_compact s).

(** [pd.to_datetime(s, format='%Y %m %d %H %M %S', utc=True)] *)
Definition to_datetime_spaced (s : string) : result Timestamp :=
  Strptime.convert (Strptime.matches_spaced s).

(** ** The table of one station

    [pd.DataFrame(records, columns=['datetime', 'water_height'])
       .set_index('datetime')]: the rows in order, each the index label and
    the value of the one column. *)

Definition Reading : Type := (Timestamp * pyfloat)%type.
Definition DataFrame : Type := list Reading.

Definition index (df : DataFrame) : list Timestamp := map fst df.

Module Pandas.

(** [Index.is_monotonic_increasing]: no label is smaller than the one
    before it. *)
Fixpoint is_monotonic_increasing (idx : list Timestamp) : bool :=
  match idx with
  | [] => true
  | a :: rest =>
      match rest with
      | [] => true
      | b :: _ => (a <=? b) && is_monotonic_increasing rest
      end
  end.

(** [df.iloc[indexer]]: the rows at the given positions, in that order. *)
Definition take (indexer : list nat) (df : DataFrame) : DataFrame :=
  flat_map (fun i => match nth_error df i with
                     | Some r => [r]
                     | None => []
                     end) indexer.

(** [df.sort_index()].  A frame whose index is already monotonic is
    returned as it is; otherwise the rows are taken in the order that
    [argsort] gives for the index, which is numpy's [argsort] of the
    default [kind='quicksort']. *)
Definition sort_index (argsort : list Timestamp -> list nat) (df : DataFrame)
  : DataFrame :=
  if is_monotonic_increasing (index df) then df
  else take (argsort (index df)) df.

Definition mem (t : Timestamp) (seen : list Timestamp) : bool :=
  existsb (Z.eqb t) seen.

(** [df[~df.index.duplicated(keep='first')]]: a row stays unless its
    label occurred in a row before it. *)
Fixpoint drop_duplicated (seen : list Timestamp) (df : DataFrame) : DataFrame :=
  match df with
  | [] => []
  | (t, h) :: rest =>
      if mem t seen then drop_duplicated seen rest
      else (t, h) :: drop_duplicated (t :: seen) rest
  end.

(** [df.loc[t]] on a frame with unique labels. *)
Fixpoint lookup (t : Timestamp) (df : DataFrame) : option pyfloat :=
  match df with
  | [] => None
  | (t', h) :: rest => if t =? t' then Some h else lookup t rest
  end.

End Pandas.

(** ** [fetch_dart_data] *)

Record Response : Type := mk_response { status_code : Z; text : string }.

(** [resp.raise_for_status()] *)
Definition raise_for_status (resp : Response) : result unit :=
  if (400 <=? status_code resp) && (status_code resp <? 600)
  then Raise (HTTPError (status_code resp))
  else Ok tt.

(** [parts[i]] *)
Definition getitem (parts : list string) (i : nat) : result string :=
  match nth_error parts i with
  | Some p => Ok p
  | None => Raise IndexError
  end.

Definition is_empty (s : string) : bool :=
  match s with EmptyString => true | String _ _ => false end.

(** The condition of Case A; [p0] is [parts[0]]. *)
Definition case_A (p0 : string) (parts : list string) : bool :=
  Str.fullmatch_d14 p0 && (2 <=? length parts)%nat.

(** The condition of Case B. *)
Definition case_B (parts : list string) : bool :=
  (7 <=? length parts)%nat && forallb Str.fullmatch_digits (firstn 6 parts).

(** The body of the loop over the lines: [None] where the source runs
    [continue], the reading where it reaches [records.append]. *)
Definition parse_line (raw : string) : result (option Reading) :=
  let line := Str.strip raw in
  if is_empty line || Str.startswith_hash line then Ok None
  else
    let parts := Str.split line in
    do p0 <- getitem parts 0;
    if case_A p0 parts then
      do p0' <- getitem parts 0;
      do ts <- to_datetime_compact p0';
      do p1 <- getitem parts 1;
      do height <- PyFloat.float p1;
      Ok (Some (ts, height))
    else if case_B parts then
      let dt_str := Str.join_space (firstn 6 parts) in
      do ts <- to_datetime_spaced dt_str;
      do p6 <- getitem parts 6;
      do height <- PyFloat.float p6;
      Ok (Some (ts, height))
    else Ok None.

(** The loop: [records] grows at its end; an exception leaves the loop. *)
Fixpoint parse_lines (lines : list string) (records : list Reading)
  : result (list Reading) :=
  match lines with
  | [] => Ok records
  | raw :: rest =>
      do r <- parse_line raw;
      match r with
      | Some rec => parse_lines rest (records ++ [rec])
      | None => parse_lines rest records
      end
  end.

Definition dart_url (station_id start_date end_date : string) : string :=
  "https://www.ndbc.noaa.gov/dart_data.php"
  ++ "?station=" ++ station_id ++ "&start=" ++ start_date ++ "&end=" ++ end_date.

Definition no_data (station_id : string) : exn :=
  ValueError ("No data found for station " ++ station_id).

(** The part of [fetch_dart_data] after the response is in: from the text
    to the table. *)
Definition build_table (argsort : list Timestamp -> list nat)
  (station_id : string) (raw : string) : result DataFrame :=
  do records <- parse_lines (Str.splitlines raw) [];
  match records with
  | [] => Raise (no_data station_id)
  | _ :: _ =>
      let df := Pandas.sort_index argsort records in
      Ok (Pandas.drop_duplicated [] df)
  end.

(** [fetch_dart_data(station_id, start_date, end_date)].  [requests_get] is
    [requests.get(url, timeout=10)], the network as the run meets it. *)
Definition fetch_dart_data (requests_get : string -> result Response)
  (argsort : list Timestamp -> list nat)
  (station_id start_date end_date : string) : result DataFrame :=
  let url := dart_url station_id start_date end_date in
  do resp <- requests_get url;
  do _ <- raise_for_status resp;
  build_table argsort station_id (text resp).

(** ** The combined table: [pd.concat(dfs, axis=1)] *)

(** A frame after [df.rename(columns={'water_height': name})]. *)
Definition NamedFrame : Type := (string * DataFrame)%type.

(** One row per label; per column the height, or [None] where pandas puts
    its missing-value marker NaN. *)
Record Combined : Type := mk_combined
  { columns : list string;
    rows : list (Timestamp * list (option pyfloat)) }.

Definition combined_index (c : Combined) : list Timestamp := map fst (rows c).

Module Concat.

Fixpoint has_duplicates (idx : list Timestamp) : bool :=
  match idx with
  | [] => false
  | t :: rest => Pandas.mem t rest || has_duplicates rest
  end.

Fixpoint index_eqb (a b : list Timestamp) : bool :=
  match a, b with
  | [], [] => true
  | x :: a', y :: b' => (x =? y) && index_eqb a' b'
  | _, _ => false
  end.

(** One more label into a sorted index without duplicates. *)
Fixpoint insert (t : Timestamp) (idx : list Timestamp) : list Timestamp :=
  match idx with
  | [] => [t]
  | u :: rest =>
      if t <? u then t :: idx
      else if t =? u then idx
      else u :: insert t rest
  end.

(** The union of the indexes, sorted. *)
Definition union_indexes (idxs : list (list Timestamp)) : list Timestamp :=
  fold_left (fun acc idx => fold_left (fun a t => insert t a) idx acc) idxs [].

(** The row of label [t] after reindexing every frame to the union. *)
Definition reindexed_row (dfs : list NamedFrame) (t : Timestamp)
  : Timestamp * list (option pyfloat) :=
  (t, map (fun d => Pandas.lookup t (snd d)) dfs).

(** The row at position [i] when all frames share one index. *)
Definition aligned_row (dfs : list NamedFrame) (i : nat) (t : Timestamp)
  : Timestamp * list (option pyfloat) :=
  (t, map (fun d => option_map snd (nth_error (snd d) i)) dfs).

Fixpoint aligned_rows (dfs : list NamedFrame) (i : nat) (idx : list Timestamp)
  : list (Timestamp * list (option pyfloat)) :=
  match idx with
  | [] => []
  | t :: rest => aligned_row dfs i t :: aligned_rows dfs (S i) rest
  end.

(** [pd.concat(dfs, axis=1)]: frames that share one index are put side by
    side; otherwise every frame is reindexed to the union of the indexes,
    which pandas refuses when an index has a duplicate label. *)
Definition concat (dfs : list NamedFrame) : result Combined :=
  match dfs with
  | [] => Raise (ValueError "No objects to concatenate")
  | d :: rest =>
      if forallb (fun d' => index_eqb (index (snd d')) (index (snd d))) rest
      then Ok (mk_combined (map fst dfs) (aligned_rows dfs 0 (index (snd d))))
      else if existsb (fun d' => has_duplicates (index (snd d'))) dfs
           then Raise (ValueError
                  "Reindexing only valid with uniquely valued Index objects")
           else Ok (mk_combined (map fst dfs)
                      (map (reindexed_row dfs)
                         (union_indexes (map (fun d' => index (snd d')) dfs))))
  end.

(** [combined.tail()]: the last five rows. *)
Definition tail (c : Combined) : list (Timestamp * list (option pyfloat)) :=
  skipn (length (rows c) - 5) (rows c).

End Concat.

(** ** [main] *)

Definition stations : list (string * string) :=
  [ ("Kamchatka (21416)", "21416");
    ("Tokyo SE (21413)", "21413");
    ("Adak AK (21414)", "21414");
    ("California W (46402)", "46402");
    ("Attu AK (21415)", "21415") ].

Definition start_date : string := "2025-07-29".
Definition end_date : string := "2025-07-30".

(** What a run does that can be seen from outside, in order. *)
Inductive output : Type :=
| Fetching (name sid from_date to_date : string)
                                         (* print(f"Fetching {name} (ID {sid}) from ... to ...") *)
| Skipped (sid : string) (e : exn)       (* print(f"  Skipped {sid}: {e}") *)
| NoDataExit                             (* print("No data fetched for any station. Exiting.") *)
| TailHeader                             (* print("=== Combined Data Tail ===") *)
| Tail (last_rows : list (Timestamp * list (option pyfloat)))
                                         (* print(combined.tail()) *)
| Chart (combined : Combined)            (* plt.figure ... combined.plot ... plt.show() *)
| Uncaught (e : exn).                    (* an exception that leaves main *)

(** The loop over the stations: [dfs] and the printed lines so far. *)
Fixpoint fetch_stations (requests_get : string -> result Response)
  (argsort : list Timestamp -> list nat) (todo : list (string * string))
  (dfs : list NamedFrame) (out : list output) : list NamedFrame * list output :=
  match todo with
  | [] => (dfs, out)
  | (name, sid) :: rest =>
      let out1 := (out ++ [Fetching name sid start_date end_date])%list in
      match fetch_dart_data requests_get argsort sid start_date end_date with
      | Ok df =>
          fetch_stations requests_get argsort rest (dfs ++ [(name, df)])%list out1
      | Raise e =>
          fetch_stations requests_get argsort rest dfs (out1 ++ [Skipped sid e])%list
      end
  end.

Definition main (requests_get : string -> result Response)
  (argsort : list Timestamp -> list nat) : list output :=
  let (dfs, out) := fetch_stations requests_get argsort stations [] [] in
  match dfs with
  | [] => (out ++ [NoDataExit])%list
  | _ :: _ =>
      match Concat.concat dfs with
      | Raise e => (out ++ [Uncaught e])%list
      | Ok combined =>
          (out ++ [TailHeader; Tail (Concat.tail combined); Chart combined])%list
      end
  end.

(** ** numpy's [argsort] of [kind='quicksort']

    [sort_index] leaves the order of the rows to numpy, whose quicksort for
    index arrays (the scalar routine [aquicksort_] of
    [npysort/quicksort.cpp], with [aheapsort_] of [npysort/heapsort.cpp]) is
    followed here.  The index array [a] starts as 0, 1, ..., n-1 and is
    permuted in place: median-of-three partitions while a segment spans
    more than 16 places, an insertion sort on each segment left, and a
    heapsort on a segment that comes off the stack with the depth used up.
    [v] holds the keys.  The order among equal keys is no part of numpy's
    contract for this kind of sort. *)

Module Numpy.

Definition get (a : list nat) (p : nat) : nat := nth p a 0%nat.

Fixpoint set (a : list nat) (p : nat) (x : nat) : list nat :=
  match a, p with
  | [], _ => []
  | _ :: a', O => x :: a'
  | y :: a', S p' => y :: set a' p' x
  end.

Definition swap (a : list nat) (p q : nat) : list nat :=
  set (set a p (get a q)) q (get a p).

(** [v[a[p]]] *)
Definition key (v : list Timestamp) (a : list nat) (p : nat) : Timestamp :=
  nth (get a p) v 0.

Definition swap_if_less (v : list Timestamp) (a : list nat) (p q : nat)
  : list nat :=
  if key v a p <? key v a q then swap a p q else a.

(** [do ++pi; while (v[*pi] < vp)] *)
Fixpoint scan_up (fuel : nat) (v : list Timestamp) (a : list nat)
  (vp : Timestamp) (pi : nat) : nat :=
  match fuel with
  | O => S pi
  | S f => if key v a (S pi) <? vp then scan_up f v a vp (S pi) else S pi
  end.

(** [do --pj; while (vp < v[*pj])] *)
Fixpoint scan_down (fuel : nat) (v : list Timestamp) (a : list nat)
  (vp : Timestamp) (pj : nat) : nat :=
  match fuel with
  | O => pred pj
  | S f => if vp <? key v a (pred pj) then scan_down f v a vp (pred pj) else pred pj
  end.

(** The [for (;;)] of the partition; the result is the array and [pi]. *)
Fixpoint partition (fuel : nat) (v : list Timestamp) (a : list nat)
  (vp : Timestamp) (pi pj : nat) : list nat * nat :=
  match fuel with
  | O => (a, pi)
  | S f =>
      let pi' := scan_up (length a) v a vp pi in
      let pj' := scan_down (length a) v a vp pj in
      if (pj' <=? pi')%nat then (a, pi')
      else partition f v (swap a pi' pj') vp pi' pj'
  end.

(** [while (pj > pl && vp < v[*pk]) *pj-- = *pk--] *)
Fixpoint shift (fuel : nat) (v : list Timestamp) (a : list nat)
  (vp : Timestamp) (pl pj : nat) : list nat * nat :=
  match fuel with
  | O => (a, pj)
  | S f =>
      if (pl <? pj)%nat && (vp <? key v a (pred pj))
      then shift f v (set a pj (get a (pred pj))) vp pl (pred pj)
      else (a, pj)
  end.

(** One round of the insertion sort: the position kept at [pi] goes down
    to its place in the segment that starts at [pl]. *)
Definition insert_step (v : list Timestamp) (pl : nat) (a : list nat) (pi : nat)
  : list nat :=
  let vi := get a pi in
  let (a', pj) := shift pi v a (nth vi v 0) pl pi in
  set a' pj vi.

(** The insertion sort of the segment from [pl] to [pr]. *)
Definition insertion (v : list Timestamp) (a : list nat) (pl pr : nat)
  : list nat :=
  fold_left (insert_step v pl) (List.seq (S pl) (pr - pl)) a.

(** The sift-down loop of the heapsort.  The segment starts at [pl] and is
    counted from 1, so [a[j]] of the C code is the place [pl + j - 1]:
    [for (...; j <= n;) { if (j < n && v[a[j]] < v[a[j+1]]) j += 1;
       if (v[tmp] < v[a[j]]) { a[i] = a[j]; i = j; j += j; } else break; }
     a[i] = tmp;] *)
Fixpoint sift (fuel : nat) (v : list Timestamp) (a : list nat)
  (pl n tmp i j : nat) : list nat :=
  match fuel with
  | O => set a (pl + i - 1) tmp
  | S f =>
      if (j <=? n)%nat then
        let j' := if (j <? n)%nat && (key v a (pl + j - 1) <? key v a (pl + j))
                  then S j else j in
        if nth tmp v 0 <? key v a (pl + j' - 1)
        then sift f v (set a (pl + i - 1) (get a (pl + j' - 1))) pl n tmp
               j' (j' + j')
        else set a (pl + i - 1) tmp
      else set a (pl + i - 1) tmp
  end.

(** [for (l = n >> 1; l > 0; --l) { tmp = a[l]; ...sift...; }] *)
Definition heapify_step (v : list Timestamp) (pl n : nat) (a : list nat) (l : nat)
  : list nat :=
  sift n v a pl n (get a (pl + l - 1)) l (l + l).

(** [for (; n > 1;) { tmp = a[n]; a[n] = a[1]; n -= 1; ...sift...; }];
    [m] is [n] before it is counted down. *)
Definition extract_step (v : list Timestamp) (pl : nat) (a : list nat) (m : nat)
  : list nat :=
  let tmp := get a (pl + m - 1) in
  sift m v (set a (pl + m - 1) (get a pl)) pl (m - 1) tmp 1 2.

(** The heapsort of the [n] places from [pl] on. *)
Definition aheapsort (v : list Timestamp) (a : list nat) (pl n : nat) : list nat :=
  let heap := fold_left (heapify_step v pl n) (rev (List.seq 1 (Nat.div2 n))) a in
  fold_left (extract_step v pl) (rev (List.seq 2 (n - 1))) heap.

Definition SMALL_QUICKSORT : nat := 16.

(** The outer [while (1)].  [popped] tells that the segment comes from
    the stack, where the depth is checked: below zero the segment is left
    to the heapsort.  The result is [None] only when the fuel runs out,
    which [aquicksort_returns] below shows not to happen. *)
Fixpoint loop (fuel : nat) (popped : bool) (v : list Timestamp) (a : list nat)
  (pl pr : nat) (stack : list (nat * nat * Z)) (cdepth : Z)
  : option (list nat) :=
  match fuel with
  | O => None
  | S f =>
      if popped && (cdepth <? 0) then
        let a1 := aheapsort v a pl (pr - pl + 1) in
        match stack with
        | [] => Some a1
        | (pl', pr', d) :: stack' => loop f true v a1 pl' pr' stack' d
        end
      else if (SMALL_QUICKSORT <? pr - pl)%nat then
        let pm := (pl + Nat.div2 (pr - pl))%nat in
        let a1 := swap_if_less v a pm pl in
        let a2 := swap_if_less v a1 pr pm in
        let a3 := swap_if_less v a2 pm pl in
        let vp := key v a3 pm in
        let a4 := swap a3 pm (pr - 1) in
        let (a5, pi) := partition (length a) v a4 vp pl (pr - 1) in
        let a6 := swap a5 pi (pr - 1) in
        if (pi - pl <? pr - pi)%nat
        then loop f false v a6 pl (pi - 1) ((S pi, pr, cdepth - 1) :: stack)
               (cdepth - 1)
        else loop f false v a6 (S pi) pr ((pl, (pi - 1)%nat, cdepth - 1) :: stack)
               (cdepth - 1)
      else
        let a1 := insertion v a pl pr in
        match stack with
        | [] => Some a1
        | (pl', pr', d) :: stack' => loop f true v a1 pl' pr' stack' d
        end
  end.

(** [np.argsort(v, kind='quicksort')] *)
Definition aquicksort (v : list Timestamp) : option (list nat) :=
  let n := length v in
  loop (2 * n + 1) false v (List.seq 0 n) 0 (n - 1) []
    (2 * Z.log2 (Z.of_nat n)).

(** The permutation as [sort_index] takes it; the sort always returns
    one ([aquicksort_returns]). *)
Definition argsort_quicksort (v : list Timestamp) : list nat :=
  match aquicksort v with
  | Some a => a
  | None => []
  end.

End Numpy.

(** ** The shape of a line

    The loop body read as a classification followed by the two
    conversions; [parse_line_classify] below shows that [parse_line]
    computes exactly this. *)

Inductive shape : Type :=
| Ignored                                     (* blank line or comment *)
| CombinedTimestamp (stamp height : string)   (* Case A *)
| SplitTimestamp (stamp height : string)      (* Case B, the six fields joined *)
| Unrecognized.

Definition classify (raw : string) : shape :=
  let line := Str.strip raw in
  if is_empty line || Str.startswith_hash line then Ignored
  else
    let parts := Str.split line in
    match parts with
    | [] => Unrecognized
    | p0 :: _ =>
        if case_A p0 parts then CombinedTimestamp p0 (nth 1 parts EmptyString)
        else if case_B parts
             then SplitTimestamp (Str.join_space (firstn 6 parts))
                    (nth 6 parts EmptyString)
             else Unrecognized
    end.


(** The height token of a line that has a record shape. *)
Definition height_token (raw : string) : option string :=
  match classify raw with
  | CombinedTimestamp _ h => Some h
  | SplitTimestamp _ h => Some h
  | Ignored | Unrecognized => None
  end.

Definition reading_of (s : shape) : result (option Reading) :=
  match s with
  | Ignored | Unrecognized => Ok None
  | CombinedTimestamp stamp h =>
      do ts <- to_datetime_compact stamp;
      do height <- PyFloat.float h;
      Ok (Some (ts, height))
  | SplitTimestamp stamp h =>
      do ts <- to_datetime_spaced stamp;
      do height <- PyFloat.float h;
      Ok (Some (ts, height))
  end.

(** The first character of a line that is not whitespace. *)
Fixpoint first_nonspace (s : string) : option ascii :=
  match s with
  | EmptyString => None
  | String c s' => if Str.isspace c then first_nonspace s' else Some c
  end.

(** A blank line, or a line whose first non-whitespace character is '#'. *)
Definition blank_or_comment (s : string) : Prop :=
  first_nonspace s = None \/ first_nonspace s = Some "#"%char.

(** The cell of a station at a label of the combined table: the height of
    the station's row of that label, or the marker where the station has
    no row of it. *)
Definition cell_of (df : DataFrame) (t : Timestamp) (c : option pyfloat) : Prop :=
  match c with
  | Some h => In (t, h) df
  | None => ~ In t (index df)
  end.

(** Every configured station fails: its fetch-and-parse raises. *)
Definition all_stations_fail (requests_get : string -> result Response)
  (argsort : list Timestamp -> list nat) : bool :=
  forallb
    (fun st => negb (is_ok (fetch_dart_data requests_get argsort (snd st)
                              start_date end_date)))
    stations.

(** What the loop prints for one station. *)
Definition station_report (requests_get : string -> result Response)
  (argsort : list Timestamp -> list nat) (st : string * string) : list output :=
  match fetch_dart_data requests_get argsort (snd st) start_date end_date with
  | Ok _ => [Fetching (fst st) (snd st) start_date end_date]
  | Raise e => [Fetching (fst st) (snd st) start_date end_date; Skipped (snd st) e]
  end.

(** What the loop appends to [dfs] for one station. *)
Definition station_frame (requests_get : string -> result Response)
  (argsort : list Timestamp -> list nat) (st : string * string) : list NamedFrame :=
  match fetch_dart_data requests_get argsort (snd st) start_date end_date with
  | Ok df => [(fst st, df)]
  | Raise _ => []
  end.

(** A line of progress: the announcement of a fetch, or a skip. *)
Definition is_progress (o : output) : bool :=
  match o with
  | Fetching _ _ _ _ | Skipped _ _ => true
  | _ => false
  end.

(** The six fields of a fourteen-digit stamp, each at its place. *)
Definition fixed_fields (stamp : string) : Strptime.fields :=
  Strptime.mk_fields
    (PyFloat.int_of_digits (substring 0 4 stamp))
    (PyFloat.int_of_digits (substring 4 2 stamp))
    (PyFloat.int_of_digits (substring 6 2 stamp))
    (PyFloat.int_of_digits (substring 8 2 stamp))
    (PyFloat.int_of_digits (substring 10 2 stamp))
    (PyFloat.int_of_digits (substring 12 2 stamp)).

(** The six fields of Case B, each token read as an integer. *)
Definition token_fields (parts : list string) : Strptime.fields :=
  Strptime.mk_fields
    (PyFloat.int_of_digits (nth 0 parts EmptyString))
    (PyFloat.int_of_digits (nth 1 parts EmptyString))
    (PyFloat.int_of_digits (nth 2 parts EmptyString))
    (PyFloat.int_of_digits (nth 3 parts EmptyString))
    (PyFloat.int_of_digits (nth 4 parts EmptyString))
    (PyFloat.int_of_digits (nth 5 parts EmptyString)).


(** A date of the calendar and a time of day.  The second may be 60 or 61,
    which the seconds directive of the format admits. *)
Definition calendar_ok (f : Strptime.fields) : bool :=
  Strptime.date_ok f
  && (0 <=? Strptime.f_hour f) && (Strptime.f_hour f <=? 23)
  && (0 <=? Strptime.f_minute f) && (Strptime.f_minute f <=? 59)
  && (0 <=? Strptime.f_second f) && (Strptime.f_second f <=? 61).

(** What a directive took from the head of [s] to read [v] and leave [r]:
    two digits, a blank and a digit, or one digit; [v] lies between [lo]
    and [hi]. *)
Definition took (lo hi : Z) (s : string) (v : Z) (r : string) : Prop :=
  lo <= v <= hi
  /\ ((exists a b, s = String a (String b r) /\ Str.isdigit b = true
                   /\ ((Str.isdigit a = true
                        /\ v = 10 * PyFloat.digit_value a + PyFloat.digit_value b)
                       \/ Str.isdigit a = false))
      \/ (exists a, s = String a r /\ Str.isdigit a = true
                    /\ v = PyFloat.digit_value a)).

(** [perm] orders the positions of [idx] and keeps ties in order: it holds
    every position, and of two positions with the same label the smaller
    one comes first.  A stable sort gives such an order. *)
Definition keeps_tie_order (idx : list Timestamp) (perm : list nat) : Prop :=
  (forall i, (i < length idx)%nat -> In i perm)
  /\ (forall a b pre mid post,
         perm = (pre ++ a :: mid ++ b :: post)%list ->
         nth_error idx a = nth_error idx b -> (a < b)%nat).

(** ** A feed with a repeated timestamp *)

Definition LF : string := String (ascii_of_nat 10) EmptyString.

(** Eighteen record lines, the newest first; the first two carry the same
    timestamp, 2025-07-29T12:16:00Z, with the heights 4.250 and 4.000. *)
Definition feed18_lines : list string :=
    [ "20250729121600 4.250";
      "20250729121600 4.000";
      "20250729121500 4.010";
      "20250729121400 4.011";
      "20250729121300 4.012";
      "20250729121200 4.013";
      "20250729121100 4.014";
      "20250729121000 4.015";
      "20250729120900 4.016";
      "20250729120800 4.017";
      "20250729120700 4.018";
      "20250729120600 4.019";
      "20250729120500 4.020";
      "20250729120400 4.021";
      "20250729120300 4.022";
      "20250729120200 4.023";
      "20250729120100 4.024";
      "20250729120000 4.025" ].

Definition feed18 : string := String.concat LF feed18_lines.

(** The shape of a line from its tokens alone. *)
Definition classify_tokens (parts : list string) : shape :=
  match parts with
  | [] => Ignored
  | p0 :: _ =>
      if Str.startswith_hash p0 then Ignored
      else if case_A p0 parts then CombinedTimestamp p0 (nth 1 parts EmptyString)
      else if case_B parts
           then SplitTimestamp (Str.join_space (firstn 6 parts))
                  (nth 6 parts EmptyString)
           else Unrecognized
  end.

(** ** The loop over the lines, read as a whole *)

(** The readings of the lines that give one, in the order of the lines. *)
Definition readings (lines : list string) : list Reading :=
  flat_map (fun raw => match parse_line raw with
                       | Ok (Some r) => [r]
                       | _ => []
                       end) lines.

(** The exception of the first line that raises, if a line does. *)
Fixpoint first_error (lines : list string) : option exn :=
  match lines with
  | [] => None
  | raw :: rest =>
      match parse_line raw with
      | Raise e => Some e
      | Ok _ => first_error rest
      end
  end.

(** A line that the loop passes over: blank, comment, or of no record
    shape. *)
Definition skipped (raw : string) : bool :=
  match classify raw with
  | Ignored | Unrecognized => true
  | CombinedTimestamp _ _ | SplitTimestamp _ _ => false
  end.

(** [perm] is an order of the positions of [idx] by which the labels do not
    decrease: what an [argsort] has to return, stable or not. *)
Definition sorts (idx : list Timestamp) (perm : list nat) : Prop :=
  (forall i, (i < length idx)%nat -> In i perm)
  /\ (forall i, In i perm -> (i < length idx)%nat)
  /\ StronglySorted (fun a b => nth a idx 0 <= nth b idx 0) perm.

(** The station's fetch succeeds. *)
Definition succeeds (requests_get : string -> result Response)
  (argsort : list Timestamp -> list nat) (st : string * string) : bool :=
  is_ok (fetch_dart_data requests_get argsort (snd st) start_date end_date).

(** The cell of a station in the row of label [t]: the height of its
    table at [t], nothing where the fetch failed or the table has no such
    row. *)
Definition station_cell (requests_get : string -> result Response)
  (argsort : list Timestamp -> list nat) (t : Timestamp) (st : string * string)
  : option pyfloat :=
  match fetch_dart_data requests_get argsort (snd st) start_date end_date with
  | Ok df => Pandas.lookup t df
  | Raise _ => None
  end.

Definition is_uncaught (o : output) : bool :=
  match o with
  | Uncaught _ => true
  | _ => false
  end.

(** A network on which two of the stations answer and the others cannot
    be reached. *)
Definition two_stations_answer (url : string) : result Response :=
  if String.eqb url (dart_url "21416" start_date end_date)
  then Ok (mk_response 200 ("20250729120000 2.5" ++ LF ++ "20250729120100 2.75"))
  else if String.eqb url (dart_url "21413" start_date end_date)
       then Ok (mk_response 200 "20250729120000 1.5")
       else Raise RequestException.

(** What a directive gives first on a token of digits that it can read as
    a whole: on two digits in range, and on one digit in range in front of
    a character that is no digit or at the end of the text. *)
Definition reads_tokens (D : Strptime.directive) (lo hi : Z) : Prop :=
  (forall (a b : ascii) (r : string),
      (48 <= Str.code a <= 57)%N -> (48 <= Str.code b <= 57)%N ->
      lo <= 10 * PyFloat.digit_value a + PyFloat.digit_value b <= hi ->
      exists tl, D (String a (String b r))
                 = (10 * PyFloat.digit_value a + PyFloat.digit_value b, r) :: tl)
  /\ (forall (a b : ascii) (r : string),
         (48 <= Str.code a <= 57)%N -> (Str.code b < 48 \/ 57 < Str.code b)%N ->
         lo <= PyFloat.digit_value a <= hi ->
         (exists tl, D (String a (String b r))
                     = (PyFloat.digit_value a, String b r) :: tl)
         /\ (exists tl, D (String a EmptyString)
                        = (PyFloat.digit_value a, EmptyString) :: tl)).



(** ** The places the sort still has to go through *)

(** A bound on the rounds of the outer loop that a segment takes: a
    partition leaves two segments that hold one place less between them. *)
Definition segment_rounds (pl pr : nat) : nat := 2 * (pr - pl) + 1.

Fixpoint stack_rounds (stack : list (nat * nat * Z)) : nat :=
  match stack with
  | [] => 0
  | (pl, pr, _) :: rest => segment_rounds pl pr + stack_rounds rest
  end.

(** The segments on the stack lie within an array of [n] places. *)
Definition stack_within (n : nat) (stack : list (nat * nat * Z)) : Prop :=
  Forall (fun seg => (snd (fst seg) < n)%nat) stack.

(** * Properties *)

(** ** Strings *)

Lemma of_rev_snoc (acc : list ascii) (c : ascii) (tail : string) :
  Str.of_rev (acc ++ [c]) tail = String c (Str.of_rev acc tail).
Proof.
  revert tail. induction acc as [|a acc IH]; intros tail; simpl.
  - reflexivity.
  - apply IH.
Qed.

Lemma rstrip_nonspace (c : ascii) (s : string) :
  Str.isspace c = false -> Str.rstrip (String c s) = String c (Str.rstrip s).
Proof.
  intros Hc. simpl. destruct (Str.rstrip s); [rewrite Hc|]; reflexivity.
Qed.

Lemma lstrip_first_nonspace (s : string) :
  match first_nonspace s with
  | None => Str.lstrip s = EmptyString
  | Some c => exists r, Str.lstrip s = String c r /\ Str.isspace c = false
  end.
Proof.
  induction s as [|c s IH]; simpl.
  - reflexivity.
  - destruct (Str.isspace c) eqn:Hc.
    + exact IH.
    + exists s. split; [reflexivity | exact Hc].
Qed.

(** What [strip] leaves is empty or starts with the first non-whitespace
    character of the line. *)
Lemma strip_first_nonspace (s : string) :
  match first_nonspace s with
  | None => Str.strip s = EmptyString
  | Some c => exists r, Str.strip s = String c r /\ Str.isspace c = false
  end.
Proof.
  unfold Str.strip. pose proof (lstrip_first_nonspace s) as H.
  destruct (first_nonspace s) as [c|].
  - destruct H as [r [Hr Hc]]. rewrite Hr, (rstrip_nonspace _ _ Hc).
    exists (Str.rstrip r). split; [reflexivity | exact Hc].
  - rewrite H. reflexivity.
Qed.

Lemma split_go_head (s : string) :
  forall (acc : list ascii) (c : ascii),
    exists tok rest, Str.split_go (acc ++ [c]) s = String c tok :: rest.
Proof.
  induction s as [|d s IH]; intros acc c; simpl.
  - destruct (acc ++ [c])%list eqn:E.
    + destruct acc; discriminate.
    + rewrite <- E, of_rev_snoc. eauto.
  - destruct (Str.isspace d).
    + destruct (acc ++ [c])%list eqn:E.
      * destruct acc; discriminate.
      * rewrite <- E, of_rev_snoc. eauto.
    + apply (IH (d :: acc) c).
Qed.

(** A stripped line that is not empty has a first token, and the token
    starts where the line starts. *)
Lemma split_nonspace (c : ascii) (r : string) :
  Str.isspace c = false ->
  exists tok rest, Str.split (String c r) = String c tok :: rest.
Proof.
  intros Hc. unfold Str.split. simpl. rewrite Hc.
  apply (split_go_head r [] c).
Qed.

(** ** The loop body *)

Lemma getitem_nth (parts : list string) (i : nat) :
  (i < length parts)%nat -> getitem parts i = Ok (nth i parts EmptyString).
Proof.
  intros H. unfold getitem.
  destruct (nth_error parts i) as [p|] eqn:E.
  - now rewrite (nth_error_nth _ _ _ E).
  - apply nth_error_None in E. lia.
Qed.

Lemma case_A_length (p0 : string) (parts : list string) :
  case_A p0 parts = true -> (1 < length parts)%nat.
Proof.
  unfold case_A. intros H. apply andb_true_iff in H. destruct H as [_ H].
  apply Nat.leb_le in H. lia.
Qed.

Lemma case_B_length (parts : list string) :
  case_B parts = true -> (6 < length parts)%nat.
Proof.
  unfold case_B. intros H. apply andb_true_iff in H. destruct H as [H _].
  apply Nat.leb_le in H. lia.
Qed.

(** [parse_line] is the classification followed by the conversions. *)
Lemma parse_line_classify (raw : string) :
  parse_line raw = reading_of (classify raw).
Proof.
  unfold parse_line, classify.
  destruct (is_empty (Str.strip raw) || Str.startswith_hash (Str.strip raw))
    eqn:Hskip; [reflexivity|].
  destruct (Str.split (Str.strip raw)) as [|p0 rest] eqn:Hparts.
  - pose proof (strip_first_nonspace raw) as Hs.
    destruct (first_nonspace raw) as [c|].
    + destruct Hs as [r [Hr Hc]]. rewrite Hr in Hparts.
      destruct (split_nonspace c r Hc) as [tok [rest E]]. congruence.
    + rewrite Hs in Hskip. discriminate.
  - cbn [getitem nth_error bind].
    destruct (case_A p0 (p0 :: rest)) eqn:HA.
    + rewrite (getitem_nth _ 1 (case_A_length _ _ HA)). reflexivity.
    + destruct (case_B (p0 :: rest)) eqn:HB; [|reflexivity].
      rewrite (getitem_nth _ 6 (case_B_length _ HB)). cbn [reading_of bind].
      destruct (to_datetime_spaced _); reflexivity.
Qed.

Lemma convert_raises_ValueError (cands : list (Strptime.fields * string)) (e : exn) :
  Strptime.convert cands = Raise e -> exists msg, e = ValueError msg.
Proof.
  unfold Strptime.convert.
  destruct cands as [|[f rest] ?]; [intros [= <-]; eauto|].
  destruct rest; [|intros [= <-]; eauto].
  destruct (negb (Strptime.date_ok f)); [intros [= <-]; eauto|].
  destruct (negb (Strptime.in_bounds _)); [intros [= <-]; eauto|discriminate].
Qed.

Lemma float_raises_ValueError (s : string) (e : exn) :
  PyFloat.float s = Raise e -> exists msg, e = ValueError msg.
Proof.
  unfold PyFloat.float, PyFloat.bad.
  destruct (PyFloat.drop_underscores None s); [|intros [= <-]; eauto].
  destruct (PyFloat.sign s0) as [neg u].
  destruct (_ || _); [discriminate|].
  destruct (String.eqb _ _); [discriminate|].
  destruct (PyFloat.parse_number neg u); [discriminate|intros [= <-]; eauto].
Qed.

(** The conversions raise [ValueError] and nothing else. *)
Lemma reading_of_raises_ValueError (s : shape) (e : exn) :
  reading_of s = Raise e -> exists msg, e = ValueError msg.
Proof.
  destruct s as [|stamp h|stamp h|]; cbn [reading_of]; try discriminate.
  - unfold to_datetime_compact.
    destruct (Strptime.convert _) eqn:E; cbn [bind].
    + destruct (PyFloat.float h) eqn:F; cbn [bind]; [discriminate|].
      intros [= <-]. eapply float_raises_ValueError; eauto.
    + intros [= <-]. eapply convert_raises_ValueError; eauto.
  - unfold to_datetime_spaced.
    destruct (Strptime.convert _) eqn:E; cbn [bind].
    + destruct (PyFloat.float h) eqn:F; cbn [bind]; [discriminate|].
      intros [= <-]. eapply float_raises_ValueError; eauto.
    + intros [= <-]. eapply convert_raises_ValueError; eauto.
Qed.

(** ** The loop over the lines *)

(** A line that raises ends the loop, whatever came before it. *)
Lemma parse_lines_raise (lines : list string) :
  forall (records : list Reading) (line : string) (e : exn),
    In line lines -> parse_line line = Raise e ->
    exists e', parse_lines lines records = Raise e'.
Proof.
  induction lines as [|raw lines IH]; intros records line e Hin Hraise.
  - destruct Hin.
  - cbn [parse_lines]. destruct Hin as [<-|Hin].
    + rewrite Hraise. cbn [bind]. eauto.
    + destruct (parse_line raw) as [[rec|]|e0]; cbn [bind]; eauto.
Qed.

(** Lines that are all skipped leave [records] as it was. *)
Lemma parse_lines_skipped (lines : list string) (records : list Reading) :
  Forall (fun line => parse_line line = Ok None) lines ->
  parse_lines lines records = Ok records.
Proof.
  induction 1 as [|raw lines Hraw _ IH]; cbn [parse_lines].
  - reflexivity.
  - rewrite Hraw. cbn [bind]. exact IH.
Qed.

(** An exception of the loop is the exception of one of its lines. *)
Lemma parse_lines_raise_inv (lines : list string) :
  forall (records : list Reading) (e : exn),
    parse_lines lines records = Raise e ->
    exists line, In line lines /\ parse_line line = Raise e.
Proof.
  induction lines as [|raw lines IH]; intros records e; cbn [parse_lines].
  - discriminate.
  - destruct (parse_line raw) as [[rec|]|e0] eqn:E; cbn [bind].
    + intros H. destruct (IH _ _ H) as [l [Hl Hr]]. exists l. split; [now right|easy].
    + intros H. destruct (IH _ _ H) as [l [Hl Hr]]. exists l. split; [now right|easy].
    + intros [= <-]. exists raw. split; [now left|easy].
Qed.

Lemma blank_or_comment_ignored (line : string) :
  blank_or_comment line -> classify line = Ignored.
Proof.
  unfold blank_or_comment, classify. intros H.
  pose proof (strip_first_nonspace line) as Hs.
  destruct H as [H|H]; rewrite H in Hs.
  - rewrite Hs. reflexivity.
  - destruct Hs as [r [Hr _]]. rewrite Hr. reflexivity.
Qed.

(** A text of blank lines and comments has no data. *)
Lemma build_table_no_data (argsort : list Timestamp -> list nat)
  (station_id raw : string) :
  Forall blank_or_comment (Str.splitlines raw) ->
  build_table argsort station_id raw = Raise (no_data station_id).
Proof.
  intros H. unfold build_table.
  rewrite parse_lines_skipped; [reflexivity|].
  eapply Forall_impl; [|exact H].
  intros line Hl. rewrite parse_line_classify, (blank_or_comment_ignored _ Hl).
  reflexivity.
Qed.

(** A line that raises leaves no table. *)
Lemma build_table_raise (argsort : list Timestamp -> list nat)
  (station_id raw line : string) (e : exn) :
  In line (Str.splitlines raw) -> parse_line line = Raise e ->
  exists e', build_table argsort station_id raw = Raise e'.
Proof.
  intros Hin Hraise. unfold build_table.
  destruct (parse_lines_raise _ [] _ _ Hin Hraise) as [e' He'].
  rewrite He'. cbn [bind]. eauto.
Qed.

Lemma fetch_dart_data_raise (requests_get : string -> result Response)
  (argsort : list Timestamp -> list nat) (sid s e : string)
  (resp : Response) (line : string) (err : exn) :
  requests_get (dart_url sid s e) = Ok resp ->
  In line (Str.splitlines (text resp)) -> parse_line line = Raise err ->
  exists e', fetch_dart_data requests_get argsort sid s e = Raise e'.
Proof.
  intros Hget Hin Hraise. unfold fetch_dart_data. rewrite Hget. cbn [bind].
  destruct (raise_for_status resp); cbn [bind]; [|eauto].
  eapply build_table_raise; eauto.
Qed.

(** ** Tokens of digits *)

Lemma digit_not_space (c : ascii) : Str.isdigit c = true -> Str.isspace c = false.
Proof.
  destruct c as [[] [] [] [] [] [] [] []]; vm_compute; congruence.
Qed.

Lemma digit_not_hash (c : ascii) :
  Str.isdigit c = true -> (Str.code c =? 35)%N = false.
Proof.
  destruct c as [[] [] [] [] [] [] [] []]; vm_compute; congruence.
Qed.

(** A token of fourteen digits starts with five digits. *)
Lemma d14_head (p0 : string) :
  Str.fullmatch_d14 p0 = true ->
  exists a b c d e tl,
    p0 = String a (String b (String c (String d (String e tl))))
    /\ Str.isdigit a = true /\ Str.isdigit b = true /\ Str.isdigit c = true
    /\ Str.isdigit d = true /\ Str.isdigit e = true.
Proof.
  unfold Str.fullmatch_d14. intros H. apply andb_true_iff in H.
  destruct H as [Hlen Hdig]. apply Nat.eqb_eq in Hlen.
  destruct p0 as [|a [|b [|c [|d [|e tl]]]]]; try discriminate.
  cbn [Str.all_digits] in Hdig.
  repeat (apply andb_true_iff in Hdig; destruct Hdig as [? Hdig]).
  exists a, b, c, d, e, tl. repeat split; assumption.
Qed.

(** Joined with what follows, the token still starts with its five
    characters. *)
Lemma join_space_head (a b c d e : ascii) (tl : string) (rest : list string) :
  exists tail,
    Str.join_space (String a (String b (String c (String d (String e tl)))) :: rest)
    = String a (String b (String c (String d (String e tail)))).
Proof.
  unfold Str.join_space. cbn [String.concat].
  destruct rest; cbn [String.append]; eauto.
Qed.

(** The split format does not match a text that starts with five digits:
    after the four digits of the year it wants whitespace. *)
Lemma spaced_rejects_five_digits (a b c d e : ascii) (tail : string) :
  Str.isdigit a = true -> Str.isdigit b = true -> Str.isdigit c = true ->
  Str.isdigit d = true -> Str.isdigit e = true ->
  Strptime.matches_spaced (String a (String b (String c (String d (String e tail)))))
  = [].
Proof.
  intros Ha Hb Hc Hd He.
  unfold Strptime.matches_spaced, Strptime.andthen at 1, Strptime.dir_Y.
  rewrite Ha, Hb, Hc, Hd. cbn [andb flat_map fst snd].
  unfold Strptime.space at 1. cbn [Strptime.ws_plus].
  rewrite (digit_not_space _ He). reflexivity.
Qed.

(** ** The parser on a line and on a text *)

(** C9. The token list is indexed in bounds: [parts[0]] is read from a
    stripped line that is neither empty nor a comment, so it has a token;
    [parts[1]] is read where Case A holds, with its two tokens; [parts[6]]
    where Case B holds, with its seven; no line, no run of the loop and no
    text makes the parser raise [IndexError]. *)
Theorem indexing_in_bounds :
  (forall raw : string,
      is_empty (Str.strip raw) || Str.startswith_hash (Str.strip raw) = false ->
      exists p0, getitem (Str.split (Str.strip raw)) 0 = Ok p0)
  /\ (forall (p0 : string) (parts : list string),
         case_A p0 parts = true -> exists p1, getitem parts 1 = Ok p1)
  /\ (forall parts : list string,
         case_B parts = true -> exists p6, getitem parts 6 = Ok p6)
  /\ (forall raw : string, parse_line raw <> Raise IndexError)
  /\ (forall (lines : list string) (records : list Reading),
         parse_lines lines records <> Raise IndexError)
  /\ (forall (argsort : list Timestamp -> list nat) (station_id raw : string),
         build_table argsort station_id raw <> Raise IndexError).
Proof.
  assert (Hline : forall raw, parse_line raw <> Raise IndexError).
  { intros raw H. rewrite parse_line_classify in H.
    destruct (reading_of_raises_ValueError _ _ H) as [msg Hmsg]. discriminate. }
  assert (Hloop : forall lines records, parse_lines lines records <> Raise IndexError).
  { intros lines records H.
    destruct (parse_lines_raise_inv _ _ _ H) as [line [_ Hl]]. exact (Hline _ Hl). }
  repeat split.
  - intros raw Hskip.
    pose proof (strip_first_nonspace raw) as Hs.
    destruct (first_nonspace raw) as [c|].
    + destruct Hs as [r [Hr Hc]]. rewrite Hr.
      destruct (split_nonspace c r Hc) as [tok [rest E]]. rewrite E.
      exists (String c tok). reflexivity.
    + rewrite Hs in Hskip. discriminate.
  - intros p0 parts HA. eexists. apply getitem_nth, (case_A_length _ _ HA).
  - intros parts HB. eexists. apply getitem_nth, (case_B_length _ HB).
  - exact Hline.
  - exact Hloop.
  - intros argsort station_id raw. unfold build_table.
    destruct (parse_lines _ _) as [[|r records]|e] eqn:E; cbn [bind].
    + unfold no_data. discriminate.
    + discriminate.
    + intros [= ->]. exact (Hloop _ _ E).
Qed.

(** C2. The first match wins: a line whose first token is fourteen digits
    and which also has the shape of Case B (seven tokens or more, the first
    six of digits) is read by Case A, the timestamp from the first token in
    the combined format and the height from the second; the reading of
    Case B would not even convert. *)
Theorem case_A_before_case_B (raw p0 : string) (rest : list string) :
  Str.split (Str.strip raw) = p0 :: rest ->
  Str.fullmatch_d14 p0 = true ->
  case_B (p0 :: rest) = true ->
  classify raw = CombinedTimestamp p0 (nth 0 rest EmptyString)
  /\ parse_line raw =
       (do ts <- to_datetime_compact p0;
        do height <- PyFloat.float (nth 0 rest EmptyString);
        Ok (Some (ts, height)))
  /\ exists e,
       to_datetime_spaced (Str.join_space (firstn 6 (p0 :: rest))) = Raise e.
Proof.
  intros Hsplit Hd14 HB.
  destruct (d14_head _ Hd14) as (a & b & c & d & e & tl & Hp0 & Ha & Hb & Hc & Hd & He).
  assert (Hclass : classify raw = CombinedTimestamp p0 (nth 0 rest EmptyString)).
  { unfold classify.
    pose proof (strip_first_nonspace raw) as Hs.
    destruct (first_nonspace raw) as [c0|].
    - destruct Hs as [r [Hr Hc0]]. rewrite Hr in *.
      destruct (split_nonspace c0 r Hc0) as [tok [rest' E]].
      rewrite E in Hsplit. injection Hsplit as Hhead Htail.
      assert (c0 = a) as -> by congruence.
      cbn [is_empty Str.startswith_hash orb]. rewrite (digit_not_hash _ Ha).
      rewrite E, Hhead, Htail.
      unfold case_A. rewrite Hd14.
      pose proof (case_B_length _ HB) as Hlen. cbn [length] in Hlen.
      replace (2 <=? length (p0 :: rest))%nat with true
        by (symmetry; apply Nat.leb_le; cbn [length]; lia).
      reflexivity.
    - rewrite Hs in Hsplit. discriminate. }
  split; [exact Hclass|]. split.
  - rewrite parse_line_classify, Hclass. reflexivity.
  - unfold to_datetime_spaced. rewrite Hp0, firstn_cons.
    destruct (join_space_head a b c d e tl (firstn 5 rest)) as [tail ->].
    rewrite (spaced_rejects_five_digits _ _ _ _ _ _ Ha Hb Hc Hd He).
    cbn [Strptime.convert]. eauto.
Qed.

(** C3. A line of a record shape whose height token [float] refuses makes
    the whole fetch of the station raise: no table comes back, whatever the
    other lines of the text hold. *)
Theorem malformed_height_aborts_fetch
  (requests_get : string -> result Response)
  (argsort : list Timestamp -> list nat) (sid s e : string)
  (resp : Response) (line tok : string) (err : exn) :
  requests_get (dart_url sid s e) = Ok resp ->
  In line (Str.splitlines (text resp)) ->
  height_token line = Some tok ->
  PyFloat.float tok = Raise err ->
  (exists e', build_table argsort sid (text resp) = Raise e')
  /\ exists e', fetch_dart_data requests_get argsort sid s e = Raise e'.
Proof.
  intros Hget Hin Htok Hfloat.
  assert (Hline : exists e0, parse_line line = Raise e0).
  { rewrite parse_line_classify. unfold height_token in Htok.
    destruct (classify line) as [|stamp h|stamp h|]; try discriminate;
      injection Htok as ->; cbn [reading_of].
    - destruct (to_datetime_compact stamp); cbn [bind]; [|eauto].
      rewrite Hfloat. cbn [bind]. eauto.
    - destruct (to_datetime_spaced stamp); cbn [bind]; [|eauto].
      rewrite Hfloat. cbn [bind]. eauto. }
  destruct Hline as [e0 He0]. split.
  - eapply build_table_raise; eauto.
  - eapply fetch_dart_data_raise; eauto.
Qed.

(** C6. A text made of blank lines and of lines whose first non-whitespace
    character is '#' has no data: the fetch raises the error that names the
    station, and no table comes back. *)
Theorem comments_and_blanks_no_data
  (requests_get : string -> result Response)
  (argsort : list Timestamp -> list nat) (sid s e : string) (resp : Response) :
  requests_get (dart_url sid s e) = Ok resp ->
  raise_for_status resp = Ok tt ->
  Forall blank_or_comment (Str.splitlines (text resp)) ->
  fetch_dart_data requests_get argsort sid s e
  = Raise (ValueError ("No data found for station " ++ sid)).
Proof.
  intros Hget Hstatus Hlines. unfold fetch_dart_data.
  rewrite Hget. cbn [bind]. rewrite Hstatus. cbn [bind].
  apply build_table_no_data. exact Hlines.
Qed.

(** C4. The line "20250729120000 1.234" gives exactly one reading, at
    2025-07-29T12:00:00Z with height 1.234, and the table of a text that
    holds this line alone is that reading. *)
Theorem combined_line_one_reading :
  Strptime.utc 2025 7 29 12 0 0 = 1753790400
  /\ parse_lines (Str.splitlines "20250729120000 1.234") []
     = Ok [(Strptime.utc 2025 7 29 12 0 0, FVal (Qred 1.234))]
  /\ forall (argsort : list Timestamp -> list nat) (sid s e : string),
       fetch_dart_data (fun _ => Ok (mk_response 200 "20250729120000 1.234"))
         argsort sid s e
       = Ok [(Strptime.utc 2025 7 29 12 0 0, FVal (Qred 1.234))].
Proof.
  split; [reflexivity|]. split; [vm_compute; reflexivity|].
  intros argsort sid s e. vm_compute. reflexivity.
Qed.

(** C5. The line "2025 07 29 12 00 00 1.234 extra ignored" gives exactly
    one reading, at 2025-07-29T12:00:00Z, which is 1753790400 seconds after
    the epoch, with height 1.234: the tokens after the seventh play no
    part, the same line without them gives the same reading. *)
Theorem split_line_one_reading :
  parse_lines (Str.splitlines "2025 07 29 12 00 00 1.234 extra ignored") []
  = Ok [(1753790400, FVal (Qred 1.234))]
  /\ parse_line "2025 07 29 12 00 00 1.234 extra ignored"
     = Ok (Some (1753790400, FVal (Qred 1.234)))
  /\ parse_line "2025 07 29 12 00 00 1.234"
     = Ok (Some (1753790400, FVal (Qred 1.234)))
  /\ forall (argsort : list Timestamp -> list nat) (sid s e : string),
       fetch_dart_data
         (fun _ => Ok (mk_response 200 "2025 07 29 12 00 00 1.234 extra ignored"))
         argsort sid s e
       = Ok [(1753790400, FVal (Qred 1.234))].
Proof.
  split; [vm_compute; reflexivity|]. split; [vm_compute; reflexivity|].
  split; [vm_compute; reflexivity|].
  intros argsort sid s e. vm_compute. reflexivity.
Qed.

(** ** The station table and the outer join *)

Lemma mem_In (t : Timestamp) (seen : list Timestamp) :
  Pandas.mem t seen = true <-> In t seen.
Proof.
  unfold Pandas.mem. rewrite existsb_exists. split.
  - intros [x [Hx Ht]]. apply Z.eqb_eq in Ht. now subst.
  - intros H. exists t. split; [exact H | apply Z.eqb_refl].
Qed.

Lemma drop_duplicated_index (df : DataFrame) :
  forall (seen : list Timestamp) (t : Timestamp),
    In t (index (Pandas.drop_duplicated seen df)) <->
    In t (index df) /\ ~ In t seen.
Proof.
  induction df as [|[t0 h0] df IH]; intros seen t; cbn [Pandas.drop_duplicated index map].
  - tauto.
  - destruct (Pandas.mem t0 seen) eqn:M.
    + apply mem_In in M. fold (index df). rewrite IH. cbn [fst In].
      split; [tauto|]. intros [[<-|H] Hn]; tauto.
    + assert (~ In t0 seen) as Hn by (rewrite <- mem_In; congruence).
      cbn [index map fst In]. fold (index (Pandas.drop_duplicated (t0 :: seen) df)).
      fold (index df). rewrite IH. cbn [In].
      destruct (Z.eq_dec t0 t) as [<-|Hne]; tauto.
Qed.

(** After [duplicated(keep='first')] no label occurs twice. *)
Lemma drop_duplicated_NoDup (df : DataFrame) :
  forall seen : list Timestamp, NoDup (index (Pandas.drop_duplicated seen df)).
Proof.
  induction df as [|[t0 h0] df IH]; intros seen; cbn [Pandas.drop_duplicated].
  - constructor.
  - destruct (Pandas.mem t0 seen); [apply IH|].
    cbn [index map fst]. constructor; [|apply IH].
    fold (index (Pandas.drop_duplicated (t0 :: seen) df)).
    rewrite drop_duplicated_index. cbn [In]. tauto.
Qed.

(** The row that stays for a label is the first row of that label. *)
Lemma drop_duplicated_lookup (df : DataFrame) :
  forall (seen : list Timestamp) (t : Timestamp),
    ~ In t seen ->
    Pandas.lookup t (Pandas.drop_duplicated seen df) = Pandas.lookup t df.
Proof.
  induction df as [|[t0 h0] df IH]; intros seen t Hn;
    cbn [Pandas.drop_duplicated Pandas.lookup].
  - reflexivity.
  - destruct (Pandas.mem t0 seen) eqn:M.
    + apply mem_In in M. destruct (Z.eqb_spec t t0) as [->|Hne]; [tauto|].
      now apply IH.
    + cbn [Pandas.lookup]. destruct (Z.eqb_spec t t0) as [->|Hne]; [reflexivity|].
      apply IH. cbn [In]. intros [H|H]; [congruence|tauto].
Qed.

(** The table that [fetch_dart_data] returns has unique labels. *)
Lemma build_table_NoDup (argsort : list Timestamp -> list nat)
  (sid raw : string) (df : DataFrame) :
  build_table argsort sid raw = Ok df -> NoDup (index df).
Proof.
  unfold build_table.
  destruct (parse_lines _ _) as [[|r records]|e]; cbn [bind]; try discriminate.
  intros [= <-]. apply drop_duplicated_NoDup.
Qed.

Lemma fetch_dart_data_NoDup (requests_get : string -> result Response)
  (argsort : list Timestamp -> list nat) (sid s e : string) (df : DataFrame) :
  fetch_dart_data requests_get argsort sid s e = Ok df -> NoDup (index df).
Proof.
  unfold fetch_dart_data.
  destruct (requests_get _); cbn [bind]; [|discriminate].
  destruct (raise_for_status _); cbn [bind]; [|discriminate].
  apply build_table_NoDup.
Qed.

(** What [lookup] finds is in the frame, and it finds nothing only for a
    label that the frame does not have. *)
Lemma lookup_cell (df : DataFrame) (t : Timestamp) :
  match Pandas.lookup t df with
  | Some h => In (t, h) df
  | None => ~ In t (index df)
  end.
Proof.
  induction df as [|[t0 h0] df IH]; cbn [Pandas.lookup index map fst In].
  - tauto.
  - destruct (Z.eqb_spec t t0) as [->|Hne].
    + now left.
    + fold (index df). destruct (Pandas.lookup t df).
      * now right.
      * intros [H|H]; [congruence|tauto].
Qed.

Lemma nth_error_lookup (df : DataFrame) :
  forall (k : nat) (t : Timestamp),
    NoDup (index df) -> nth_error (index df) k = Some t ->
    option_map snd (nth_error df k) = Pandas.lookup t df.
Proof.
  induction df as [|[t0 h0] df IH]; intros k t Hnd Hk.
  - destruct k; discriminate.
  - cbn [index map fst] in Hnd, Hk. fold (index df) in Hnd, Hk.
    inversion Hnd as [|? ? Hnotin Hnd']; subst.
    destruct k as [|k]; cbn [nth_error] in *.
    + injection Hk as <-. cbn [Pandas.lookup option_map snd].
      now rewrite Z.eqb_refl.
    + cbn [Pandas.lookup]. destruct (Z.eqb_spec t t0) as [->|Hne].
      * apply nth_error_In in Hk. tauto.
      * now apply IH.
Qed.

Lemma has_duplicates_NoDup (idx : list Timestamp) :
  NoDup idx -> Concat.has_duplicates idx = false.
Proof.
  induction 1 as [|t idx Hnotin _ IH]; cbn [Concat.has_duplicates].
  - reflexivity.
  - rewrite IH, orb_false_r. destruct (Pandas.mem t idx) eqn:M; [|reflexivity].
    apply mem_In in M. tauto.
Qed.

Lemma index_eqb_eq (a b : list Timestamp) :
  Concat.index_eqb a b = true -> a = b.
Proof.
  revert b. induction a as [|x a IH]; intros [|y b]; cbn [Concat.index_eqb];
    try discriminate; [reflexivity|].
  intros H. apply andb_true_iff in H. destruct H as [Hxy Hab].
  apply Z.eqb_eq in Hxy. f_equal; [exact Hxy | now apply IH].
Qed.

Lemma insert_In (t : Timestamp) (idx : list Timestamp) (x : Timestamp) :
  In x (Concat.insert t idx) <-> x = t \/ In x idx.
Proof.
  induction idx as [|u idx IH]; cbn [Concat.insert In].
  - intuition congruence.
  - destruct (Z.ltb_spec t u); [cbn [In]; intuition congruence|].
    destruct (Z.eqb_spec t u) as [->|Hne]; cbn [In]; [intuition congruence|].
    rewrite IH. intuition congruence.
Qed.

Lemma insert_sorted (t : Timestamp) (idx : list Timestamp) :
  StronglySorted Z.lt idx -> StronglySorted Z.lt (Concat.insert t idx).
Proof.
  induction 1 as [|u idx Hs IH Hall]; cbn [Concat.insert].
  - repeat constructor.
  - destruct (Z.ltb_spec t u) as [Hlt|Hge].
    + constructor; [now constructor|]. constructor; [exact Hlt|].
      eapply Forall_impl; [|exact Hall]. intros; cbn in *; lia.
    + destruct (Z.eqb_spec t u) as [->|Hne]; [now constructor|].
      constructor; [exact IH|]. apply Forall_forall. intros x Hx.
      apply insert_In in Hx. destruct Hx as [->|Hx]; [lia|].
      rewrite Forall_forall in Hall. now apply Hall.
Qed.

Lemma sorted_NoDup (idx : list Timestamp) :
  StronglySorted Z.lt idx -> NoDup idx.
Proof.
  induction 1 as [|u idx Hs IH Hall]; constructor; [|exact IH].
  intros Hin. rewrite Forall_forall in Hall. specialize (Hall _ Hin). lia.
Qed.

Lemma insert_all_spec (idx : list Timestamp) :
  forall acc : list Timestamp,
    StronglySorted Z.lt acc ->
    let r := fold_left (fun a t => Concat.insert t a) idx acc in
    StronglySorted Z.lt r /\ forall x, In x r <-> In x acc \/ In x idx.
Proof.
  induction idx as [|t idx IH]; intros acc Hacc; cbn [fold_left].
  - split; [exact Hacc | cbn [In]; tauto].
  - destruct (IH (Concat.insert t acc) (insert_sorted t acc Hacc)) as [Hs Hin].
    split; [exact Hs|]. intros x. rewrite Hin, insert_In. cbn [In].
    intuition congruence.
Qed.

(** The union of the indexes is sorted and holds the labels of all. *)
Lemma union_indexes_spec (idxs : list (list Timestamp)) :
  forall acc : list Timestamp,
    StronglySorted Z.lt acc ->
    let r := fold_left (fun acc idx => fold_left (fun a t => Concat.insert t a) idx acc)
               idxs acc in
    StronglySorted Z.lt r
    /\ forall x, In x r <-> In x acc \/ exists idx, In idx idxs /\ In x idx.
Proof.
  induction idxs as [|idx idxs IH]; intros acc Hacc; cbn [fold_left].
  - split; [exact Hacc|]. intros x. split; [tauto|].
    intros [H|[? [[] _]]]. exact H.
  - destruct (insert_all_spec idx acc Hacc) as [Hs Hin].
    destruct (IH _ Hs) as [Hs' Hin']. split; [exact Hs'|].
    intros x. rewrite Hin', Hin. cbn [In]. split.
    + intros [[H|H]|[i [Hi Hx]]]; eauto.
    + intros [H|[i [[<-|Hi] Hx]]]; eauto.
Qed.

Lemma aligned_rows_index (dfs : list NamedFrame) (idx : list Timestamp) :
  forall i : nat, map fst (Concat.aligned_rows dfs i idx) = idx.
Proof.
  induction idx as [|t idx IH]; intros i; cbn [Concat.aligned_rows map fst].
  - reflexivity.
  - now rewrite IH.
Qed.

Lemma aligned_rows_In (dfs : list NamedFrame) (idx : list Timestamp) :
  forall (i : nat) (t : Timestamp) (cells : list (option pyfloat)),
    In (t, cells) (Concat.aligned_rows dfs i idx) ->
    exists k, nth_error idx k = Some t
              /\ cells = map (fun d => option_map snd (nth_error (snd d) (i + k))) dfs.
Proof.
  induction idx as [|u idx IH]; intros i t cells; cbn [Concat.aligned_rows In].
  - tauto.
  - intros [H|H].
    + unfold Concat.aligned_row in H. injection H as <- <-.
      exists 0%nat. now rewrite Nat.add_0_r.
    + destruct (IH _ _ _ H) as [k [Hk Hc]]. exists (S k).
      split; [exact Hk|]. now rewrite Nat.add_succ_r.
Qed.

(** C7. The outer join of two station tables: the labels of the combined
    table are those of the one table together with those of the other,
    each once; the row of a label holds, per station, the height of the
    station's row of that label, and the no-value marker, not a zero, where
    the station has no such row. *)
Theorem outer_join_is_union (n1 n2 : string) (d1 d2 : DataFrame) :
  NoDup (index d1) -> NoDup (index d2) ->
  exists c : Combined,
    Concat.concat [(n1, d1); (n2, d2)] = Ok c
    /\ columns c = [n1; n2]
    /\ NoDup (combined_index c)
    /\ (forall t, In t (combined_index c) <-> In t (index d1) \/ In t (index d2))
    /\ (forall t cells,
          In (t, cells) (rows c) ->
          cells = [Pandas.lookup t d1; Pandas.lookup t d2]
          /\ cell_of d1 t (Pandas.lookup t d1)
          /\ cell_of d2 t (Pandas.lookup t d2)).
Proof.
  intros Hd1 Hd2. unfold Concat.concat. cbn [forallb existsb snd map fst andb].
  destruct (Concat.index_eqb (index d2) (index d1)) eqn:Heq.
  - apply index_eqb_eq in Heq. eexists. split; [reflexivity|].
    cbn [columns rows]. unfold combined_index. cbn [rows].
    rewrite aligned_rows_index. split; [reflexivity|]. split; [exact Hd1|]. split.
    + intros t. rewrite Heq. tauto.
    + intros t cells Hin.
      destruct (aligned_rows_In _ _ _ _ _ Hin) as [k [Hk ->]].
      cbn [map snd Nat.add]. split.
      * f_equal; [now apply nth_error_lookup|].
        f_equal. apply nth_error_lookup; [exact Hd2 | now rewrite Heq].
      * split; apply lookup_cell.
  - rewrite (has_duplicates_NoDup _ Hd1), (has_duplicates_NoDup _ Hd2).
    cbn [orb]. eexists. split; [reflexivity|].
    cbn [columns rows]. unfold combined_index. cbn [rows].
    rewrite map_map. cbn [Concat.reindexed_row fst]. rewrite map_id.
    unfold Concat.union_indexes.
    destruct (union_indexes_spec [index d1; index d2] [] (SSorted_nil _)) as [Hs Hin].
    cbn zeta in Hs, Hin.
    split; [reflexivity|]. split; [now apply sorted_NoDup|]. split.
    + intros t. rewrite Hin. cbn [In]. split.
      * intros [[]|[idx [[<-|[<-|[]]] Hx]]]; tauto.
      * intros [H|H]; right; eauto.
    + intros t cells Hrow. apply in_map_iff in Hrow.
      destruct Hrow as [u [Hu _]]. unfold Concat.reindexed_row in Hu.
      injection Hu as -> <-. cbn [map snd].
      split; [reflexivity|]. split; apply lookup_cell.
Qed.

(** ** The main flow *)

(** The loop over the stations, station by station. *)
Lemma fetch_stations_spec (requests_get : string -> result Response)
  (argsort : list Timestamp -> list nat) (todo : list (string * string)) :
  forall (dfs : list NamedFrame) (out : list output),
    fetch_stations requests_get argsort todo dfs out
    = ((dfs ++ flat_map (station_frame requests_get argsort) todo)%list,
       (out ++ flat_map (station_report requests_get argsort) todo)%list).
Proof.
  induction todo as [|[name sid] todo IH]; intros dfs out;
    cbn [fetch_stations flat_map].
  - now rewrite !app_nil_r.
  - unfold station_frame at 1, station_report at 1. cbn [fst snd].
    destruct (fetch_dart_data requests_get argsort sid start_date end_date);
      rewrite IH, <- !app_assoc; reflexivity.
Qed.

Lemma station_report_progress (requests_get : string -> result Response)
  (argsort : list Timestamp -> list nat) (todo : list (string * string)) :
  forallb is_progress (flat_map (station_report requests_get argsort) todo) = true.
Proof.
  induction todo as [|st todo IH]; cbn [flat_map]; [reflexivity|].
  rewrite forallb_app, IH, andb_true_r. unfold station_report.
  destruct (fetch_dart_data _ _ _ _ _); reflexivity.
Qed.

Lemma station_frame_unique (requests_get : string -> result Response)
  (argsort : list Timestamp -> list nat) (todo : list (string * string)) :
  Forall (fun d : NamedFrame => NoDup (index (snd d)))
    (flat_map (station_frame requests_get argsort) todo).
Proof.
  induction todo as [|st todo IH]; cbn [flat_map]; [constructor|].
  apply Forall_app. split; [|exact IH]. unfold station_frame.
  destruct (fetch_dart_data _ _ _ _ _) as [df|e] eqn:E; constructor; [|constructor].
  cbn [snd]. eapply fetch_dart_data_NoDup; eauto.
Qed.

(** No frame is collected exactly when every station of the list fails. *)
Lemma station_frame_none (requests_get : string -> result Response)
  (argsort : list Timestamp -> list nat) (todo : list (string * string)) :
  flat_map (station_frame requests_get argsort) todo = [] <->
  forallb (fun st => negb (is_ok (fetch_dart_data requests_get argsort (snd st)
                                    start_date end_date))) todo = true.
Proof.
  induction todo as [|st todo IH]; cbn [flat_map forallb]; [tauto|].
  unfold station_frame at 1.
  destruct (fetch_dart_data _ _ _ _ _); cbn [is_ok negb andb app].
  - split; discriminate.
  - exact IH.
Qed.

(** Frames with unique labels can always be joined. *)
Lemma concat_unique_ok (dfs : list NamedFrame) :
  dfs <> [] -> Forall (fun d : NamedFrame => NoDup (index (snd d))) dfs ->
  exists c, Concat.concat dfs = Ok c.
Proof.
  intros Hne Hall. destruct dfs as [|d rest]; [congruence|].
  unfold Concat.concat.
  match goal with
  | |- context [forallb ?f rest] => destruct (forallb f rest)
  end; [eexists; reflexivity|].
  match goal with
  | |- context [existsb ?f (d :: rest)] => destruct (existsb f (d :: rest)) eqn:H
  end; [|eexists; reflexivity].
  apply existsb_exists in H. destruct H as [d' [Hin Hdup]].
  rewrite Forall_forall in Hall.
  rewrite (has_duplicates_NoDup _ (Hall _ Hin)) in Hdup. discriminate.
Qed.

(** C8. When every configured station fails, the run prints its progress
    lines and the "no data" line and ends there: no tail of a combined
    table, no chart.  In every other run the tail is printed and the chart
    is drawn, so this is the one condition that ends a run before the
    rendering. *)
Theorem run_halts_only_when_all_stations_fail
  (requests_get : string -> result Response)
  (argsort : list Timestamp -> list nat) :
  let progress := flat_map (station_report requests_get argsort) stations in
  forallb is_progress progress = true
  /\ (all_stations_fail requests_get argsort = true ->
      main requests_get argsort = (progress ++ [NoDataExit])%list)
  /\ (all_stations_fail requests_get argsort = false ->
      exists combined : Combined,
        main requests_get argsort
        = (progress ++ [TailHeader; Tail (Concat.tail combined); Chart combined])%list).
Proof.
  intros progress. split; [apply station_report_progress|].
  unfold main, all_stations_fail. rewrite fetch_stations_spec. cbn [app].
  fold progress. split.
  - intros Hfail. apply station_frame_none in Hfail. rewrite Hfail. reflexivity.
  - intros Hsome.
    destruct (flat_map (station_frame requests_get argsort) stations)
      as [|d dfs] eqn:E.
    + apply station_frame_none in E. congruence.
    + destruct (concat_unique_ok (d :: dfs)) as [c Hc]; [discriminate| |].
      * rewrite <- E. apply station_frame_unique.
      * rewrite Hc. eauto.
Qed.

(** ** The directives of the format *)

Lemma in_range_value (lo hi : N) (c : ascii) :
  Str.in_range lo hi c = true ->
  Z.of_N lo - 48 <= PyFloat.digit_value c <= Z.of_N hi - 48.
Proof.
  unfold Str.in_range, PyFloat.digit_value. intros H.
  apply andb_true_iff in H. destruct H as [H1 H2].
  apply N.leb_le in H1, H2. lia.
Qed.

Lemma is_char_value (n : N) (c : ascii) :
  Strptime.is_char n c = true -> PyFloat.digit_value c = Z.of_N n - 48.
Proof.
  unfold Strptime.is_char, PyFloat.digit_value. intros H.
  apply N.eqb_eq in H. now rewrite H.
Qed.

Lemma in_range_digit (lo hi : N) (c : ascii) :
  (48 <= lo)%N -> (hi <= 57)%N ->
  Str.in_range lo hi c = true -> Str.isdigit c = true.
Proof.
  unfold Str.isdigit, Str.in_range. intros Hlo Hhi H.
  apply andb_true_iff in H. destruct H as [H1 H2].
  apply N.leb_le in H1, H2. apply andb_true_iff.
  split; apply N.leb_le; lia.
Qed.

Lemma is_char_digit (n : N) (c : ascii) :
  (48 <= n <= 57)%N -> Strptime.is_char n c = true -> Str.isdigit c = true.
Proof.
  unfold Strptime.is_char, Str.isdigit, Str.in_range. intros Hn H.
  apply N.eqb_eq in H. apply andb_true_iff. split; apply N.leb_le; lia.
Qed.

Lemma is_char_not_digit (c : ascii) :
  Strptime.is_char 32 c = true -> Str.isdigit c = false.
Proof.
  unfold Strptime.is_char, Str.isdigit, Str.in_range. intros H.
  apply N.eqb_eq in H. rewrite H. reflexivity.
Qed.

Lemma two_In (p1 p2 : ascii -> bool) (s : string) (v : Z) (r : string) :
  In (v, r) (Strptime.two p1 p2 s) ->
  exists a b, s = String a (String b r) /\ p1 a = true /\ p2 b = true
              /\ v = 10 * PyFloat.digit_value a + PyFloat.digit_value b.
Proof.
  unfold Strptime.two. destruct s as [|a [|b s]]; try (intros []).
  destruct (p1 a) eqn:H1; [|intros []].
  destruct (p2 b) eqn:H2; [|intros []].
  cbn [andb In]. intros [[= <- <-]|[]]. exists a, b. auto.
Qed.

Lemma one_In (p : ascii -> bool) (s : string) (v : Z) (r : string) :
  In (v, r) (Strptime.one p s) ->
  exists a, s = String a r /\ p a = true /\ v = PyFloat.digit_value a.
Proof.
  unfold Strptime.one. destruct s as [|a s]; [intros []|].
  destruct (p a) eqn:H1; [|intros []].
  cbn [In]. intros [[= <- <-]|[]]. exists a. auto.
Qed.

Ltac two_digits H lo1 hi1 lo2 hi2 :=
  let a := fresh "a" in
  let b := fresh "b" in
  let Hs := fresh "Hs" in
  let Ha := fresh "Ha" in
  let Hb := fresh "Hb" in
  let Hv := fresh "Hv" in
  apply two_In in H; destruct H as (a & b & Hs & Ha & Hb & Hv);
  let Ra := fresh "Ra" in
  let Rb := fresh "Rb" in
  assert (Ra : lo1 <= PyFloat.digit_value a <= hi1)
    by (first [ rewrite (is_char_value _ _ Ha); cbn; lia
              | pose proof (in_range_value _ _ _ Ha) as Ra; cbn in Ra; lia ]);
  assert (Rb : lo2 <= PyFloat.digit_value b <= hi2)
    by (pose proof (in_range_value _ _ _ Hb) as Rb; cbn in Rb; lia);
  split; [lia|]; left; exists a, b;
  split; [exact Hs|];
  split; [first [ exact Hb | eapply in_range_digit; [| |exact Hb]; lia ]|];
  left; split; [|exact Hv];
  first [ exact Ha
        | eapply is_char_digit; [|exact Ha]; lia
        | eapply in_range_digit; [| |exact Ha]; lia ].

Ltac one_digit H lo hi :=
  let a := fresh "a" in
  let Hs := fresh "Hs" in
  let Ha := fresh "Ha" in
  let Hv := fresh "Hv" in
  apply one_In in H; destruct H as (a & Hs & Ha & Hv);
  let Ra := fresh "Ra" in
  assert (Ra : lo <= PyFloat.digit_value a <= hi)
    by (pose proof (in_range_value _ _ _ Ha) as Ra; cbn in Ra; lia);
  split; [lia|]; right; exists a;
  split; [exact Hs|]; split; [|exact Hv];
  first [ exact Ha | eapply in_range_digit; [| |exact Ha]; lia ].

Lemma dir_m_took (s : string) (v : Z) (r : string) :
  In (v, r) (Strptime.dir_m s) -> took 1 12 s v r.
Proof.
  unfold Strptime.dir_m, Strptime.alt. rewrite !in_app_iff.
  intros [H|[H|H]].
  - two_digits H 1 1 0 2.
  - two_digits H 0 0 1 9.
  - one_digit H 1 9.
Qed.

Lemma dir_d_took (s : string) (v : Z) (r : string) :
  In (v, r) (Strptime.dir_d s) -> took 1 31 s v r.
Proof.
  unfold Strptime.dir_d, Strptime.alt. rewrite !in_app_iff.
  intros [H|[H|[H|[H|H]]]].
  - two_digits H 3 3 0 1.
  - two_digits H 1 2 0 9.
  - two_digits H 0 0 1 9.
  - one_digit H 1 9.
  - destruct s as [|a s]; [destruct H|].
    destruct (Strptime.is_char 32 a) eqn:Ha; [|destruct H].
    apply one_In in H. destruct H as (b & Hs & Hb & Hv).
    pose proof (in_range_value _ _ _ Hb) as Rb. cbn in Rb.
    split; [lia|]. left. exists a, b. split; [now rewrite Hs|].
    split; [eapply in_range_digit; [| |exact Hb]; lia|].
    right. now apply is_char_not_digit.
Qed.

Lemma dir_H_took (s : string) (v : Z) (r : string) :
  In (v, r) (Strptime.dir_H s) -> took 0 23 s v r.
Proof.
  unfold Strptime.dir_H, Strptime.alt. rewrite !in_app_iff.
  intros [H|[H|H]].
  - two_digits H 2 2 0 3.
  - two_digits H 0 1 0 9.
  - one_digit H 0 9.
Qed.

Lemma dir_M_took (s : string) (v : Z) (r : string) :
  In (v, r) (Strptime.dir_M s) -> took 0 59 s v r.
Proof.
  unfold Strptime.dir_M, Strptime.alt. rewrite !in_app_iff.
  intros [H|H].
  - two_digits H 0 5 0 9.
  - one_digit H 0 9.
Qed.

Lemma dir_S_took (s : string) (v : Z) (r : string) :
  In (v, r) (Strptime.dir_S s) -> took 0 61 s v r.
Proof.
  unfold Strptime.dir_S, Strptime.alt. rewrite !in_app_iff.
  intros [H|[H|H]].
  - two_digits H 6 6 0 1.
  - two_digits H 0 5 0 9.
  - one_digit H 0 9.
Qed.

Lemma andthen_In {R : Type} (f : Strptime.directive) (k : Z -> string -> list R)
  (s : string) (x : R) :
  In x (Strptime.andthen f k s) ->
  exists v r, In (v, r) (f s) /\ In x (k v r).
Proof.
  unfold Strptime.andthen. rewrite in_flat_map.
  intros [[v r] [H1 H2]]. exists v, r. auto.
Qed.

Lemma dir_Y_In (s : string) (v : Z) (r : string) :
  In (v, r) (Strptime.dir_Y s) ->
  exists a b c d,
    s = String a (String b (String c (String d r)))
    /\ Str.isdigit a = true /\ Str.isdigit b = true
    /\ Str.isdigit c = true /\ Str.isdigit d = true
    /\ v = PyFloat.int_of_digits
             (String a (String b (String c (String d EmptyString)))).
Proof.
  unfold Strptime.dir_Y. destruct s as [|a [|b [|c [|d s]]]]; try (intros []).
  destruct (Str.isdigit a) eqn:Ha; [|intros []].
  destruct (Str.isdigit b) eqn:Hb; [|intros []].
  destruct (Str.isdigit c) eqn:Hc; [|intros []].
  destruct (Str.isdigit d) eqn:Hd; [|intros []].
  cbn [andb In]. intros [[= <- <-]|[]]. exists a, b, c, d. auto 10.
Qed.

(** A match of the combined format, directive by directive. *)
Lemma matches_compact_In (s : string) (f : Strptime.fields) (r : string) :
  In (f, r) (Strptime.matches_compact s) ->
  exists s1 s2 s3 s4 s5,
    In (Strptime.f_year f, s1) (Strptime.dir_Y s)
    /\ took 1 12 s1 (Strptime.f_month f) s2
    /\ took 1 31 s2 (Strptime.f_day f) s3
    /\ took 0 23 s3 (Strptime.f_hour f) s4
    /\ took 0 59 s4 (Strptime.f_minute f) s5
    /\ took 0 61 s5 (Strptime.f_second f) r.
Proof.
  unfold Strptime.matches_compact. intros H.
  apply andthen_In in H. destruct H as (y & s1 & Hy & H).
  apply andthen_In in H. destruct H as (mo & s2 & Hmo & H).
  apply andthen_In in H. destruct H as (d & s3 & Hd & H).
  apply andthen_In in H. destruct H as (h & s4 & Hh & H).
  apply andthen_In in H. destruct H as (mi & s5 & Hmi & H).
  apply andthen_In in H. destruct H as (sec & s6 & Hsec & H).
  destruct H as [[= <- <-]|[]]. cbn.
  exists s1, s2, s3, s4, s5.
  auto 10 using dir_m_took, dir_d_took, dir_H_took, dir_M_took, dir_S_took.
Qed.

(** On digits a directive takes two of them, or one. *)
Lemma took_digits (lo hi : Z) (a b : ascii) (s : string) (v : Z) (r : string) :
  Str.isdigit a = true ->
  took lo hi (String a (String b s)) v r ->
  lo <= v <= hi
  /\ ((r = s /\ v = 10 * PyFloat.digit_value a + PyFloat.digit_value b)
      \/ r = String b s).
Proof.
  intros Ha [Hr [(a' & b' & Hs & Hb & Hv)|(a' & Hs & _ & Hv)]]; (split; [exact Hr|]).
  - injection Hs as <- <- <-. destruct Hv as [[_ Hv]|Hv]; [auto|congruence].
  - injection Hs as <- <-. auto.
Qed.

Lemma int_two_digits (a b : ascii) :
  PyFloat.int_of_digits (String a (String b EmptyString))
  = 10 * PyFloat.digit_value a + PyFloat.digit_value b.
Proof.
  unfold PyFloat.int_of_digits. cbn [PyFloat.int_go]. lia.
Qed.

(** The combined format reads fourteen digits at their fixed places. *)
Lemma compact_fixed_fields (s : string) (f : Strptime.fields) :
  Str.fullmatch_d14 s = true ->
  In (f, EmptyString) (Strptime.matches_compact s) ->
  f = fixed_fields s
  /\ 0 <= Strptime.f_hour f <= 23
  /\ 0 <= Strptime.f_minute f <= 59
  /\ 0 <= Strptime.f_second f <= 61.
Proof.
  unfold Str.fullmatch_d14. intros H14 Hin.
  apply andb_true_iff in H14. destruct H14 as [Hlen Hdig].
  apply Nat.eqb_eq in Hlen.
  do 14 (destruct s as [|? s]; [discriminate|]).
  destruct s; [|discriminate]. clear Hlen.
  cbn [Str.all_digits] in Hdig.
  repeat (apply andb_true_iff in Hdig; destruct Hdig as [? Hdig]).
  apply matches_compact_In in Hin.
  destruct Hin as (s1 & s2 & s3 & s4 & s5 & Hy & Hmo & Hd & Hh & Hmi & Hsec).
  apply dir_Y_In in Hy.
  destruct Hy as (y1 & y2 & y3 & y4 & Hs & _ & _ & _ & _ & Hy).
  injection Hs as <- <- <- <- <-.
  apply took_digits in Hmo; [|assumption].
  destruct Hmo as [Rmo [[-> Vmo]| ->]];
    (apply took_digits in Hd; [|assumption]);
    destruct Hd as [Rd [[-> Vd]| ->]];
    (apply took_digits in Hh; [|assumption]);
    destruct Hh as [Rh [[-> Vh]| ->]];
    (apply took_digits in Hmi; [|assumption]);
    destruct Hmi as [Rmi [[-> Vmi]| ->]];
    try (apply took_digits in Hsec; [|assumption];
         destruct Hsec as [Rsec [[Hnil Vsec]|Hnil]]; try discriminate Hnil);
    try (destruct Hsec as [_ [(? & ? & Hnil & _)|(? & Hnil & _)]];
         discriminate Hnil).
  repeat split; try lia.
  destruct f as [fy fmo fd fh fmi fs].
  cbn [Strptime.f_year Strptime.f_month Strptime.f_day Strptime.f_hour
       Strptime.f_minute Strptime.f_second] in *.
  unfold fixed_fields. cbn [substring].
  rewrite !int_two_digits. congruence.
Qed.

Lemma space_In {R : Type} (k : string -> list R) (s : string) (x : R) :
  In x (Strptime.space k s) -> exists w, In w (Strptime.ws_plus s) /\ In x (k w).
Proof.
  unfold Strptime.space. rewrite in_flat_map. intros [w [H1 H2]]. eauto.
Qed.

Lemma ws_plus_head (s w : string) :
  In w (Strptime.ws_plus s) -> exists c r, s = String c r /\ Str.isspace c = true.
Proof.
  destruct s as [|c r]; cbn [Strptime.ws_plus]; [intros []|].
  destruct (Str.isspace c) eqn:Hc; [eauto|intros []].
Qed.

(** Whitespace before a digit is matched in one way. *)
Lemma ws_plus_before_digit (sp a : ascii) (s w : string) :
  Str.isdigit a = true ->
  In w (Strptime.ws_plus (String sp (String a s))) -> w = String a s.
Proof.
  intros Ha. cbn [Strptime.ws_plus]. rewrite (digit_not_space _ Ha).
  destruct (Str.isspace sp); cbn [app In]; [|tauto].
  intros [H|[]]. now symmetry.
Qed.

Lemma append_empty_r (s : string) : (s ++ EmptyString)%string = s.
Proof.
  induction s as [|c s IH]; cbn [String.append]; [reflexivity|now rewrite IH].
Qed.

Lemma int_one_digit (a : ascii) :
  PyFloat.int_of_digits (String a EmptyString) = PyFloat.digit_value a.
Proof.
  unfold PyFloat.int_of_digits. cbn [PyFloat.int_go]. lia.
Qed.

(** A token of digits in front of a blank, or at the end of the text: a
    directive whose match goes on with whitespace, or ends the text, has
    taken the whole token, of one or two digits. *)
Lemma took_token (lo hi : Z) (tok tail : string) (v : Z) (r : string) :
  Str.fullmatch_digits tok = true ->
  tail = EmptyString \/ (exists rest, tail = String " "%char rest) ->
  took lo hi (tok ++ tail)%string v r ->
  r = EmptyString \/ (exists c r', r = String c r' /\ Str.isspace c = true) ->
  r = tail /\ v = PyFloat.int_of_digits tok /\ lo <= v <= hi.
Proof.
  unfold Str.fullmatch_digits. intros Htok Htail Htook Hr.
  destruct tok as [|a tok1]; [discriminate|].
  cbn [String.length Nat.eqb negb andb Str.all_digits] in Htok.
  apply andb_true_iff in Htok. destruct Htok as [Ha Htok1].
  assert (Hlead : forall (c : ascii) (x : string),
             Str.isdigit c = true -> r = String c x -> False).
  { intros c x Hc ->. destruct Hr as [Hr|(c' & r' & Hr & Hsp)]; [discriminate|].
    injection Hr as <- <-. rewrite (digit_not_space _ Hc) in Hsp. discriminate. }
  destruct tok1 as [|b tok2]; cbn [String.append] in Htook.
  - destruct Htook as [Hv [(a' & b' & Hs & Hb & _)|(a' & Hs & _ & Hval)]].
    + exfalso. injection Hs as <- Hs.
      destruct Htail as [->|[rest ->]]; [discriminate|].
      injection Hs as <- _. discriminate.
    + injection Hs as <- <-. rewrite int_one_digit. auto.
  - cbn [Str.all_digits] in Htok1. apply andb_true_iff in Htok1.
    destruct Htok1 as [Hb Htok2].
    apply took_digits in Htook; [|exact Ha].
    destruct Htook as [Hv [[-> Hval]| ->]].
    + destruct tok2 as [|c tok3]; cbn [String.append] in *.
      * rewrite int_two_digits. auto.
      * exfalso. cbn [Str.all_digits] in Htok2.
        apply andb_true_iff in Htok2. destruct Htok2 as [Hc _].
        eapply Hlead; eauto.
    + exfalso. eapply Hlead; eauto.
Qed.

(** The year directive in front of a blank takes a token of four digits. *)
Lemma took_year (y rest : string) (v : Z) (r : string) :
  Str.fullmatch_digits y = true ->
  In (v, r) (Strptime.dir_Y (y ++ String " "%char rest)%string) ->
  (exists c r', r = String c r' /\ Str.isspace c = true) ->
  r = String " "%char rest /\ v = PyFloat.int_of_digits y.
Proof.
  unfold Str.fullmatch_digits. intros Hy Hin Hr.
  apply dir_Y_In in Hin.
  destruct Hin as (a & b & c & d & Hs & Ha & Hb & Hc & Hd & Hv).
  assert (Hsp : Str.isdigit " "%char = false) by reflexivity.
  destruct y as [|y1 [|y2 [|y3 [|y4 y']]]]; cbn [String.append] in Hs;
    try discriminate; try (injection Hs as; subst; congruence).
  injection Hs as <- <- <- <- Hs.
  destruct y' as [|y5 y'']; cbn [String.append] in Hs.
  - subst r. auto.
  - exfalso. subst r. destruct Hr as (c' & r' & Hr & Hsp').
    injection Hr as <- _.
    cbn [String.length Nat.eqb negb andb Str.all_digits] in Hy.
    repeat (apply andb_true_iff in Hy; destruct Hy as [? Hy]).
    rewrite digit_not_space in Hsp' by assumption. discriminate.
Qed.

Lemma digits_head (tok : string) :
  Str.fullmatch_digits tok = true ->
  exists a tl, tok = String a tl /\ Str.isdigit a = true.
Proof.
  unfold Str.fullmatch_digits. destruct tok as [|a tl]; [discriminate|].
  cbn [String.length Nat.eqb negb andb Str.all_digits]. intros H.
  apply andb_true_iff in H. destruct H as [Ha _]. eauto.
Qed.

(** The split format reads six tokens of digits, each as a whole. *)
Lemma spaced_token_fields (y mo d h mi sec : string) (f : Strptime.fields) :
  Str.fullmatch_digits y = true -> Str.fullmatch_digits mo = true ->
  Str.fullmatch_digits d = true -> Str.fullmatch_digits h = true ->
  Str.fullmatch_digits mi = true -> Str.fullmatch_digits sec = true ->
  In (f, EmptyString)
    (Strptime.matches_spaced (Str.join_space [y; mo; d; h; mi; sec])) ->
  f = token_fields [y; mo; d; h; mi; sec]
  /\ 0 <= Strptime.f_hour f <= 23
  /\ 0 <= Strptime.f_minute f <= 59
  /\ 0 <= Strptime.f_second f <= 61.
Proof.
  intros Hy Hmo Hd Hh Hmi Hsec Hin.
  unfold Str.join_space in Hin. cbn [String.concat] in Hin.
  unfold Strptime.matches_spaced in Hin.
  destruct (digits_head _ Hmo) as (mo1 & mo' & Emo & Dmo).
  destruct (digits_head _ Hd) as (d1 & d' & Ed & Dd).
  destruct (digits_head _ Hh) as (h1 & h' & Eh & Dh).
  destruct (digits_head _ Hmi) as (mi1 & mi' & Emi & Dmi).
  destruct (digits_head _ Hsec) as (sec1 & sec' & Esec & Dsec).
  (* the year *)
  apply andthen_In in Hin. destruct Hin as (vy & r & Hdir & Hin).
  apply space_In in Hin. destruct Hin as (w & Hw & Hin).
  apply took_year in Hdir; [|exact Hy|eapply ws_plus_head; eauto].
  destruct Hdir as [-> ->].
  rewrite Emo in Hw. cbn [String.append] in Hw.
  apply ws_plus_before_digit in Hw; [|exact Dmo].
  change (String mo1 (mo' ++ ?t)%string) with (String mo1 mo' ++ t)%string in Hw.
  rewrite <- Emo in Hw. subst w.
  (* the month *)
  apply andthen_In in Hin. destruct Hin as (vmo & r & Hdir & Hin).
  apply space_In in Hin. destruct Hin as (w & Hw & Hin).
  apply dir_m_took in Hdir.
  apply took_token in Hdir; [|exact Hmo|eauto|right; eapply ws_plus_head; eauto].
  destruct Hdir as (-> & -> & Rmo).
  rewrite Ed in Hw. cbn [String.append] in Hw.
  apply ws_plus_before_digit in Hw; [|exact Dd].
  change (String d1 (d' ++ ?t)%string) with (String d1 d' ++ t)%string in Hw.
  rewrite <- Ed in Hw. subst w.
  (* the day *)
  apply andthen_In in Hin. destruct Hin as (vd & r & Hdir & Hin).
  apply space_In in Hin. destruct Hin as (w & Hw & Hin).
  apply dir_d_took in Hdir.
  apply took_token in Hdir; [|exact Hd|eauto|right; eapply ws_plus_head; eauto].
  destruct Hdir as (-> & -> & Rd).
  rewrite Eh in Hw. cbn [String.append] in Hw.
  apply ws_plus_before_digit in Hw; [|exact Dh].
  change (String h1 (h' ++ ?t)%string) with (String h1 h' ++ t)%string in Hw.
  rewrite <- Eh in Hw. subst w.
  (* the hour *)
  apply andthen_In in Hin. destruct Hin as (vh & r & Hdir & Hin).
  apply space_In in Hin. destruct Hin as (w & Hw & Hin).
  apply dir_H_took in Hdir.
  apply took_token in Hdir; [|exact Hh|eauto|right; eapply ws_plus_head; eauto].
  destruct Hdir as (-> & -> & Rh).
  rewrite Emi in Hw. cbn [String.append] in Hw.
  apply ws_plus_before_digit in Hw; [|exact Dmi].
  change (String mi1 (mi' ++ ?t)%string) with (String mi1 mi' ++ t)%string in Hw.
  rewrite <- Emi in Hw. subst w.
  (* the minute *)
  apply andthen_In in Hin. destruct Hin as (vmi & r & Hdir & Hin).
  apply space_In in Hin. destruct Hin as (w & Hw & Hin).
  apply dir_M_took in Hdir.
  apply took_token in Hdir; [|exact Hmi|eauto|right; eapply ws_plus_head; eauto].
  destruct Hdir as (-> & -> & Rmi).
  rewrite Esec in Hw.
  apply ws_plus_before_digit in Hw; [|exact Dsec].
  rewrite <- Esec in Hw. subst w.
  (* the second *)
  apply andthen_In in Hin. destruct Hin as (vsec & r & Hdir & Hin).
  destruct Hin as [[= <- ->]|[]].
  apply dir_S_took in Hdir. rewrite <- (append_empty_r sec) in Hdir.
  apply took_token in Hdir; [|exact Hsec|auto|auto].
  destruct Hdir as (_ & -> & Rsec).
  cbn [Strptime.f_hour Strptime.f_minute Strptime.f_second].
  repeat split; try lia.
Qed.


Lemma calendar_ok_intro (f : Strptime.fields) :
  Strptime.date_ok f = true ->
  0 <= Strptime.f_hour f <= 23 -> 0 <= Strptime.f_minute f <= 59 ->
  0 <= Strptime.f_second f <= 61 ->
  calendar_ok f = true.
Proof.
  intros Hd Hh Hm Hs. unfold calendar_ok. rewrite Hd.
  repeat (apply andb_true_iff; split); try reflexivity; apply Z.leb_le; lia.
Qed.









(** ** Which row of a repeated timestamp stays *)

Lemma build_table_inv (argsort : list Timestamp -> list nat)
  (sid raw : string) (df : DataFrame) :
  build_table argsort sid raw = Ok df ->
  exists records,
    parse_lines (Str.splitlines raw) [] = Ok records
    /\ records <> []
    /\ df = Pandas.drop_duplicated [] (Pandas.sort_index argsort records).
Proof.
  unfold build_table.
  destruct (parse_lines _ _) as [[|r records]|e]; cbn [bind]; try discriminate.
  intros [= <-]. exists (r :: records). repeat split. discriminate.
Qed.

(** The table holds, for a timestamp, the first row of that timestamp in
    the frame as [sort_index] left it. *)
Lemma table_keeps_first_sorted_row (argsort : list Timestamp -> list nat)
  (sid raw : string) (df : DataFrame) (records : list Reading) (t : Timestamp) :
  build_table argsort sid raw = Ok df ->
  parse_lines (Str.splitlines raw) [] = Ok records ->
  Pandas.lookup t df = Pandas.lookup t (Pandas.sort_index argsort records).
Proof.
  intros Hdf Hrec. destruct (build_table_inv _ _ _ _ Hdf) as (records' & H1 & _ & ->).
  assert (records' = records) as -> by congruence.
  apply drop_duplicated_lookup. intros [].
Qed.

(** When the readings come in time order, this is the reading seen first. *)
Lemma table_keeps_first_seen_when_monotonic (argsort : list Timestamp -> list nat)
  (sid raw : string) (df : DataFrame) (records : list Reading) (t : Timestamp) :
  build_table argsort sid raw = Ok df ->
  parse_lines (Str.splitlines raw) [] = Ok records ->
  Pandas.is_monotonic_increasing (index records) = true ->
  Pandas.lookup t df = Pandas.lookup t records.
Proof.
  intros Hdf Hrec Hmono.
  rewrite (table_keeps_first_sorted_row _ _ _ _ _ t Hdf Hrec).
  unfold Pandas.sort_index. now rewrite Hmono.
Qed.

Lemma take_app (p q : list nat) (df : DataFrame) :
  Pandas.take (p ++ q)%list df = (Pandas.take p df ++ Pandas.take q df)%list.
Proof.
  unfold Pandas.take. apply flat_map_app.
Qed.

Lemma lookup_app_notin (t : Timestamp) (l1 l2 : DataFrame) :
  ~ In t (index l1) -> Pandas.lookup t (l1 ++ l2)%list = Pandas.lookup t l2.
Proof.
  induction l1 as [|[t0 h0] l1 IH]; cbn [app Pandas.lookup index map fst In];
    [reflexivity|].
  intros Hn. destruct (Z.eqb_spec t t0) as [->|Hne]; [tauto|].
  apply IH. fold (index l1) in Hn. tauto.
Qed.

Lemma take_index (p : list nat) (df : DataFrame) (t : Timestamp) :
  In t (index (Pandas.take p df)) ->
  exists a, In a p /\ nth_error (index df) a = Some t.
Proof.
  unfold index, Pandas.take. rewrite in_map_iff.
  intros [[t' h] [Ht Hin]]. cbn [fst] in Ht. subst t'.
  apply in_flat_map in Hin. destruct Hin as [a [Ha Hrow]].
  exists a. split; [exact Ha|].
  destruct (nth_error df a) as [r|] eqn:E; [|destruct Hrow].
  destruct Hrow as [->|[]]. apply (map_nth_error fst _ _ E).
Qed.

(** The first row of a label: no row before it has the label. *)
Lemma first_row (t : Timestamp) (df : DataFrame) :
  In t (index df) ->
  exists r1 h r2, df = (r1 ++ (t, h) :: r2)%list /\ ~ In t (index r1).
Proof.
  induction df as [|[t0 h0] df IH]; cbn [index map fst In]; [tauto|].
  fold (index df). intros Hin.
  destruct (Z.eq_dec t0 t) as [->|Hne].
  - exists [], h0, df. split; [reflexivity|]. intros [].
  - destruct IH as (r1 & h & r2 & -> & Hn); [tauto|].
    exists ((t0, h0) :: r1), h, r2. split; [reflexivity|].
    cbn [index map fst In]. fold (index r1). tauto.
Qed.

(** With an order that keeps ties, the first row of a label in the sorted
    frame is its first row in the frame as it was built. *)
Lemma take_keeps_first_row (records : DataFrame) (perm : list nat) (t : Timestamp) :
  keeps_tie_order (index records) perm ->
  Pandas.lookup t (Pandas.take perm records) = Pandas.lookup t records.
Proof.
  intros [Hall Hties].
  destruct (in_dec Z.eq_dec t (index records)) as [Hin|Hnot].
  - destruct (first_row _ _ Hin) as (r1 & h & r2 & Hrec & Hfirst).
    assert (Hi : nth_error records (length r1) = Some (t, h)).
    { rewrite Hrec, nth_error_app2, Nat.sub_diag by lia. reflexivity. }
    assert (Hki : nth_error (index records) (length r1) = Some t).
    { apply (map_nth_error fst _ _ Hi). }
    assert (Hperm : In (length r1) perm).
    { apply Hall. apply nth_error_Some. rewrite Hki. discriminate. }
    apply in_split in Hperm. destruct Hperm as (pre & post & Hperm).
    assert (Hpre : ~ In t (index (Pandas.take pre records))).
    { intros Ht. apply take_index in Ht. destruct Ht as (a & Ha & Hka).
      apply in_split in Ha. destruct Ha as (p1 & p2 & ->).
      assert (a < length r1)%nat as Hlt.
      { apply (Hties a (length r1) p1 p2 post).
        - rewrite Hperm, <- app_assoc. reflexivity.
        - congruence. }
      apply Hfirst.
      destruct (nth_error r1 a) as [[t' h']|] eqn:E;
        [|apply nth_error_None in E; lia].
      assert (Hrow : nth_error records a = Some (t', h'))
        by (rewrite Hrec, nth_error_app1 by exact Hlt; exact E).
      assert (Hka' : nth_error (index records) a = Some t')
        by apply (map_nth_error fst _ _ Hrow).
      assert (t' = t) as -> by congruence.
      apply nth_error_In in E. apply (in_map fst) in E. exact E. }
    rewrite Hperm, take_app, (lookup_app_notin _ _ _ Hpre).
    unfold Pandas.take at 1. cbn [flat_map]. rewrite Hi.
    cbn [app Pandas.lookup]. rewrite Z.eqb_refl.
    rewrite Hrec, (lookup_app_notin _ _ _ Hfirst). cbn [Pandas.lookup].
    now rewrite Z.eqb_refl.
  - pose proof (lookup_cell records t) as H1.
    pose proof (lookup_cell (Pandas.take perm records) t) as H2.
    destruct (Pandas.lookup t records) as [h|].
    + exfalso. apply Hnot. apply (in_map fst) in H1. exact H1.
    + destruct (Pandas.lookup t (Pandas.take perm records)) as [h|]; [|reflexivity].
      exfalso. apply Hnot. apply (in_map fst) in H2.
      apply take_index in H2. destruct H2 as (a & _ & Ha).
      apply nth_error_In in Ha. exact Ha.
Qed.

(** With a sort that keeps ties in order, the table holds the reading seen
    first. *)
Lemma table_keeps_first_seen_when_ties_kept (argsort : list Timestamp -> list nat)
  (sid raw : string) (df : DataFrame) (records : list Reading) (t : Timestamp) :
  build_table argsort sid raw = Ok df ->
  parse_lines (Str.splitlines raw) [] = Ok records ->
  keeps_tie_order (index records) (argsort (index records)) ->
  Pandas.lookup t df = Pandas.lookup t records.
Proof.
  intros Hdf Hrec Hties.
  rewrite (table_keeps_first_sorted_row _ _ _ _ _ t Hdf Hrec).
  unfold Pandas.sort_index.
  destruct (Pandas.is_monotonic_increasing (index records)); [reflexivity|].
  now apply take_keeps_first_row.
Qed.

(** ** The sort returns *)

Lemma length_set (a : list nat) (p x : nat) :
  length (Numpy.set a p x) = length a.
Proof.
  revert p. induction a as [|y a IH]; intros [|p]; cbn [Numpy.set length];
    try reflexivity. now rewrite IH.
Qed.

Lemma length_swap (a : list nat) (p q : nat) :
  length (Numpy.swap a p q) = length a.
Proof.
  unfold Numpy.swap. now rewrite !length_set.
Qed.

Lemma get_set_same (a : list nat) (p x : nat) :
  (p < length a)%nat -> Numpy.get (Numpy.set a p x) p = x.
Proof.
  unfold Numpy.get. revert p.
  induction a as [|y a IH]; intros [|p] Hp; cbn [length] in Hp; try lia;
    cbn [Numpy.set nth]; [reflexivity|]. apply IH. lia.
Qed.

Lemma get_set_other (a : list nat) (p q x : nat) :
  p <> q -> Numpy.get (Numpy.set a p x) q = Numpy.get a q.
Proof.
  unfold Numpy.get. revert p q.
  induction a as [|y a IH]; intros [|p] [|q] Hpq; cbn [Numpy.set nth];
    try reflexivity; try lia. apply IH. lia.
Qed.

Lemma get_swap_l (a : list nat) (p q : nat) :
  (p < length a)%nat -> (q < length a)%nat ->
  Numpy.get (Numpy.swap a p q) p = Numpy.get a q.
Proof.
  intros Hp Hq. unfold Numpy.swap.
  destruct (Nat.eq_dec p q) as [->|Hne].
  - rewrite get_set_same; [reflexivity|now rewrite length_set].
  - rewrite get_set_other by (intros E; now apply Hne).
    now apply get_set_same.
Qed.

Lemma get_swap_r (a : list nat) (p q : nat) :
  (q < length a)%nat -> Numpy.get (Numpy.swap a p q) q = Numpy.get a p.
Proof.
  intros Hq. unfold Numpy.swap. apply get_set_same. now rewrite length_set.
Qed.

Lemma get_swap_other (a : list nat) (p q r : nat) :
  r <> p -> r <> q -> Numpy.get (Numpy.swap a p q) r = Numpy.get a r.
Proof.
  intros Hp Hq. unfold Numpy.swap.
  rewrite !get_set_other; [reflexivity| |]; intros E; subst; contradiction.
Qed.

(** [swap_if_less v a p q] leaves at [p] a key that is not smaller than
    the one at [q], and touches no other place. *)
Lemma swap_if_less_spec (v : list Timestamp) (a : list nat) (p q : nat) :
  (p < length a)%nat -> (q < length a)%nat ->
  length (Numpy.swap_if_less v a p q) = length a
  /\ Numpy.key v (Numpy.swap_if_less v a p q) q
     <= Numpy.key v (Numpy.swap_if_less v a p q) p
  /\ ((Numpy.key v (Numpy.swap_if_less v a p q) p = Numpy.key v a p
       /\ Numpy.key v (Numpy.swap_if_less v a p q) q = Numpy.key v a q)
      \/ (Numpy.key v (Numpy.swap_if_less v a p q) p = Numpy.key v a q
          /\ Numpy.key v (Numpy.swap_if_less v a p q) q = Numpy.key v a p))
  /\ forall r, r <> p -> r <> q ->
       Numpy.key v (Numpy.swap_if_less v a p q) r = Numpy.key v a r.
Proof.
  intros Hp Hq. unfold Numpy.swap_if_less.
  destruct (Numpy.key v a p <? Numpy.key v a q) eqn:E.
  - apply Z.ltb_lt in E. unfold Numpy.key in *.
    rewrite length_swap, get_swap_l, get_swap_r by assumption.
    repeat split; [lia|now right|].
    intros r Hrp Hrq. now rewrite get_swap_other.
  - apply Z.ltb_ge in E. repeat split; [exact E|now left].
Qed.

(** The upward scan stops at the latest on a key that is not below the
    pivot. *)
Lemma scan_up_bound (v : list Timestamp) (a : list nat) (vp : Timestamp) (q : nat) :
  ~ Numpy.key v a q < vp ->
  forall (fuel pi : nat),
    (pi < q)%nat -> (q - pi <= fuel)%nat ->
    (pi < Numpy.scan_up fuel v a vp pi <= q)%nat
    /\ ~ Numpy.key v a (Numpy.scan_up fuel v a vp pi) < vp.
Proof.
  intros Hq. induction fuel as [|f IH]; intros pi Hlt Hfuel; [lia|].
  cbn [Numpy.scan_up].
  destruct (Numpy.key v a (S pi) <? vp) eqn:E.
  - apply Z.ltb_lt in E.
    assert (S pi <> q) by (intros Eq; subst q; contradiction).
    destruct (IH (S pi)) as [Hb Hk]; [lia|lia|]. split; [lia|exact Hk].
  - apply Z.ltb_ge in E. split; [lia|lia].
Qed.

(** The downward scan stops at the latest on a key that is not above the
    pivot. *)
Lemma scan_down_bound (v : list Timestamp) (a : list nat) (vp : Timestamp) (q : nat) :
  ~ vp < Numpy.key v a q ->
  forall (fuel pj : nat),
    (q < pj)%nat -> (pj - q <= fuel)%nat ->
    (q <= Numpy.scan_down fuel v a vp pj < pj)%nat
    /\ ~ vp < Numpy.key v a (Numpy.scan_down fuel v a vp pj).
Proof.
  intros Hq. induction fuel as [|f IH]; intros pj Hlt Hfuel; [lia|].
  cbn [Numpy.scan_down].
  destruct (vp <? Numpy.key v a (Nat.pred pj)) eqn:E.
  - apply Z.ltb_lt in E.
    assert (Nat.pred pj <> q) by (intros Eq; subst q; contradiction).
    destruct (IH (Nat.pred pj)) as [Hb Hk]; [lia|lia|]. split; [lia|exact Hk].
  - apply Z.ltb_ge in E. split; [lia|lia].
Qed.

(** The partition ends between the two places it starts from. *)
Lemma partition_bound (v : list Timestamp) (vp : Timestamp) :
  forall (fuel : nat) (a : list nat) (pi pj : nat),
    (pj < length a)%nat -> (pi < pj)%nat -> (pj - pi <= fuel)%nat ->
    ~ Numpy.key v a pj < vp -> ~ vp < Numpy.key v a pi ->
    length (fst (Numpy.partition fuel v a vp pi pj)) = length a
    /\ (pi < snd (Numpy.partition fuel v a vp pi pj) <= pj)%nat.
Proof.
  induction fuel as [|f IH]; intros a pi pj Hlen Hlt Hfuel Hup Hdown; [lia|].
  cbn [Numpy.partition].
  destruct (scan_up_bound v a vp pj Hup (length a) pi) as [Bi Ki]; [lia|lia|].
  destruct (scan_down_bound v a vp pi Hdown (length a) pj) as [Bj Kj]; [lia|lia|].
  set (pi' := Numpy.scan_up (length a) v a vp pi) in *.
  set (pj' := Numpy.scan_down (length a) v a vp pj) in *.
  destruct (pj' <=? pi')%nat eqn:E.
  - cbn [fst snd]. split; [reflexivity|lia].
  - apply Nat.leb_gt in E.
    destruct (IH (Numpy.swap a pi' pj') pi' pj') as [Hl Hb].
    + rewrite length_swap. lia.
    + exact E.
    + lia.
    + unfold Numpy.key in *. rewrite get_swap_r by lia. exact Ki.
    + unfold Numpy.key in *. rewrite get_swap_l by lia. exact Kj.
    + rewrite length_swap in Hl. split; [exact Hl|lia].
Qed.

Lemma length_shift (v : list Timestamp) (vp : Timestamp) (pl : nat) :
  forall (fuel : nat) (a : list nat) (pj : nat),
    length (fst (Numpy.shift fuel v a vp pl pj)) = length a.
Proof.
  induction fuel as [|f IH]; intros a pj; cbn [Numpy.shift]; [reflexivity|].
  destruct ((pl <? pj)%nat && (vp <? Numpy.key v a (Nat.pred pj)));
    [|reflexivity].
  rewrite IH. apply length_set.
Qed.

Lemma length_insertion (v : list Timestamp) (a : list nat) (pl pr : nat) :
  length (Numpy.insertion v a pl pr) = length a.
Proof.
  unfold Numpy.insertion. generalize (List.seq (S pl) (pr - pl)) as todo.
  intros todo. revert a. induction todo as [|pi todo IH]; intros a;
    cbn [fold_left]; [reflexivity|].
  rewrite IH. unfold Numpy.insert_step.
  pose proof (length_shift v (nth (Numpy.get a pi) v 0) pl pi a pi) as Hs.
  destruct (Numpy.shift pi v a (nth (Numpy.get a pi) v 0) pl pi) as [a' pj].
  cbn [fst] in Hs. now rewrite length_set.
Qed.

Lemma length_sift (v : list Timestamp) (pl n tmp : nat) :
  forall (fuel : nat) (a : list nat) (i j : nat),
    length (Numpy.sift fuel v a pl n tmp i j) = length a.
Proof.
  induction fuel as [|f IH]; intros a i j; cbn [Numpy.sift];
    [apply length_set|].
  destruct (j <=? n)%nat; [|apply length_set].
  match goal with |- context [if ?c then Numpy.sift _ _ _ _ _ _ _ _ else _] =>
    destruct c end; [|apply length_set].
  rewrite IH. apply length_set.
Qed.

Lemma length_aheapsort (v : list Timestamp) (a : list nat) (pl n : nat) :
  length (Numpy.aheapsort v a pl n) = length a.
Proof.
  unfold Numpy.aheapsort.
  assert (H1 : forall todo b,
             length (fold_left (Numpy.heapify_step v pl n) todo b) = length b).
  { induction todo as [|l todo IH]; intros b; cbn [fold_left]; [reflexivity|].
    rewrite IH. apply length_sift. }
  assert (H2 : forall todo b,
             length (fold_left (Numpy.extract_step v pl) todo b) = length b).
  { induction todo as [|m todo IH]; intros b; cbn [fold_left]; [reflexivity|].
    rewrite IH. unfold Numpy.extract_step. rewrite length_sift. apply length_set. }
  now rewrite H2, H1.
Qed.

(** The median of three and the partition of a segment of more than
    sixteen places: the pivot comes to rest strictly inside the segment. *)
Lemma pivot_inside (v : list Timestamp) (a : list nat) (pl pr : nat) :
  (pr < length a)%nat -> (Numpy.SMALL_QUICKSORT < pr - pl)%nat ->
  let pm := (pl + Nat.div2 (pr - pl))%nat in
  let a3 := Numpy.swap_if_less v
              (Numpy.swap_if_less v (Numpy.swap_if_less v a pm pl) pr pm) pm pl in
  let a4 := Numpy.swap a3 pm (pr - 1) in
  let res := Numpy.partition (length a) v a4 (Numpy.key v a3 pm) pl (pr - 1) in
  length (Numpy.swap (fst res) (snd res) (pr - 1)) = length a
  /\ (pl < snd res <= pr - 1)%nat.
Proof.
  intros Hpr Hbig pm. unfold Numpy.SMALL_QUICKSORT in Hbig.
  assert (Hpm : (pl < pm < pr - 1)%nat).
  { unfold pm. pose proof (Nat.div2_odd (pr - pl)) as Hd.
    destruct (Nat.odd (pr - pl)); cbn [Nat.b2n] in Hd; lia. }
  destruct (swap_if_less_spec v a pm pl) as (L1 & O1 & _ & _); [lia|lia|].
  set (a1 := Numpy.swap_if_less v a pm pl) in *.
  destruct (swap_if_less_spec v a1 pr pm) as (L2 & O2 & C2 & F2); [lia|lia|].
  set (a2 := Numpy.swap_if_less v a1 pr pm) in *.
  destruct (swap_if_less_spec v a2 pm pl) as (L3 & O3 & C3 & F3); [lia|lia|].
  set (a3 := Numpy.swap_if_less v a2 pm pl) in *.
  intros a3' a4 res. subst a3'.
  destruct (partition_bound v (Numpy.key v a3 pm) (length a) a4 pl (pr - 1))
    as [Hl Hb].
  - unfold a4. rewrite length_swap. lia.
  - lia.
  - lia.
  - unfold a4, Numpy.key. rewrite get_swap_r by lia. lia.
  - unfold a4, Numpy.key. rewrite get_swap_other by lia.
    fold (Numpy.key v a3 pl) (Numpy.key v a3 pm). lia.
  - fold res in Hl, Hb. split; [|exact Hb].
    rewrite length_swap, Hl. unfold a4. rewrite length_swap. lia.
Qed.

(** The outer loop returns when its fuel covers the segments at hand. *)
Lemma loop_returns (v : list Timestamp) :
  forall (fuel : nat) (popped : bool) (a : list nat) (pl pr : nat)
         (stack : list (nat * nat * Z)) (cdepth : Z),
    (segment_rounds pl pr + stack_rounds stack <= fuel)%nat ->
    (pr < length a \/ pr <= pl)%nat ->
    stack_within (length a) stack ->
    exists perm, Numpy.loop fuel popped v a pl pr stack cdepth = Some perm
                 /\ length perm = length a.
Proof.
  induction fuel as [|f IH]; intros popped a pl pr stack cdepth Hfuel Hpr Hst;
    [unfold segment_rounds in Hfuel; lia|].
  assert (Hpop : forall a1, length a1 = length a ->
            exists perm,
              match stack with
              | [] => Some a1
              | (pl', pr', d) :: stack' => Numpy.loop f true v a1 pl' pr' stack' d
              end = Some perm /\ length perm = length a).
  { intros a1 Hl. destruct stack as [|[[pl' pr'] d] stack']; [eauto|].
    inversion Hst as [|? ? Hseg Hrest]; subst. cbn [fst snd] in Hseg.
    destruct (IH true a1 pl' pr' stack' d) as (perm & Hp & Hlen).
    - cbn [stack_rounds] in Hfuel. unfold segment_rounds in *. lia.
    - left. now rewrite Hl.
    - unfold stack_within. now rewrite Hl.
    - exists perm. split; [exact Hp|]. now rewrite Hlen. }
  cbn [Numpy.loop].
  destruct (popped && (cdepth <? 0)); [apply Hpop, length_aheapsort|].
  destruct (Numpy.SMALL_QUICKSORT <? pr - pl)%nat eqn:Hbig;
    [|apply Hpop, length_insertion].
  apply Nat.ltb_lt in Hbig.
  assert (Hin : (pr < length a)%nat)
    by (unfold Numpy.SMALL_QUICKSORT in Hbig; lia).
  pose proof (pivot_inside v a pl pr Hin Hbig) as Hpiv. cbv zeta in Hpiv.
  destruct (Numpy.partition _ _ _ _ _ _) as [a5 pi]. cbn [fst snd] in Hpiv.
  destruct Hpiv as [Hl Hb].
  destruct (pi - pl <? pr - pi)%nat.
  - destruct (IH false (Numpy.swap a5 pi (pr - 1)) pl (pi - 1)%nat
                ((S pi, pr, cdepth - 1) :: stack) (cdepth - 1))
      as (perm & Hp & Hlen).
    + cbn [stack_rounds]. unfold segment_rounds in *. lia.
    + left. rewrite Hl. lia.
    + constructor; [cbn [fst snd]; rewrite Hl; lia|now rewrite Hl].
    + exists perm. split; [exact Hp|]. now rewrite Hlen.
  - destruct (IH false (Numpy.swap a5 pi (pr - 1)) (S pi) pr
                ((pl, (pi - 1)%nat, cdepth - 1) :: stack) (cdepth - 1))
      as (perm & Hp & Hlen).
    + cbn [stack_rounds]. unfold segment_rounds in *. lia.
    + left. rewrite Hl. lia.
    + constructor; [cbn [fst snd]; rewrite Hl; lia|now rewrite Hl].
    + exists perm. split; [exact Hp|]. now rewrite Hlen.
Qed.

(** numpy's quicksort returns on every array of keys, with as many
    positions as there are keys. *)
Lemma aquicksort_returns (v : list Timestamp) :
  exists perm, Numpy.aquicksort v = Some perm /\ length perm = length v.
Proof.
  unfold Numpy.aquicksort.
  destruct (loop_returns v (2 * length v + 1) false (List.seq 0 (length v)) 0
              (length v - 1) [] (2 * Z.log2 (Z.of_nat (length v))))
    as (perm & Hp & Hlen).
  - cbn [stack_rounds]. unfold segment_rounds. lia.
  - rewrite length_seq. lia.
  - constructor.
  - exists perm. split; [exact Hp|]. now rewrite Hlen, length_seq.
Qed.

Lemma argsort_quicksort_length (v : list Timestamp) :
  length (Numpy.argsort_quicksort v) = length v.
Proof.
  unfold Numpy.argsort_quicksort.
  destruct (aquicksort_returns v) as (perm & -> & Hlen). exact Hlen.
Qed.

(** ** The row that stays on the feed of eighteen lines *)

(** C1. The table has one row per timestamp, but the row that stays is the
    first of the sorted frame, which need not be the line seen first: on
    the feed of eighteen lines whose first two lines carry 12:16:00 with
    the heights 4.250 and 4.000, the quicksort behind [sort_index] turns
    the two rows around, and the table holds 4.000, the height of the
    second line. *)
Theorem first_seen_height_not_kept :
  let t := Strptime.utc 2025 7 29 12 16 0 in
  let fetched :=
    fetch_dart_data (fun _ => Ok (mk_response 200 feed18))
      Numpy.argsort_quicksort "21416" start_date end_date in
  Str.splitlines feed18 = feed18_lines
  /\ parse_line (nth 0 feed18_lines EmptyString) = Ok (Some (t, FVal (Qred 4.250)))
  /\ parse_line (nth 1 feed18_lines EmptyString) = Ok (Some (t, FVal (Qred 4.000)))
  /\ (exists records,
        parse_lines feed18_lines [] = Ok records
        /\ Numpy.aquicksort (index records) = Some (rev (List.seq 0 18)))
  /\ exists table,
       fetched = Ok table
       /\ length (filter (fun r => fst r =? t) table) = 1%nat
       /\ Pandas.lookup t table = Some (FVal (Qred 4.000))
       /\ Pandas.lookup t table <> Some (FVal (Qred 4.250)).
Proof.
  cbv zeta. split; [vm_compute; reflexivity|].
  split; [vm_compute; reflexivity|]. split; [vm_compute; reflexivity|]. split.
  - eexists. split; vm_compute; reflexivity.
  - eexists. split; [vm_compute; reflexivity|].
    split; [vm_compute; reflexivity|]. split; [vm_compute; reflexivity|].
    vm_compute. discriminate.
Qed.

(** * The claims at concrete inputs *)

Lemma indexing_in_bounds_witness :
  case_B ["2025"; "07"; "29"; "12"; "00"; "00"; "1.234"] = true
  /\ exists p6, getitem ["2025"; "07"; "29"; "12"; "00"; "00"; "1.234"] 6 = Ok p6.
Proof.
  split; [reflexivity|].
  apply (proj1 (proj2 (proj2 indexing_in_bounds))). reflexivity.
Defined.

Lemma case_A_before_case_B_witness :
  parse_line "20250729120000 07 29 12 00 00 9.9"
  = (do ts <- to_datetime_compact "20250729120000";
     do height <- PyFloat.float "07";
     Ok (Some (ts, height))).
Proof.
  apply (case_A_before_case_B "20250729120000 07 29 12 00 00 9.9"
           "20250729120000" ["07"; "29"; "12"; "00"; "00"; "9.9"]);
    reflexivity.
Defined.

Lemma malformed_height_aborts_fetch_witness :
  exists e',
    fetch_dart_data
      (fun _ => Ok (mk_response 200 ("20250729120000 1.234" ++ LF ++ "20250729120100 n/a")))
      Numpy.argsort_quicksort "21416" start_date end_date = Raise e'.
Proof.
  apply (malformed_height_aborts_fetch
           (fun _ => Ok (mk_response 200
                           ("20250729120000 1.234" ++ LF ++ "20250729120100 n/a")))
           Numpy.argsort_quicksort "21416" start_date end_date
           (mk_response 200 ("20250729120000 1.234" ++ LF ++ "20250729120100 n/a"))
           "20250729120100 n/a" "n/a"
           (ValueError "could not convert string to float: 'n/a'")).
  - reflexivity.
  - vm_compute. right. left. reflexivity.
  - reflexivity.
  - reflexivity.
Defined.

Lemma comments_and_blanks_no_data_witness :
  fetch_dart_data
    (fun _ => Ok (mk_response 200 ("#YY MM DD hh mm ss T HEIGHT" ++ LF ++ "   " ++ LF ++ "  # m")))
    Numpy.argsort_quicksort "21416" start_date end_date
  = Raise (ValueError "No data found for station 21416").
Proof.
  apply (comments_and_blanks_no_data
           (fun _ => Ok (mk_response 200
                           ("#YY MM DD hh mm ss T HEIGHT" ++ LF ++ "   " ++ LF ++ "  # m")))
           Numpy.argsort_quicksort "21416" start_date end_date
           (mk_response 200 ("#YY MM DD hh mm ss T HEIGHT" ++ LF ++ "   " ++ LF ++ "  # m"))).
  - reflexivity.
  - reflexivity.
  - change (Forall blank_or_comment ["#YY MM DD hh mm ss T HEIGHT"; "   "; "  # m"]).
    repeat constructor; (left; reflexivity) || (right; reflexivity).
Defined.

Lemma outer_join_is_union_witness :
  exists c : Combined,
    Concat.concat [("A", [(0, FVal 1); (60, FVal 2)]); ("B", [(60, FVal 3); (120, FVal 4)])]
    = Ok c
    /\ rows c = [ (0, [Some (FVal 1); None]);
                  (60, [Some (FVal 2); Some (FVal 3)]);
                  (120, [None; Some (FVal 4)]) ].
Proof.
  destruct (outer_join_is_union "A" "B" [(0, FVal 1); (60, FVal 2)]
              [(60, FVal 3); (120, FVal 4)]) as (c & Hc & _).
  - repeat constructor; cbn; intuition discriminate.
  - repeat constructor; cbn; intuition discriminate.
  - exists c. split; [exact Hc|].
    vm_compute in Hc. injection Hc as <-. reflexivity.
Defined.

Lemma run_halts_only_when_all_stations_fail_witness :
  main (fun _ => Raise RequestException) Numpy.argsort_quicksort
  = [ Fetching "Kamchatka (21416)" "21416" start_date end_date; Skipped "21416" RequestException;
      Fetching "Tokyo SE (21413)" "21413" start_date end_date; Skipped "21413" RequestException;
      Fetching "Adak AK (21414)" "21414" start_date end_date; Skipped "21414" RequestException;
      Fetching "California W (46402)" "46402" start_date end_date; Skipped "46402" RequestException;
      Fetching "Attu AK (21415)" "21415" start_date end_date; Skipped "21415" RequestException;
      NoDataExit ].
Proof.
  apply (proj1 (proj2 (run_halts_only_when_all_stations_fail
                         (fun _ => Raise RequestException) Numpy.argsort_quicksort))).
  reflexivity.
Defined.


(** * Further properties of the parser, the table and the run *)

(** ** The loop as a whole *)

Lemma parse_lines_readings (lines : list string) :
  forall records : list Reading,
    first_error lines = None ->
    parse_lines lines records = Ok (records ++ readings lines)%list.
Proof.
  induction lines as [|raw lines IH]; intros records;
    cbn [first_error parse_lines readings flat_map].
  - intros _. now rewrite app_nil_r.
  - fold (readings lines).
    destruct (parse_line raw) as [[r|]|e]; cbn [bind]; try discriminate.
    + intros H. rewrite (IH _ H), <- app_assoc. reflexivity.
    + intros H. apply (IH _ H).
Qed.

Lemma parse_lines_first_error (lines : list string) :
  forall (records : list Reading) (e : exn),
    first_error lines = Some e -> parse_lines lines records = Raise e.
Proof.
  induction lines as [|raw lines IH]; intros records e;
    cbn [first_error parse_lines]; [discriminate|].
  destruct (parse_line raw) as [[r|]|e0]; cbn [bind].
  - apply IH.
  - apply IH.
  - now intros [= ->].
Qed.

Lemma parse_lines_app (l1 l2 : list string) :
  forall records : list Reading,
    parse_lines (l1 ++ l2) records
    = (do r <- parse_lines l1 records; parse_lines l2 r).
Proof.
  induction l1 as [|raw l1 IH]; intros records; cbn [app parse_lines bind].
  - reflexivity.
  - destruct (parse_line raw) as [[r|]|e]; cbn [bind]; [apply IH|apply IH|].
    reflexivity.
Qed.

(** X1. The loop over the lines either raises the exception of the first
    line that raises, or returns what it was given followed by the readings
    of the record lines in the order of the text; a text in two parts is
    read as the first part and then the second. *)
Theorem loop_collects_in_order (lines : list string) (records : list Reading) :
  parse_lines lines records
  = match first_error lines with
    | Some e => Raise e
    | None => Ok (records ++ readings lines)%list
    end
  /\ forall l1 l2 : list string,
       parse_lines (l1 ++ l2) records
       = (do r <- parse_lines l1 records; parse_lines l2 r).
Proof.
  split.
  - destruct (first_error lines) as [e|] eqn:E.
    + now apply parse_lines_first_error.
    + now apply parse_lines_readings.
  - intros l1 l2. apply parse_lines_app.
Qed.

(** X2. The outcome of a fetch, by precedence: the exception of the
    request; else the HTTP error of a 4xx or 5xx status, whatever the body
    holds; else the exception of the first line that raises; else the
    no-data error when no line gave a reading; else the table of the
    readings, sorted and without repeated labels. *)
Theorem fetch_outcome_by_precedence
  (requests_get : string -> result Response)
  (argsort : list Timestamp -> list nat) (sid s e : string) :
  fetch_dart_data requests_get argsort sid s e
  = match requests_get (dart_url sid s e) with
    | Raise err => Raise err
    | Ok resp =>
        if (400 <=? status_code resp) && (status_code resp <? 600)
        then Raise (HTTPError (status_code resp))
        else
          match first_error (Str.splitlines (text resp)) with
          | Some err => Raise err
          | None =>
              match readings (Str.splitlines (text resp)) with
              | [] => Raise (ValueError ("No data found for station " ++ sid))
              | r :: records =>
                  Ok (Pandas.drop_duplicated []
                        (Pandas.sort_index argsort (r :: records)))
              end
          end
    end.
Proof.
  unfold fetch_dart_data.
  destruct (requests_get (dart_url sid s e)) as [resp|err]; cbn [bind];
    [|reflexivity].
  unfold raise_for_status.
  destruct ((400 <=? status_code resp) && (status_code resp <? 600));
    cbn [bind]; [reflexivity|].
  unfold build_table.
  destruct (first_error (Str.splitlines (text resp))) as [err|] eqn:E.
  - rewrite (parse_lines_first_error _ _ _ E). reflexivity.
  - rewrite (parse_lines_readings _ _ E). cbn [app bind].
    destruct (readings (Str.splitlines (text resp))); reflexivity.
Qed.

Lemma skipped_parse_line (raw : string) :
  skipped raw = true -> parse_line raw = Ok None.
Proof.
  unfold skipped. rewrite parse_line_classify.
  destruct (classify raw); (discriminate || reflexivity).
Qed.

(** X3. Blank lines, comments and lines of no record shape play no part:
    the loop gives the same result, exception or readings, on the text
    without them. *)
Theorem skipped_lines_play_no_part (lines : list string) (records : list Reading) :
  parse_lines (filter (fun raw => negb (skipped raw)) lines) records
  = parse_lines lines records.
Proof.
  revert records. induction lines as [|raw lines IH]; intros records;
    cbn [filter]; [reflexivity|].
  destruct (skipped raw) eqn:E; cbn [negb parse_lines].
  - rewrite (skipped_parse_line _ E). cbn [bind]. apply IH.
  - destruct (parse_line raw) as [[r|]|e]; cbn [bind]; [apply IH|apply IH|].
    reflexivity.
Qed.

(** ** A line and its tokens *)

Lemma split_lstrip (s : string) : Str.split (Str.lstrip s) = Str.split s.
Proof.
  unfold Str.split. induction s as [|c s IH]; cbn [Str.lstrip Str.split_go].
  - reflexivity.
  - destruct (Str.isspace c) eqn:Hc; [exact IH|].
    cbn [Str.split_go]. now rewrite Hc.
Qed.

Lemma split_go_rstrip (s : string) :
  forall acc : list ascii, Str.split_go acc (Str.rstrip s) = Str.split_go acc s.
Proof.
  induction s as [|c s IH]; intros acc; cbn [Str.rstrip]; [reflexivity|].
  destruct (Str.rstrip s) as [|d r] eqn:E.
  - destruct (Str.isspace c) eqn:Hc; cbn [Str.split_go]; rewrite Hc.
    + rewrite <- (IH []). cbn [Str.split_go]. destruct acc; reflexivity.
    + rewrite <- (IH (c :: acc)). reflexivity.
  - cbn [Str.split_go]. destruct (Str.isspace c).
    + destruct acc; rewrite <- (IH []); reflexivity.
    + rewrite <- (IH (c :: acc)). reflexivity.
Qed.

(** [strip] takes nothing from the tokens. *)
Lemma split_strip (s : string) : Str.split (Str.strip s) = Str.split s.
Proof.
  unfold Str.strip, Str.split at 1. rewrite split_go_rstrip.
  apply split_lstrip.
Qed.

Lemma classify_by_tokens (raw : string) :
  classify raw = classify_tokens (Str.split raw).
Proof.
  unfold classify, classify_tokens. rewrite split_strip.
  pose proof (strip_first_nonspace raw) as Hs.
  destruct (first_nonspace raw) as [c|].
  - destruct Hs as [r [Hr Hc]].
    destruct (split_nonspace c r Hc) as [tok [rest E]].
    rewrite <- split_strip, Hr, E. reflexivity.
  - rewrite <- split_strip, Hs. reflexivity.
Qed.

(** X4. The parser reads a line through its tokens alone: two lines with
    the same whitespace-separated tokens, whatever whitespace stands before,
    between and after them, are read alike. *)
Theorem line_read_through_tokens (a b : string) :
  Str.split a = Str.split b -> parse_line a = parse_line b.
Proof.
  intros H. now rewrite !parse_line_classify, !classify_by_tokens, H.
Qed.

Lemma line_read_through_tokens_witness :
  parse_line ("  20250729120000" ++ String (ascii_of_nat 9) "1.234  ")
  = parse_line "20250729120000 1.234".
Proof.
  apply line_read_through_tokens. reflexivity.
Defined.

(** X5. A record line is read from its leading tokens: where the first
    token is fourteen digits, the tokens after the second change nothing;
    and two lines of seven tokens or more that agree on the first seven are
    read alike, whatever follows. *)
Theorem reading_from_leading_tokens :
  (forall (a b p0 p1 : string) (ta tb : list string),
      Str.split a = p0 :: p1 :: ta -> Str.split b = p0 :: p1 :: tb ->
      Str.fullmatch_d14 p0 = true ->
      parse_line a = parse_line b)
  /\ (forall (a b t0 t1 t2 t3 t4 t5 t6 : string) (ta tb : list string),
         Str.split a = t0 :: t1 :: t2 :: t3 :: t4 :: t5 :: t6 :: ta ->
         Str.split b = t0 :: t1 :: t2 :: t3 :: t4 :: t5 :: t6 :: tb ->
         parse_line a = parse_line b).
Proof.
  split.
  - intros a b p0 p1 ta tb Ha Hb H14.
    rewrite !parse_line_classify, !classify_by_tokens, Ha, Hb.
    unfold classify_tokens, case_A. rewrite H14. reflexivity.
  - intros a b t0 t1 t2 t3 t4 t5 t6 ta tb Ha Hb.
    rewrite !parse_line_classify, !classify_by_tokens, Ha, Hb.
    unfold classify_tokens, case_A, case_B. reflexivity.
Qed.

Lemma reading_from_leading_tokens_witness :
  parse_line "20250729120000 1.234 # checked"
  = parse_line "20250729120000 1.234"
  /\ parse_line "2025 07 29 12 00 00 1.234 extra ignored"
     = parse_line "2025 07 29 12 00 00 1.234".
Proof.
  split.
  - apply (proj1 reading_from_leading_tokens _ _ "20250729120000" "1.234"
             ["#"; "checked"] []); reflexivity.
  - apply (proj2 reading_from_leading_tokens _ _ "2025" "07" "29" "12" "00" "00"
             "1.234" ["extra"; "ignored"] []); reflexivity.
Defined.

(** ** The table: order, labels, rows *)

Lemma monotonic_sorted (idx : list Timestamp) :
  Pandas.is_monotonic_increasing idx = true -> StronglySorted Z.le idx.
Proof.
  induction idx as [|a idx IH]; [constructor|].
  cbn [Pandas.is_monotonic_increasing]. destruct idx as [|b idx].
  - intros _. repeat constructor.
  - intros H. apply andb_true_iff in H. destruct H as [Hab Hrest].
    apply Z.leb_le in Hab. specialize (IH Hrest).
    constructor; [exact IH|].
    inversion IH as [|? ? _ Hall]; subst.
    constructor; [exact Hab|].
    eapply Forall_impl; [|exact Hall]. intros ? ?; cbn in *; lia.
Qed.

Lemma sorted_monotonic (idx : list Timestamp) :
  StronglySorted Z.lt idx -> Pandas.is_monotonic_increasing idx = true.
Proof.
  induction 1 as [|a idx Hs IH Hall]; [reflexivity|].
  cbn [Pandas.is_monotonic_increasing]. destruct idx as [|b idx]; [reflexivity|].
  inversion Hall; subst. rewrite IH, andb_true_r. apply Z.leb_le. lia.
Qed.

Lemma drop_duplicated_subset (df : DataFrame) :
  forall (seen : list Timestamp) (r : Reading),
    In r (Pandas.drop_duplicated seen df) -> In r df.
Proof.
  induction df as [|[t0 h0] df IH]; intros seen r; cbn [Pandas.drop_duplicated].
  - tauto.
  - destruct (Pandas.mem t0 seen); cbn [In]; intros H.
    + right. now apply (IH seen).
    + destruct H as [H|H]; [now left|right; now apply (IH (t0 :: seen))].
Qed.

Lemma drop_duplicated_sorted (df : DataFrame) :
  forall seen : list Timestamp,
    StronglySorted Z.le (index df) ->
    StronglySorted Z.lt (index (Pandas.drop_duplicated seen df)).
Proof.
  induction df as [|[t0 h0] df IH]; intros seen Hs;
    cbn [Pandas.drop_duplicated]; [constructor|].
  cbn [index map fst] in Hs. fold (index df) in Hs.
  inversion Hs as [|? ? Hs' Hall]; subst.
  destruct (Pandas.mem t0 seen); [now apply IH|].
  cbn [index map fst]. fold (index (Pandas.drop_duplicated (t0 :: seen) df)).
  constructor; [now apply IH|].
  apply Forall_forall. intros t Ht. apply drop_duplicated_index in Ht.
  destruct Ht as [Hin Hnot]. rewrite Forall_forall in Hall.
  specialize (Hall _ Hin). cbn [In] in Hnot.
  assert (t0 <> t) by tauto. lia.
Qed.

Lemma drop_duplicated_unchanged (df : DataFrame) :
  forall seen : list Timestamp,
    NoDup (index df) -> (forall t, In t (index df) -> ~ In t seen) ->
    Pandas.drop_duplicated seen df = df.
Proof.
  induction df as [|[t0 h0] df IH]; intros seen Hnd Hseen;
    cbn [Pandas.drop_duplicated]; [reflexivity|].
  cbn [index map fst] in Hnd, Hseen. fold (index df) in Hnd, Hseen.
  inversion Hnd as [|? ? Hnotin Hnd']; subst.
  destruct (Pandas.mem t0 seen) eqn:M.
  - apply mem_In in M. exfalso. apply (Hseen t0); [now left|exact M].
  - f_equal. apply IH; [exact Hnd'|].
    intros t Ht [<-|Hs]; [tauto|]. apply (Hseen t); [now right|exact Hs].
Qed.

Lemma take_subset (perm : list nat) (df : DataFrame) (r : Reading) :
  In r (Pandas.take perm df) -> In r df.
Proof.
  unfold Pandas.take. rewrite in_flat_map. intros [i [_ Hr]].
  destruct (nth_error df i) as [r'|] eqn:E; [|destruct Hr].
  destruct Hr as [<-|[]]. eapply nth_error_In; eauto.
Qed.

Lemma index_app (a b : DataFrame) :
  index (a ++ b)%list = (index a ++ index b)%list.
Proof.
  apply map_app.
Qed.

Lemma take_index_map (perm : list nat) (df : DataFrame) :
  (forall i, In i perm -> (i < length (index df))%nat) ->
  index (Pandas.take perm df) = map (fun i => nth i (index df) 0) perm.
Proof.
  induction perm as [|i perm IH]; intros Hvalid; [reflexivity|].
  change (Pandas.take (i :: perm) df)
    with ((match nth_error df i with Some r => [r] | None => [] end)
          ++ Pandas.take perm df)%list.
  rewrite index_app, IH by (intros j Hj; apply Hvalid; now right).
  cbn [map].
  assert (Hi : (i < length (index df))%nat) by (apply Hvalid; now left).
  destruct (nth_error df i) as [[t h]|] eqn:E.
  - cbn [index map fst app]. f_equal. symmetry. apply nth_error_nth.
    apply (map_nth_error fst _ _ E).
  - apply nth_error_None in E. unfold index in Hi. rewrite length_map in Hi.
    exfalso. apply (Nat.lt_irrefl i). eapply Nat.lt_le_trans; [exact Hi|exact E].
Qed.

Lemma sorted_map (idx : list Timestamp) (perm : list nat) :
  StronglySorted (fun a b => nth a idx 0 <= nth b idx 0) perm ->
  StronglySorted Z.le (map (fun i => nth i idx 0) perm).
Proof.
  induction 1 as [|a perm Hs IH Hall]; cbn [map]; constructor; [exact IH|].
  apply Forall_map. exact Hall.
Qed.

(** The frame after [sort_index], under an order that sorts. *)
Lemma sort_index_sorted (argsort : list Timestamp -> list nat) (df : DataFrame) :
  sorts (index df) (argsort (index df)) ->
  StronglySorted Z.le (index (Pandas.sort_index argsort df))
  /\ (forall t, In t (index (Pandas.sort_index argsort df)) <-> In t (index df)).
Proof.
  intros (Hall & Hvalid & Hsorted). unfold Pandas.sort_index.
  destruct (Pandas.is_monotonic_increasing (index df)) eqn:M.
  - split; [now apply monotonic_sorted|tauto].
  - split.
    + rewrite (take_index_map _ _ Hvalid). now apply sorted_map.
    + intros t. rewrite (take_index_map _ _ Hvalid), in_map_iff. split.
      * intros [i [<- Hi]]. apply nth_In. now apply Hvalid.
      * intros Ht. destruct (In_nth _ _ 0 Ht) as [i [Hi Hn]].
        exists i. split; [exact Hn|now apply Hall].
Qed.

(** X6. Where the order that [sort_index] takes sorts the labels, the
    table comes out in strictly ascending order of time, with exactly the
    timestamps of the readings, each of its rows one of the readings; it is
    not empty. *)
Theorem table_is_sorted (argsort : list Timestamp -> list nat)
  (sid raw : string) (df : DataFrame) (records : list Reading) :
  build_table argsort sid raw = Ok df ->
  parse_lines (Str.splitlines raw) [] = Ok records ->
  sorts (index records) (argsort (index records)) ->
  StronglySorted Z.lt (index df)
  /\ (forall t, In t (index df) <-> In t (index records))
  /\ (forall r, In r df -> In r records)
  /\ df <> [].
Proof.
  intros Hdf Hrec Hsorts.
  destruct (build_table_inv _ _ _ _ Hdf) as (records' & H1 & Hne & ->).
  assert (records' = records) as -> by congruence.
  destruct (sort_index_sorted argsort records Hsorts) as [Hs Hlabels].
  assert (Hidx : forall t,
             In t (index (Pandas.drop_duplicated []
                            (Pandas.sort_index argsort records)))
             <-> In t (index records)).
  { intros t. rewrite drop_duplicated_index, Hlabels. cbn [In]. tauto. }
  split; [now apply drop_duplicated_sorted|]. split; [exact Hidx|]. split.
  - intros r Hr. apply drop_duplicated_subset in Hr.
    unfold Pandas.sort_index in Hr.
    destruct (Pandas.is_monotonic_increasing (index records));
      [exact Hr|now apply take_subset in Hr].
  - destruct records as [|[t h] records]; [congruence|].
    intros Hnil. specialize (Hidx t). rewrite Hnil in Hidx.
    cbn [index map fst In] in Hidx. tauto.
Qed.

(** X7. A feed whose readings come in strictly ascending order of time
    comes back as it is: the table is the list of the readings, whatever
    the sort behind [sort_index] would do. *)
Theorem ascending_feed_unchanged (argsort : list Timestamp -> list nat)
  (sid raw : string) (records : list Reading) :
  parse_lines (Str.splitlines raw) [] = Ok records ->
  records <> [] ->
  StronglySorted Z.lt (index records) ->
  build_table argsort sid raw = Ok records.
Proof.
  intros Hrec Hne Hs. unfold build_table. rewrite Hrec. cbn [bind].
  destruct records as [|r records]; [congruence|].
  unfold Pandas.sort_index. rewrite (sorted_monotonic _ Hs).
  f_equal. apply drop_duplicated_unchanged; [now apply sorted_NoDup|].
  intros t _ [].
Qed.

Lemma table_is_sorted_witness :
  StronglySorted Z.lt
    [Strptime.utc 2025 7 29 12 0 0; Strptime.utc 2025 7 29 12 1 0;
     Strptime.utc 2025 7 29 12 2 0].
Proof.
  apply (table_is_sorted Numpy.argsort_quicksort "21416"
           ("20250729120100 2.0" ++ LF ++ "20250729120000 1.0" ++ LF
            ++ "20250729120200 3.0")
           [(Strptime.utc 2025 7 29 12 0 0, FVal 1);
            (Strptime.utc 2025 7 29 12 1 0, FVal 2);
            (Strptime.utc 2025 7 29 12 2 0, FVal 3)]
           [(Strptime.utc 2025 7 29 12 1 0, FVal 2);
            (Strptime.utc 2025 7 29 12 0 0, FVal 1);
            (Strptime.utc 2025 7 29 12 2 0, FVal 3)]).
  - vm_compute. reflexivity.
  - vm_compute. reflexivity.
  - change (sorts [1753790460; 1753790400; 1753790520] [1%nat; 0%nat; 2%nat]).
    split; [|split].
    + intros i Hi. cbn [length] in Hi. cbn [In]. lia.
    + intros i Hi. cbn [In] in Hi. cbn [length]. lia.
    + repeat constructor; cbn; lia.
Defined.

Lemma ascending_feed_unchanged_witness :
  build_table (fun _ => []) "21416"
    ("20250729120000 1.0" ++ LF ++ "junk" ++ LF ++ "2025 07 29 12 01 00 2.0")
  = Ok [(Strptime.utc 2025 7 29 12 0 0, FVal 1);
        (Strptime.utc 2025 7 29 12 1 0, FVal 2)].
Proof.
  apply ascending_feed_unchanged.
  - vm_compute. reflexivity.
  - discriminate.
  - repeat constructor; cbn; lia.
Defined.

(** ** The join of any number of tables *)

Lemma concat_columns (dfs : list NamedFrame) (c : Combined) :
  Concat.concat dfs = Ok c -> columns c = map fst dfs.
Proof.
  destruct dfs as [|d rest]; [discriminate|]. unfold Concat.concat.
  match goal with
  | |- context [forallb ?f rest] => destruct (forallb f rest)
  end; [now intros [= <-]|].
  match goal with
  | |- context [existsb ?f (d :: rest)] => destruct (existsb f (d :: rest))
  end; [discriminate|now intros [= <-]].
Qed.

Lemma concat_rows (dfs : list NamedFrame) (c : Combined) :
  Forall (fun d : NamedFrame => NoDup (index (snd d))) dfs ->
  Concat.concat dfs = Ok c ->
  NoDup (combined_index c)
  /\ (forall t, In t (combined_index c) <->
                exists d, In d dfs /\ In t (index (snd d)))
  /\ (forall t cells,
        In (t, cells) (rows c) ->
        cells = map (fun d : NamedFrame => Pandas.lookup t (snd d)) dfs).
Proof.
  intros Hall. destruct dfs as [|d rest]; [discriminate|]. unfold Concat.concat.
  match goal with
  | |- context [forallb ?f rest] => destruct (forallb f rest) eqn:Heq
  end.
  - intros [= <-]. unfold combined_index. cbn [rows].
    rewrite aligned_rows_index.
    assert (Hsame : forall d', In d' (d :: rest) -> index (snd d') = index (snd d)).
    { intros d' [<-|Hd']; [reflexivity|].
      rewrite forallb_forall in Heq. apply index_eqb_eq. now apply Heq. }
    rewrite Forall_forall in Hall. split; [apply Hall; now left|]. split.
    + intros t. split.
      * intros Ht. exists d. split; [now left|exact Ht].
      * intros [d' [Hd' Ht]]. now rewrite <- (Hsame d' Hd').
    + intros t cells Hin.
      destruct (aligned_rows_In _ _ _ _ _ Hin) as [k [Hk ->]].
      apply map_ext_in. intros d' Hd'. cbn [Nat.add].
      apply nth_error_lookup; [now apply Hall|]. now rewrite (Hsame d' Hd').
  - match goal with
    | |- context [existsb ?f (d :: rest)] => destruct (existsb f (d :: rest))
    end; [discriminate|].
    intros [= <-]. unfold combined_index. cbn [rows].
    rewrite map_map. cbn [Concat.reindexed_row fst]. rewrite map_id.
    unfold Concat.union_indexes.
    destruct (union_indexes_spec
                (map (fun d' : NamedFrame => index (snd d')) (d :: rest)) []
                (SSorted_nil _)) as [Hs Hin].
    cbn zeta in Hs, Hin. split; [now apply sorted_NoDup|]. split.
    + intros t. rewrite Hin. cbn [In]. split.
      * intros [[]|[idx [Hidx Ht]]]. apply in_map_iff in Hidx.
        destruct Hidx as [d' [<- Hd']]. eauto.
      * intros [d' [Hd' Ht]]. right. exists (index (snd d')).
        split; [|exact Ht].
        apply (in_map (fun d0 : NamedFrame => index (snd d0))). exact Hd'.
    + intros t cells Hrow. apply in_map_iff in Hrow.
      destruct Hrow as [u [Hu _]]. unfold Concat.reindexed_row in Hu.
      now injection Hu as -> <-.
Qed.

(** X8. The outer join of any number of station tables, as [main] asks
    for it: one column per table, in their order; the labels are those of
    all the tables together, each once; the row of a label holds, table by
    table, the height at that label or the no-value marker. *)
Theorem outer_join_of_all_tables (dfs : list NamedFrame) :
  dfs <> [] ->
  Forall (fun d : NamedFrame => NoDup (index (snd d))) dfs ->
  exists c : Combined,
    Concat.concat dfs = Ok c
    /\ columns c = map fst dfs
    /\ NoDup (combined_index c)
    /\ (forall t, In t (combined_index c) <->
                  exists d, In d dfs /\ In t (index (snd d)))
    /\ (forall t cells,
          In (t, cells) (rows c) ->
          cells = map (fun d : NamedFrame => Pandas.lookup t (snd d)) dfs).
Proof.
  intros Hne Hall. destruct (concat_unique_ok dfs Hne Hall) as [c Hc].
  exists c. split; [exact Hc|]. split; [now apply concat_columns|].
  now apply concat_rows.
Qed.

Lemma outer_join_of_all_tables_witness :
  exists c : Combined,
    Concat.concat [("A", [(0, FVal 1)]); ("B", [(60, FVal 2)]); ("C", [(0, FVal 3)])]
    = Ok c
    /\ rows c = [ (0, [Some (FVal 1); None; Some (FVal 3)]);
                  (60, [None; Some (FVal 2); None]) ].
Proof.
  destruct (outer_join_of_all_tables
              [("A", [(0, FVal 1)]); ("B", [(60, FVal 2)]); ("C", [(0, FVal 3)])])
    as (c & Hc & _).
  - discriminate.
  - repeat constructor; cbn; tauto.
  - exists c. split; [exact Hc|].
    vm_compute in Hc. injection Hc as <-. reflexivity.
Defined.

(** ** What the chart shows *)

Lemma station_frame_names (requests_get : string -> result Response)
  (argsort : list Timestamp -> list nat) (todo : list (string * string)) :
  map fst (flat_map (station_frame requests_get argsort) todo)
  = map fst (filter (succeeds requests_get argsort) todo).
Proof.
  induction todo as [|st todo IH]; [reflexivity|].
  cbn [flat_map filter]. rewrite map_app.
  unfold station_frame at 1, succeeds at 1.
  destruct (fetch_dart_data _ _ _ _ _); cbn [is_ok map app fst];
    [f_equal|]; exact IH.
Qed.

Lemma station_frame_cells (requests_get : string -> result Response)
  (argsort : list Timestamp -> list nat) (t : Timestamp)
  (todo : list (string * string)) :
  map (fun d : NamedFrame => Pandas.lookup t (snd d))
    (flat_map (station_frame requests_get argsort) todo)
  = map (station_cell requests_get argsort t)
      (filter (succeeds requests_get argsort) todo).
Proof.
  induction todo as [|st todo IH]; [reflexivity|].
  cbn [flat_map filter]. rewrite map_app.
  unfold station_frame at 1, succeeds at 1.
  destruct (fetch_dart_data _ _ _ _ _) eqn:E; cbn [is_ok map app snd];
    [|exact IH].
  f_equal; [|exact IH]. unfold station_cell. now rewrite E.
Qed.

Lemma station_frame_In (requests_get : string -> result Response)
  (argsort : list Timestamp -> list nat) (todo : list (string * string))
  (d : NamedFrame) :
  In d (flat_map (station_frame requests_get argsort) todo) <->
  exists st, In st todo /\ fst d = fst st
             /\ fetch_dart_data requests_get argsort (snd st) start_date end_date
                = Ok (snd d).
Proof.
  rewrite in_flat_map. split.
  - intros [st [Hst Hd]]. exists st. split; [exact Hst|].
    unfold station_frame in Hd.
    destruct (fetch_dart_data _ _ _ _ _) as [df|]; [|destruct Hd].
    destruct Hd as [<-|[]]. auto.
  - intros [st [Hst [Hname Hfetch]]]. exists st. split; [exact Hst|].
    unfold station_frame. rewrite Hfetch. left.
    destruct d as [n df]. cbn [fst snd] in *. now subst.
Qed.

Lemma progress_only (l : list output) (o : output) :
  forallb is_progress l = true -> In o l -> is_progress o = true.
Proof.
  intros H Hin. rewrite forallb_forall in H. now apply H.
Qed.

(** The chart is drawn from the join of the frames that were collected. *)
Lemma main_chart (requests_get : string -> result Response)
  (argsort : list Timestamp -> list nat) (c : Combined) :
  In (Chart c) (main requests_get argsort) ->
  Concat.concat (flat_map (station_frame requests_get argsort) stations) = Ok c.
Proof.
  unfold main. rewrite fetch_stations_spec. cbn [app].
  pose proof (station_report_progress requests_get argsort stations) as Hp.
  destruct (flat_map (station_frame requests_get argsort) stations) as [|d dfs].
  - intros H. apply in_app_or in H. destruct H as [H|[H|[]]]; [|discriminate].
    apply (progress_only _ _ Hp) in H. discriminate.
  - destruct (Concat.concat (d :: dfs)) as [c'|e].
    + intros H. apply in_app_or in H.
      destruct H as [H|[H|[H|[H|[]]]]]; try discriminate.
      * apply (progress_only _ _ Hp) in H. discriminate.
      * now injection H as ->.
    + intros H. apply in_app_or in H. destruct H as [H|[H|[]]]; [|discriminate].
      apply (progress_only _ _ Hp) in H. discriminate.
Qed.

(** X9. The chart of a run shows the stations whose fetch succeeded, and
    only those: one column per such station, under its name, in the order
    of the configuration; the rows are the timestamps of all their tables
    together, each once; a cell is the station's height at that time, or
    the no-value marker.  A station that failed leaves no column. *)
Theorem chart_shows_successful_stations
  (requests_get : string -> result Response)
  (argsort : list Timestamp -> list nat) (c : Combined) :
  In (Chart c) (main requests_get argsort) ->
  columns c = map fst (filter (succeeds requests_get argsort) stations)
  /\ NoDup (combined_index c)
  /\ (forall t,
        In t (combined_index c) <->
        exists st df,
          In st stations
          /\ fetch_dart_data requests_get argsort (snd st) start_date end_date
             = Ok df
          /\ In t (index df))
  /\ (forall t cells,
        In (t, cells) (rows c) ->
        cells = map (station_cell requests_get argsort t)
                  (filter (succeeds requests_get argsort) stations)).
Proof.
  intros Hchart. apply main_chart in Hchart.
  destruct (concat_rows _ _ (station_frame_unique requests_get argsort stations)
              Hchart) as (Hnd & Hidx & Hcells).
  split; [rewrite (concat_columns _ _ Hchart); apply station_frame_names|].
  split; [exact Hnd|]. split.
  - intros t. rewrite Hidx. split.
    + intros [d [Hd Ht]]. apply station_frame_In in Hd.
      destruct Hd as [st [Hst [_ Hf]]]. exists st, (snd d). auto.
    + intros [st [df [Hst [Hf Ht]]]]. exists (fst st, df).
      split; [|exact Ht]. apply station_frame_In. exists st. auto.
  - intros t cells Hin. rewrite (Hcells _ _ Hin). apply station_frame_cells.
Qed.

(** X10. Neither a fetch that fails nor the join of the tables makes
    [main] end in an exception: whatever the network returns and whatever
    order the sort gives, the run ends with the no-data line or with the
    chart. *)
Theorem main_lets_no_exception_out
  (requests_get : string -> result Response)
  (argsort : list Timestamp -> list nat) :
  existsb is_uncaught (main requests_get argsort) = false
  /\ exists out,
       main requests_get argsort = (out ++ [NoDataExit])%list
       \/ exists c, main requests_get argsort = (out ++ [Chart c])%list.
Proof.
  unfold main. rewrite fetch_stations_spec. cbn [app].
  pose proof (station_report_progress requests_get argsort stations) as Hp.
  assert (Hq : existsb is_uncaught
                 (flat_map (station_report requests_get argsort) stations) = false).
  { apply not_true_is_false. intros H. apply existsb_exists in H.
    destruct H as [o [Ho Hu]]. apply (progress_only _ _ Hp) in Ho.
    destruct o; discriminate. }
  destruct (flat_map (station_frame requests_get argsort) stations)
    as [|d dfs] eqn:E.
  - split; [rewrite existsb_app, Hq; reflexivity|]. eexists. left. reflexivity.
  - destruct (concat_unique_ok (d :: dfs)) as [c Hc]; [discriminate| |].
    + rewrite <- E. apply station_frame_unique.
    + rewrite Hc. split; [rewrite existsb_app, Hq; reflexivity|].
      exists (flat_map (station_report requests_get argsort) stations
              ++ [TailHeader; Tail (Concat.tail c)])%list.
      right. exists c. rewrite <- app_assoc. reflexivity.
Qed.

Lemma chart_shows_successful_stations_witness :
  columns
    (mk_combined ["Kamchatka (21416)"; "Tokyo SE (21413)"]
       [(1753790400, [Some (FVal (5 # 2)); Some (FVal (3 # 2))]);
        (1753790460, [Some (FVal (11 # 4)); None])])
  = map fst (filter (succeeds two_stations_answer Numpy.argsort_quicksort) stations).
Proof.
  apply (chart_shows_successful_stations two_stations_answer
           Numpy.argsort_quicksort).
  vm_compute. repeat (first [left; reflexivity | right]).
Defined.

(** ** Which stamps convert *)

Lemma isdigit_range (c : ascii) :
  Str.isdigit c = true -> (48 <= Str.code c <= 57)%N.
Proof.
  unfold Str.isdigit, Str.in_range. intros H. apply andb_true_iff in H.
  destruct H as [H1 H2]. apply N.leb_le in H1, H2. lia.
Qed.

Ltac split_char :=
  match goal with
  | |- context [N.eqb ?x ?y] => destruct (N.eqb_spec x y)
  | |- context [N.leb ?x ?y] => destruct (N.leb_spec x y)
  end; cbn [andb app]; try (exfalso; lia).

Ltac head_of_directive :=
  unfold Strptime.alt, Strptime.two, Strptime.one, Strptime.is_char,
    Str.isdigit, Str.in_range, PyFloat.digit_value in *;
  repeat split_char; eexists; reflexivity.

Lemma dir_m_head (a b : ascii) (r : string) :
  (48 <= Str.code a <= 57)%N -> (48 <= Str.code b <= 57)%N ->
  1 <= 10 * PyFloat.digit_value a + PyFloat.digit_value b <= 12 ->
  exists tl, Strptime.dir_m (String a (String b r))
             = (10 * PyFloat.digit_value a + PyFloat.digit_value b, r) :: tl.
Proof.
  intros Ha Hb Hv. unfold Strptime.dir_m. head_of_directive.
Qed.

Lemma dir_d_head (a b : ascii) (r : string) :
  (48 <= Str.code a <= 57)%N -> (48 <= Str.code b <= 57)%N ->
  1 <= 10 * PyFloat.digit_value a + PyFloat.digit_value b <= 31 ->
  exists tl, Strptime.dir_d (String a (String b r))
             = (10 * PyFloat.digit_value a + PyFloat.digit_value b, r) :: tl.
Proof.
  intros Ha Hb Hv. unfold Strptime.dir_d. head_of_directive.
Qed.

Lemma dir_H_head (a b : ascii) (r : string) :
  (48 <= Str.code a <= 57)%N -> (48 <= Str.code b <= 57)%N ->
  0 <= 10 * PyFloat.digit_value a + PyFloat.digit_value b <= 23 ->
  exists tl, Strptime.dir_H (String a (String b r))
             = (10 * PyFloat.digit_value a + PyFloat.digit_value b, r) :: tl.
Proof.
  intros Ha Hb Hv. unfold Strptime.dir_H. head_of_directive.
Qed.

Lemma dir_M_head (a b : ascii) (r : string) :
  (48 <= Str.code a <= 57)%N -> (48 <= Str.code b <= 57)%N ->
  0 <= 10 * PyFloat.digit_value a + PyFloat.digit_value b <= 59 ->
  exists tl, Strptime.dir_M (String a (String b r))
             = (10 * PyFloat.digit_value a + PyFloat.digit_value b, r) :: tl.
Proof.
  intros Ha Hb Hv. unfold Strptime.dir_M. head_of_directive.
Qed.

Lemma dir_S_head (a b : ascii) (r : string) :
  (48 <= Str.code a <= 57)%N -> (48 <= Str.code b <= 57)%N ->
  0 <= 10 * PyFloat.digit_value a + PyFloat.digit_value b <= 61 ->
  exists tl, Strptime.dir_S (String a (String b r))
             = (10 * PyFloat.digit_value a + PyFloat.digit_value b, r) :: tl.
Proof.
  intros Ha Hb Hv. unfold Strptime.dir_S. head_of_directive.
Qed.

Lemma andthen_head {R : Type} (f : Strptime.directive)
  (k : Z -> string -> list R) (s : string) (v : Z) (r : string)
  (tl : list (Z * string)) (x : R) (tl' : list R) :
  f s = (v, r) :: tl -> k v r = x :: tl' ->
  exists tl'', Strptime.andthen f k s = x :: tl''.
Proof.
  intros Hf Hk. unfold Strptime.andthen. rewrite Hf. cbn [flat_map fst snd].
  rewrite Hk. cbn [app]. eauto.
Qed.

Lemma andthen_head_eq {R : Type} (f : Strptime.directive)
  (k : Z -> string -> list R) (s : string) (v : Z) (r : string)
  (tl : list (Z * string)) (x : R) (tl' : list R) :
  f s = (v, r) :: tl -> k v r = x :: tl' ->
  Strptime.andthen f k s
  = x :: (tl' ++ flat_map (fun vr => k (fst vr) (snd vr)) tl)%list.
Proof.
  intros Hf Hk. unfold Strptime.andthen. rewrite Hf. cbn [flat_map fst snd].
  now rewrite Hk.
Qed.

Lemma days_in_month_le_31 (y m : Z) : Strptime.days_in_month y m <= 31.
Proof.
  unfold Strptime.days_in_month.
  destruct (m =? 2); [destruct (Strptime.is_leap y); lia|].
  destruct ((m =? 4) || (m =? 6) || (m =? 9) || (m =? 11)); lia.
Qed.

Lemma calendar_ok_ranges (f : Strptime.fields) :
  calendar_ok f = true ->
  Strptime.date_ok f = true
  /\ 1 <= Strptime.f_month f <= 12 /\ 1 <= Strptime.f_day f <= 31
  /\ 0 <= Strptime.f_hour f <= 23 /\ 0 <= Strptime.f_minute f <= 59
  /\ 0 <= Strptime.f_second f <= 61.
Proof.
  unfold calendar_ok. intros H.
  destruct (Strptime.date_ok f) eqn:Hd; [|discriminate].
  cbn [andb] in H. split; [reflexivity|].
  repeat (apply andb_true_iff in H; destruct H as [H ?]).
  unfold Strptime.date_ok in Hd.
  repeat (apply andb_true_iff in Hd; destruct Hd as [Hd ?]).
  pose proof (days_in_month_le_31 (Strptime.f_year f) (Strptime.f_month f)).
  repeat match goal with
         | H : (_ <=? _) = true |- _ => apply Z.leb_le in H
         end.
  lia.
Qed.

Lemma convert_head (f : Strptime.fields) (tl : list (Strptime.fields * string)) :
  Strptime.convert ((f, EmptyString) :: tl)
  = if Strptime.date_ok f && Strptime.in_bounds (Strptime.epoch_seconds f)
    then Ok (Strptime.epoch_seconds f)
    else Strptime.convert ((f, EmptyString) :: tl).
Proof.
  cbn [Strptime.convert].
  destruct (Strptime.date_ok f); cbn [negb andb]; [|reflexivity].
  destruct (Strptime.in_bounds _); reflexivity.
Qed.

Lemma convert_Ok_bounds (cands : list (Strptime.fields * string)) (t : Timestamp) :
  Strptime.convert cands = Ok t ->
  exists f tl, cands = (f, EmptyString) :: tl
               /\ Strptime.date_ok f = true
               /\ Strptime.in_bounds (Strptime.epoch_seconds f) = true
               /\ t = Strptime.epoch_seconds f.
Proof.
  unfold Strptime.convert. destruct cands as [|[f rest] tl]; [discriminate|].
  destruct rest; [|discriminate].
  destruct (Strptime.date_ok f) eqn:Hd; cbn [negb]; [|discriminate].
  destruct (Strptime.in_bounds _) eqn:Hb; cbn [negb]; [|discriminate].
  intros [= <-]. exists f, tl. auto.
Qed.

(** The first match of the combined format on fourteen digits that spell
    a date and time takes the fields at their places. *)
Lemma compact_head (stamp : string) :
  Str.fullmatch_d14 stamp = true ->
  calendar_ok (fixed_fields stamp) = true ->
  exists tl, Strptime.matches_compact stamp = (fixed_fields stamp, EmptyString) :: tl.
Proof.
  unfold Str.fullmatch_d14. intros H14 Hcal.
  apply andb_true_iff in H14. destruct H14 as [Hlen Hdig].
  apply Nat.eqb_eq in Hlen.
  do 14 (destruct stamp as [|? stamp]; [discriminate|]).
  destruct stamp; [|discriminate]. clear Hlen.
  cbn [Str.all_digits] in Hdig.
  repeat (apply andb_true_iff in Hdig; destruct Hdig as [? Hdig]).
  apply calendar_ok_ranges in Hcal.
  unfold fixed_fields in *. cbn [substring] in *.
  rewrite !int_two_digits in *.
  cbn [Strptime.f_month Strptime.f_day Strptime.f_hour Strptime.f_minute
       Strptime.f_second] in Hcal.
  destruct Hcal as (_ & Rmo & Rd & Rh & Rmi & Rs).
  repeat match goal with
         | H : Str.isdigit _ = true |- _ =>
             pose proof (isdigit_range _ H); revert H
         end.
  intros.
  destruct (dir_m_head a3 a4 (String a5 (String a6 (String a7 (String a8
              (String a9 (String a10 (String a11 (String a12 EmptyString))))))))
              ltac:(assumption) ltac:(assumption) Rmo) as [tm Hm].
  destruct (dir_d_head a5 a6 (String a7 (String a8
              (String a9 (String a10 (String a11 (String a12 EmptyString))))))
              ltac:(assumption) ltac:(assumption) Rd) as [td Hd].
  destruct (dir_H_head a7 a8
              (String a9 (String a10 (String a11 (String a12 EmptyString))))
              ltac:(assumption) ltac:(assumption) Rh) as [th Hh].
  destruct (dir_M_head a9 a10 (String a11 (String a12 EmptyString))
              ltac:(assumption) ltac:(assumption) Rmi) as [tmi Hmi].
  destruct (dir_S_head a11 a12 EmptyString
              ltac:(assumption) ltac:(assumption) Rs) as [ts Hs].
  eexists. unfold Strptime.matches_compact.
  eapply andthen_head_eq.
  { unfold Strptime.dir_Y.
    repeat match goal with
           | H : Str.isdigit _ = true |- _ => rewrite H; clear H
           end.
    reflexivity. }
  cbv beta. eapply andthen_head_eq; [exact Hm|].
  cbv beta. eapply andthen_head_eq; [exact Hd|].
  cbv beta. eapply andthen_head_eq; [exact Hh|].
  cbv beta. eapply andthen_head_eq; [exact Hmi|].
  cbv beta. eapply andthen_head_eq; [exact Hs|].
  reflexivity.
Qed.

Lemma days_before_month_bound (y m : Z) :
  1 <= m <= 12 -> 0 <= Strptime.days_before_month y m <= 335.
Proof.
  intros Hm.
  assert (H : m = 1 \/ m = 2 \/ m = 3 \/ m = 4 \/ m = 5 \/ m = 6 \/ m = 7
              \/ m = 8 \/ m = 9 \/ m = 10 \/ m = 11 \/ m = 12) by lia.
  unfold Strptime.days_before_month, Strptime.days_in_month.
  destruct (Strptime.is_leap y);
    repeat (destruct H as [->|H]; [vm_compute; split; discriminate|]);
    subst m; vm_compute; split; discriminate.
Qed.

(** A date and time of day in a year from 1678 to 2261 lies within the
    range of a nanosecond timestamp. *)
Lemma year_range_in_bounds (f : Strptime.fields) :
  calendar_ok f = true -> 1678 <= Strptime.f_year f <= 2261 ->
  Strptime.in_bounds (Strptime.epoch_seconds f) = true.
Proof.
  intros Hcal Hy. apply calendar_ok_ranges in Hcal.
  destruct Hcal as (_ & Hmo & Hd & Hh & Hmi & Hs).
  pose proof (days_before_month_bound (Strptime.f_year f) _ Hmo) as Hb.
  unfold Strptime.in_bounds, Strptime.epoch_seconds, Strptime.days_from_epoch.
  change (2 ^ 63) with 9223372036854775808.
  change (10 ^ 9) with 1000000000.
  apply andb_true_iff. split; apply Z.ltb_lt.
  - assert (419 <= (Strptime.f_year f - 1) / 4) by (apply Z.div_le_lower_bound; lia).
    assert ((Strptime.f_year f - 1) / 100 < 23) by (apply Z.div_lt_upper_bound; lia).
    assert (4 <= (Strptime.f_year f - 1) / 400) by (apply Z.div_le_lower_bound; lia).
    lia.
  - assert ((Strptime.f_year f - 1) / 4 < 566) by (apply Z.div_lt_upper_bound; lia).
    assert (16 <= (Strptime.f_year f - 1) / 100) by (apply Z.div_le_lower_bound; lia).
    assert ((Strptime.f_year f - 1) / 400 < 6) by (apply Z.div_lt_upper_bound; lia).
    lia.
Qed.

(** X11. A token of fourteen digits whose first four spell a year from
    1678 to 2261 converts exactly when its digits, read as year, month, day,
    hour, minute and second at their places, are a date of the calendar
    with a time of day, the second up to 61. *)
Theorem compact_stamp_converts_iff_valid (stamp : string) :
  Str.fullmatch_d14 stamp = true ->
  1678 <= Strptime.f_year (fixed_fields stamp) <= 2261 ->
  (exists t, to_datetime_compact stamp = Ok t) <->
  calendar_ok (fixed_fields stamp) = true.
Proof.
  intros H14 Hy. unfold to_datetime_compact. split.
  - intros [t H]. apply convert_Ok_bounds in H.
    destruct H as (f & tl & Hc & Hdate & _ & _).
    assert (Hin : In (f, EmptyString) (Strptime.matches_compact stamp))
      by (rewrite Hc; now left).
    destruct (compact_fixed_fields _ _ H14 Hin) as (Hf & Hh & Hm & Hs).
    rewrite <- Hf. now apply calendar_ok_intro.
  - intros Hcal.
    destruct (compact_head _ H14 Hcal) as [tl ->].
    rewrite convert_head, (year_range_in_bounds _ Hcal Hy).
    destruct (calendar_ok_ranges _ Hcal) as [-> _]. eexists. reflexivity.
Qed.

Lemma compact_stamp_converts_iff_valid_witness :
  (exists t, to_datetime_compact "20240229235960" = Ok t) <->
  calendar_ok (fixed_fields "20240229235960") = true.
Proof.
  apply (compact_stamp_converts_iff_valid "20240229235960");
    [reflexivity|vm_compute; split; discriminate].
Defined.

Lemma took_token_length (lo hi : Z) (tok tail : string) (v : Z) (r : string) :
  Str.fullmatch_digits tok = true ->
  tail = EmptyString \/ (exists rest, tail = String " "%char rest) ->
  took lo hi (tok ++ tail)%string v r ->
  r = EmptyString \/ (exists c r', r = String c r' /\ Str.isspace c = true) ->
  (String.length tok <= 2)%nat.
Proof.
  unfold Str.fullmatch_digits. intros Htok Htail Htook Hr.
  destruct tok as [|a [|b [|c tok3]]]; cbn [String.length]; try lia.
  exfalso.
  cbn [String.length Nat.eqb negb andb Str.all_digits] in Htok.
  repeat (apply andb_true_iff in Htok; destruct Htok as [? Htok]).
  cbn [String.append] in Htook.
  apply took_digits in Htook; [|assumption].
  assert (Hlead : forall (x : ascii) (s : string),
             Str.isdigit x = true -> r = String x s -> False).
  { intros x s Hx ->. destruct Hr as [Hr|(c' & r' & Hr & Hsp)]; [discriminate|].
    injection Hr as <- <-. rewrite (digit_not_space _ Hx) in Hsp. discriminate. }
  destruct Htook as [_ [[-> _]| ->]];
    (eapply Hlead; [|reflexivity]; assumption).
Qed.

Lemma year_token_length (y rest : string) (v : Z) (r : string) :
  Str.fullmatch_digits y = true ->
  In (v, r) (Strptime.dir_Y (y ++ String " "%char rest)%string) ->
  (exists c r', r = String c r' /\ Str.isspace c = true) ->
  String.length y = 4%nat.
Proof.
  unfold Str.fullmatch_digits. intros Hy Hin Hr.
  apply dir_Y_In in Hin.
  destruct Hin as (a & b & c & d & Hs & Ha & Hb & Hc & Hd & Hv).
  assert (Hsp : Str.isdigit " "%char = false) by reflexivity.
  destruct y as [|y1 [|y2 [|y3 [|y4 y']]]]; cbn [String.append] in Hs;
    try discriminate; try (injection Hs as; subst; congruence).
  injection Hs as <- <- <- <- Hs.
  destruct y' as [|y5 y'']; cbn [String.append] in Hs; [reflexivity|].
  exfalso. subst r. destruct Hr as (c' & r' & Hr & Hsp').
  injection Hr as <- _.
  cbn [String.length Nat.eqb negb andb Str.all_digits] in Hy.
  repeat (apply andb_true_iff in Hy; destruct Hy as [? Hy]).
  rewrite digit_not_space in Hsp' by assumption. discriminate.
Qed.

(** The widths of six tokens that the split format matches: four digits
    for the year, one or two for each of the others. *)
Lemma spaced_token_widths (y mo d h mi sec : string) (f : Strptime.fields) :
  Str.fullmatch_digits y = true -> Str.fullmatch_digits mo = true ->
  Str.fullmatch_digits d = true -> Str.fullmatch_digits h = true ->
  Str.fullmatch_digits mi = true -> Str.fullmatch_digits sec = true ->
  In (f, EmptyString)
    (Strptime.matches_spaced (Str.join_space [y; mo; d; h; mi; sec])) ->
  String.length y = 4%nat
  /\ (String.length mo <= 2)%nat /\ (String.length d <= 2)%nat
  /\ (String.length h <= 2)%nat /\ (String.length mi <= 2)%nat
  /\ (String.length sec <= 2)%nat.
Proof.
  intros Hy Hmo Hd Hh Hmi Hsec Hin.
  unfold Str.join_space in Hin. cbn [String.concat] in Hin.
  unfold Strptime.matches_spaced in Hin.
  destruct (digits_head _ Hmo) as (mo1 & mo' & Emo & Dmo).
  destruct (digits_head _ Hd) as (d1 & d' & Ed & Dd).
  destruct (digits_head _ Hh) as (h1 & h' & Eh & Dh).
  destruct (digits_head _ Hmi) as (mi1 & mi' & Emi & Dmi).
  destruct (digits_head _ Hsec) as (sec1 & sec' & Esec & Dsec).
  apply andthen_In in Hin. destruct Hin as (vy & r & Hdir & Hin).
  apply space_In in Hin. destruct Hin as (w & Hw & Hin).
  pose proof (year_token_length _ _ _ _ Hy Hdir (ws_plus_head _ _ Hw)) as Ly.
  apply took_year in Hdir; [|exact Hy|eapply ws_plus_head; eauto].
  destruct Hdir as [-> ->].
  rewrite Emo in Hw. cbn [String.append] in Hw.
  apply ws_plus_before_digit in Hw; [|exact Dmo].
  change (String mo1 (mo' ++ ?t)%string) with (String mo1 mo' ++ t)%string in Hw.
  rewrite <- Emo in Hw. subst w.
  apply andthen_In in Hin. destruct Hin as (vmo & r & Hdir & Hin).
  apply space_In in Hin. destruct Hin as (w & Hw & Hin).
  apply dir_m_took in Hdir.
  pose proof (took_token_length _ _ _ _ _ _ Hmo
                (or_intror (ex_intro _ _ eq_refl)) Hdir
                (or_intror (ws_plus_head _ _ Hw))) as Lmo.
  apply took_token in Hdir; [|exact Hmo|eauto|right; eapply ws_plus_head; eauto].
  destruct Hdir as (-> & -> & Rmo).
  rewrite Ed in Hw. cbn [String.append] in Hw.
  apply ws_plus_before_digit in Hw; [|exact Dd].
  change (String d1 (d' ++ ?t)%string) with (String d1 d' ++ t)%string in Hw.
  rewrite <- Ed in Hw. subst w.
  apply andthen_In in Hin. destruct Hin as (vd & r & Hdir & Hin).
  apply space_In in Hin. destruct Hin as (w & Hw & Hin).
  apply dir_d_took in Hdir.
  pose proof (took_token_length _ _ _ _ _ _ Hd
                (or_intror (ex_intro _ _ eq_refl)) Hdir
                (or_intror (ws_plus_head _ _ Hw))) as Ld.
  apply took_token in Hdir; [|exact Hd|eauto|right; eapply ws_plus_head; eauto].
  destruct Hdir as (-> & -> & Rd).
  rewrite Eh in Hw. cbn [String.append] in Hw.
  apply ws_plus_before_digit in Hw; [|exact Dh].
  change (String h1 (h' ++ ?t)%string) with (String h1 h' ++ t)%string in Hw.
  rewrite <- Eh in Hw. subst w.
  apply andthen_In in Hin. destruct Hin as (vh & r & Hdir & Hin).
  apply space_In in Hin. destruct Hin as (w & Hw & Hin).
  apply dir_H_took in Hdir.
  pose proof (took_token_length _ _ _ _ _ _ Hh
                (or_intror (ex_intro _ _ eq_refl)) Hdir
                (or_intror (ws_plus_head _ _ Hw))) as Lh.
  apply took_token in Hdir; [|exact Hh|eauto|right; eapply ws_plus_head; eauto].
  destruct Hdir as (-> & -> & Rh).
  rewrite Emi in Hw. cbn [String.append] in Hw.
  apply ws_plus_before_digit in Hw; [|exact Dmi].
  change (String mi1 (mi' ++ ?t)%string) with (String mi1 mi' ++ t)%string in Hw.
  rewrite <- Emi in Hw. subst w.
  apply andthen_In in Hin. destruct Hin as (vmi & r & Hdir & Hin).
  apply space_In in Hin. destruct Hin as (w & Hw & Hin).
  apply dir_M_took in Hdir.
  pose proof (took_token_length _ _ _ _ _ _ Hmi
                (or_intror (ex_intro _ _ eq_refl)) Hdir
                (or_intror (ws_plus_head _ _ Hw))) as Lmi.
  apply took_token in Hdir; [|exact Hmi|eauto|right; eapply ws_plus_head; eauto].
  destruct Hdir as (-> & -> & Rmi).
  rewrite Esec in Hw.
  apply ws_plus_before_digit in Hw; [|exact Dsec].
  rewrite <- Esec in Hw. subst w.
  apply andthen_In in Hin. destruct Hin as (vsec & r & Hdir & Hin).
  destruct Hin as [[= <- ->]|[]].
  apply dir_S_took in Hdir. rewrite <- (append_empty_r sec) in Hdir.
  pose proof (took_token_length _ _ _ _ _ _ Hsec (or_introl eq_refl) Hdir
                (or_introl eq_refl)) as Lsec.
  auto 10.
Qed.

Lemma not_digit_range (c : ascii) :
  Str.isdigit c = false -> (Str.code c < 48 \/ 57 < Str.code c)%N.
Proof.
  unfold Str.isdigit, Str.in_range. intros H.
  apply andb_false_iff in H. destruct H as [H|H]; apply N.leb_gt in H; lia.
Qed.

Ltac head_of_one_digit :=
  split;
  [ unfold Strptime.alt, Strptime.two, Strptime.one, Strptime.is_char,
      Str.isdigit, Str.in_range, PyFloat.digit_value in *;
    repeat split_char; eexists; reflexivity
  | unfold Strptime.alt, Strptime.two, Strptime.one, Strptime.is_char,
      Str.isdigit, Str.in_range, PyFloat.digit_value in *;
    cbn [app]; repeat split_char; eexists; reflexivity ].

Lemma dir_m_reads : reads_tokens Strptime.dir_m 1 12.
Proof.
  split; [intros; now apply dir_m_head|].
  intros a b r Ha Hb Hv. unfold Strptime.dir_m. head_of_one_digit.
Qed.

Lemma dir_d_reads : reads_tokens Strptime.dir_d 1 31.
Proof.
  split; [intros; now apply dir_d_head|].
  intros a b r Ha Hb Hv. unfold Strptime.dir_d. head_of_one_digit.
Qed.

Lemma dir_H_reads : reads_tokens Strptime.dir_H 0 23.
Proof.
  split; [intros; now apply dir_H_head|].
  intros a b r Ha Hb Hv. unfold Strptime.dir_H. head_of_one_digit.
Qed.

Lemma dir_M_reads : reads_tokens Strptime.dir_M 0 59.
Proof.
  split; [intros; now apply dir_M_head|].
  intros a b r Ha Hb Hv. unfold Strptime.dir_M. head_of_one_digit.
Qed.

Lemma dir_S_reads : reads_tokens Strptime.dir_S 0 61.
Proof.
  split; [intros; now apply dir_S_head|].
  intros a b r Ha Hb Hv. unfold Strptime.dir_S. head_of_one_digit.
Qed.

Lemma token_head (D : Strptime.directive) (lo hi : Z) (tok tail : string) :
  reads_tokens D lo hi ->
  Str.fullmatch_digits tok = true -> (String.length tok <= 2)%nat ->
  lo <= PyFloat.int_of_digits tok <= hi ->
  tail = EmptyString \/ (exists rest, tail = String " "%char rest) ->
  exists tl, D (tok ++ tail)%string = (PyFloat.int_of_digits tok, tail) :: tl.
Proof.
  unfold Str.fullmatch_digits. intros [H2 H1] Htok Hlen Hv Htail.
  destruct tok as [|a [|b [|c tok3]]]; cbn [String.length] in Hlen;
    try discriminate; try lia;
    cbn [String.length Nat.eqb negb andb Str.all_digits] in Htok;
    repeat (apply andb_true_iff in Htok; destruct Htok as [? Htok]).
  - rewrite int_one_digit in *. cbn [String.append].
    destruct Htail as [->|[rest ->]].
    + apply (H1 a " "%char EmptyString); [now apply isdigit_range| |exact Hv].
      apply not_digit_range. reflexivity.
    + apply (H1 a " "%char rest); [now apply isdigit_range| |exact Hv].
      apply not_digit_range. reflexivity.
  - rewrite int_two_digits in *. cbn [String.append].
    apply H2; [now apply isdigit_range|now apply isdigit_range|exact Hv].
Qed.

Lemma space_before_digit {R : Type} (k : string -> list R) (a : ascii) (s : string) :
  Str.isdigit a = true ->
  Strptime.space k (String " "%char (String a s)) = k (String a s).
Proof.
  intros Ha. unfold Strptime.space. cbn [Strptime.ws_plus].
  rewrite (digit_not_space _ Ha).
  change (Str.isspace " "%char) with true. cbn [app flat_map].
  apply app_nil_r.
Qed.

Lemma space_before_token {R : Type} (k : string -> list R) (tok tail : string) :
  Str.fullmatch_digits tok = true ->
  Strptime.space k (String " "%char (tok ++ tail)) = k (tok ++ tail)%string.
Proof.
  intros H. destruct (digits_head _ H) as (a & tl & -> & Ha).
  cbn [String.append]. now apply space_before_digit.
Qed.

(** The first match of the split format on six tokens of the right widths
    that spell a date and time reads each token as a whole. *)
Lemma spaced_head (y mo d h mi sec : string) :
  Str.fullmatch_digits y = true -> Str.fullmatch_digits mo = true ->
  Str.fullmatch_digits d = true -> Str.fullmatch_digits h = true ->
  Str.fullmatch_digits mi = true -> Str.fullmatch_digits sec = true ->
  String.length y = 4%nat ->
  (String.length mo <= 2)%nat -> (String.length d <= 2)%nat ->
  (String.length h <= 2)%nat -> (String.length mi <= 2)%nat ->
  (String.length sec <= 2)%nat ->
  calendar_ok (token_fields [y; mo; d; h; mi; sec]) = true ->
  exists tl,
    Strptime.matches_spaced (Str.join_space [y; mo; d; h; mi; sec])
    = (token_fields [y; mo; d; h; mi; sec], EmptyString) :: tl.
Proof.
  intros Hy Hmo Hd Hh Hmi Hsec Ly Lmo Ld Lh Lmi Lsec Hcal.
  apply calendar_ok_ranges in Hcal. unfold token_fields in *. cbn [nth] in *.
  cbn [Strptime.f_month Strptime.f_day Strptime.f_hour Strptime.f_minute
       Strptime.f_second] in Hcal.
  destruct Hcal as (_ & Rmo & Rd & Rh & Rmi & Rs).
  unfold Str.join_space. cbn [String.concat String.append].
  destruct (token_head _ _ _ mo
              (String " "%char (d ++ String " "%char (h ++ String " "%char
                 (mi ++ String " "%char sec))))
              dir_m_reads Hmo Lmo Rmo (or_intror (ex_intro _ _ eq_refl)))
    as [tm Em].
  destruct (token_head _ _ _ d
              (String " "%char (h ++ String " "%char (mi ++ String " "%char sec)))
              dir_d_reads Hd Ld Rd (or_intror (ex_intro _ _ eq_refl)))
    as [td Ed].
  destruct (token_head _ _ _ h (String " "%char (mi ++ String " "%char sec))
              dir_H_reads Hh Lh Rh (or_intror (ex_intro _ _ eq_refl)))
    as [th Eh].
  destruct (token_head _ _ _ mi (String " "%char sec)
              dir_M_reads Hmi Lmi Rmi (or_intror (ex_intro _ _ eq_refl)))
    as [tmi Emi].
  destruct (token_head _ _ _ sec EmptyString
              dir_S_reads Hsec Lsec Rs (or_introl eq_refl))
    as [ts Es].
  rewrite append_empty_r in Es.
  eexists. unfold Strptime.matches_spaced.
  eapply andthen_head_eq.
  { unfold Str.fullmatch_digits in Hy.
    destruct y as [|y1 [|y2 [|y3 [|y4 [|y5 y']]]]]; try discriminate.
    cbn [String.length Nat.eqb negb andb Str.all_digits] in Hy.
    repeat (apply andb_true_iff in Hy; destruct Hy as [? Hy]).
    cbn [String.append]. unfold Strptime.dir_Y.
    repeat match goal with
           | H : Str.isdigit _ = true |- _ => rewrite H; clear H
           end.
    reflexivity. }
  cbv beta. rewrite (space_before_token _ _ _ Hmo).
  eapply andthen_head_eq; [exact Em|].
  cbv beta. rewrite (space_before_token _ _ _ Hd).
  eapply andthen_head_eq; [exact Ed|].
  cbv beta. rewrite (space_before_token _ _ _ Hh).
  eapply andthen_head_eq; [exact Eh|].
  cbv beta. rewrite (space_before_token _ _ _ Hmi).
  eapply andthen_head_eq; [exact Emi|].
  cbv beta.
  destruct (digits_head _ Hsec) as (s1 & s' & Esec & Ds).
  rewrite Esec in *. rewrite (space_before_digit _ _ _ Ds).
  eapply andthen_head_eq; [exact Es|].
  reflexivity.
Qed.

(** X12. Six tokens of digits, the first of them a number from 1678 to
    2261, joined by blanks convert exactly when the year token has four
    digits, each other token one or two, and the six numbers are a date of
    the calendar with a time of day, the second up to 61. *)
Theorem spaced_stamp_converts_iff_valid (y mo d h mi sec : string) :
  Str.fullmatch_digits y = true -> Str.fullmatch_digits mo = true ->
  Str.fullmatch_digits d = true -> Str.fullmatch_digits h = true ->
  Str.fullmatch_digits mi = true -> Str.fullmatch_digits sec = true ->
  1678 <= PyFloat.int_of_digits y <= 2261 ->
  (exists t, to_datetime_spaced (Str.join_space [y; mo; d; h; mi; sec]) = Ok t)
  <->
  String.length y = 4%nat
  /\ (String.length mo <= 2)%nat /\ (String.length d <= 2)%nat
  /\ (String.length h <= 2)%nat /\ (String.length mi <= 2)%nat
  /\ (String.length sec <= 2)%nat
  /\ calendar_ok (token_fields [y; mo; d; h; mi; sec]) = true.
Proof.
  intros Hy Hmo Hd Hh Hmi Hsec Hyear. unfold to_datetime_spaced. split.
  - intros [t H]. apply convert_Ok_bounds in H.
    destruct H as (f & tl & Hc & Hdate & _ & _).
    assert (Hin : In (f, EmptyString)
                    (Strptime.matches_spaced
                       (Str.join_space [y; mo; d; h; mi; sec])))
      by (rewrite Hc; now left).
    destruct (spaced_token_fields _ _ _ _ _ _ _ Hy Hmo Hd Hh Hmi Hsec Hin)
      as (Hf & Rh & Rm & Rs).
    destruct (spaced_token_widths _ _ _ _ _ _ _ Hy Hmo Hd Hh Hmi Hsec Hin)
      as (Ly & Lmo & Ld & Lh & Lmi & Lsec).
    rewrite <- Hf. repeat split; try assumption.
    now apply calendar_ok_intro.
  - intros (Ly & Lmo & Ld & Lh & Lmi & Lsec & Hcal).
    destruct (spaced_head _ _ _ _ _ _ Hy Hmo Hd Hh Hmi Hsec
                Ly Lmo Ld Lh Lmi Lsec Hcal) as [tl ->].
    rewrite convert_head, (year_range_in_bounds _ Hcal Hyear).
    destruct (calendar_ok_ranges _ Hcal) as [-> _]. eexists. reflexivity.
Qed.

Lemma spaced_stamp_converts_iff_valid_witness :
  (exists t,
      to_datetime_spaced (Str.join_space ["2024"; "2"; "29"; "7"; "05"; "0"])
      = Ok t)
  <->
  String.length "2024" = 4%nat
  /\ (String.length "2" <= 2)%nat /\ (String.length "29" <= 2)%nat
  /\ (String.length "7" <= 2)%nat /\ (String.length "05" <= 2)%nat
  /\ (String.length "0" <= 2)%nat
  /\ calendar_ok (token_fields ["2024"; "2"; "29"; "7"; "05"; "0"]) = true.
Proof.
  apply (spaced_stamp_converts_iff_valid "2024" "2" "29" "7" "05" "0");
    try reflexivity.
  vm_compute. split; discriminate.
Defined.

Lemma two_digit_tokens (y mo d h mi sec : string) :
  Str.fullmatch_digits y = true -> Str.fullmatch_digits mo = true ->
  Str.fullmatch_digits d = true -> Str.fullmatch_digits h = true ->
  Str.fullmatch_digits mi = true -> Str.fullmatch_digits sec = true ->
  String.length y = 4%nat -> String.length mo = 2%nat ->
  String.length d = 2%nat -> String.length h = 2%nat ->
  String.length mi = 2%nat -> String.length sec = 2%nat ->
  Str.fullmatch_d14 (y ++ mo ++ d ++ h ++ mi ++ sec) = true
  /\ fixed_fields (y ++ mo ++ d ++ h ++ mi ++ sec)
     = token_fields [y; mo; d; h; mi; sec].
Proof.
  unfold Str.fullmatch_digits. intros Hy Hmo Hd Hh Hmi Hsec Ly Lmo Ld Lh Lmi Lsec.
  destruct y as [|? [|? [|? [|? [|? ?]]]]]; try discriminate.
  destruct mo as [|? [|? [|? ?]]]; try discriminate.
  destruct d as [|? [|? [|? ?]]]; try discriminate.
  destruct h as [|? [|? [|? ?]]]; try discriminate.
  destruct mi as [|? [|? [|? ?]]]; try discriminate.
  destruct sec as [|? [|? [|? ?]]]; try discriminate.
  cbn [String.length Nat.eqb negb andb Str.all_digits] in *.
  repeat match goal with
         | H : _ && _ = true |- _ => apply andb_true_iff in H; destruct H
         end.
  split.
  - unfold Str.fullmatch_d14. cbn [String.append String.length Nat.eqb andb
                                    Str.all_digits].
    repeat match goal with
           | H : Str.isdigit _ = true |- _ => rewrite H; clear H
           end.
    reflexivity.
  - reflexivity.
Qed.

(** X13. The two record shapes agree: six tokens of digits, the year of
    four and the others of two digits each, convert in the split format to
    the timestamp that the combined format gives for the same digits
    written in one token, and they convert exactly when that token does. *)
Theorem record_shapes_agree (y mo d h mi sec : string) (t : Timestamp) :
  Str.fullmatch_digits y = true -> Str.fullmatch_digits mo = true ->
  Str.fullmatch_digits d = true -> Str.fullmatch_digits h = true ->
  Str.fullmatch_digits mi = true -> Str.fullmatch_digits sec = true ->
  String.length y = 4%nat -> String.length mo = 2%nat ->
  String.length d = 2%nat -> String.length h = 2%nat ->
  String.length mi = 2%nat -> String.length sec = 2%nat ->
  to_datetime_spaced (Str.join_space [y; mo; d; h; mi; sec]) = Ok t <->
  to_datetime_compact (y ++ mo ++ d ++ h ++ mi ++ sec) = Ok t.
Proof.
  intros Hy Hmo Hd Hh Hmi Hsec Ly Lmo Ld Lh Lmi Lsec.
  destruct (two_digit_tokens _ _ _ _ _ _ Hy Hmo Hd Hh Hmi Hsec
              Ly Lmo Ld Lh Lmi Lsec) as [H14 Hf].
  unfold to_datetime_spaced, to_datetime_compact. split.
  - intros H. apply convert_Ok_bounds in H.
    destruct H as (f & tl & Hc & Hdate & Hb & ->).
    assert (Hin : In (f, EmptyString)
                    (Strptime.matches_spaced
                       (Str.join_space [y; mo; d; h; mi; sec])))
      by (rewrite Hc; now left).
    destruct (spaced_token_fields _ _ _ _ _ _ _ Hy Hmo Hd Hh Hmi Hsec Hin)
      as (Hf' & Rh & Rm & Rs).
    assert (Hcal : calendar_ok f = true) by now apply calendar_ok_intro.
    rewrite Hf', <- Hf in Hcal.
    destruct (compact_head _ H14 Hcal) as [tl' ->].
    rewrite convert_head. rewrite Hf' in Hb, Hdate |- *. rewrite <- Hf in Hb, Hdate |- *.
    now rewrite Hdate, Hb.
  - intros H. apply convert_Ok_bounds in H.
    destruct H as (f & tl & Hc & Hdate & Hb & ->).
    assert (Hin : In (f, EmptyString)
                    (Strptime.matches_compact (y ++ mo ++ d ++ h ++ mi ++ sec)))
      by (rewrite Hc; now left).
    destruct (compact_fixed_fields _ _ H14 Hin) as (Hf' & Rh & Rm & Rs).
    assert (Hcal : calendar_ok f = true) by now apply calendar_ok_intro.
    rewrite Hf', Hf in Hcal.
    destruct (spaced_head _ _ _ _ _ _ Hy Hmo Hd Hh Hmi Hsec Ly
                ltac:(lia) ltac:(lia) ltac:(lia) ltac:(lia) ltac:(lia) Hcal)
      as [tl' ->].
    rewrite convert_head. rewrite Hf' in Hb, Hdate |- *. rewrite Hf in Hb, Hdate |- *.
    now rewrite Hdate, Hb.
Qed.

Lemma record_shapes_agree_witness :
  to_datetime_spaced (Str.join_space ["2025"; "07"; "29"; "12"; "00"; "00"])
  = Ok (Strptime.utc 2025 7 29 12 0 0).
Proof.
  apply (record_shapes_agree "2025" "07" "29" "12" "00" "00"); reflexivity.
Defined.
